(** * Examen01-DW: the library system of ejercicio01.py, ejercicio02.py and
    ejercicio03.py, embedded as Rocq functions.

    Layout of the development:
    - [Py]: the Python built-ins the sources call (text as lists of code
      points, [strip], [split], [lower], [int], [str], text-mode
      [readlines]).
    - [Libro], [Prestamo]: the two entity records.
    - [Ej01]: search strategies and their registry.
    - [Ej02]: validator, repository, notifier and the refactored service.
    - [Ej03]: the repository interface, its file and memory
      implementations, and the service that receives one of them.
    - [PorReferencia]: the inserts and look-ups of the memory repository
      over a store of objects.
    - the vocabulary of the properties (call sequences, reachable states,
      invariants, the shapes of the file) and the concrete states of the
      examples;
    - the proofs: [PyFacts] and [ListaFacts] for the built-ins and the
      lists, [ArchivoFacts] for the file format, [Ej03Facts] and
      [Ej02Facts] for the two services, [Claims] for the properties that
      span several files, [Extras] for further properties of the code.

    Python objects are mutable and handed around by reference.  Under the
    services and the loader every record stored in a repository list is a
    separate object: it is built by one constructor call (in a service
    method or in the loader) and appended once.  The service methods fetch
    the first record with a given id, assign to one of its attributes and
    hand it to [actualizar_*], which stores it over the first record with
    that id, the very object that was fetched.  The embedding therefore
    writes the assignment as a record update followed by the same
    [actualizar_*] call, and [agregar_*] as the append of a new record.
    A caller of the repository itself may hand [agregar_*] an object that
    is already stored; [PorReferencia] has the lists of [RepositorioMemoria]
    by reference for that case. *)

From Stdlib Require Import ZArith NArith List Lia Bool String Ascii.
From Stdlib Require Import DecimalZ DecimalPos.
From stdpp Require Import base option list gmap.

Import ListNotations.

(** ** Python built-ins *)

Module Py.

(** A Python [str]: the sequence of its Unicode code points. *)
Abbreviation str := (list N).

(** [len(s)] *)
Definition len (s : str) : Z := Z.of_nat (List.length s).

(** Code points of a UTF-8 byte sequence; used only to write the literals
    of the sources. *)
Fixpoint utf8 (bs : list N) : str :=
  match bs with
  | [] => []
  | b :: r =>
      if (b <? 128)%N then b :: utf8 r
      else if (b <? 224)%N then
        match r with
        | c :: r1 => ((b - 192) * 64 + (c - 128))%N :: utf8 r1
        | _ => []
        end
      else if (b <? 240)%N then
        match r with
        | c :: d :: r2 =>
            ((b - 224) * 4096 + (c - 128) * 64 + (d - 128))%N :: utf8 r2
        | _ => []
        end
      else
        match r with
        | c :: d :: e :: r3 =>
            ((b - 240) * 262144 + (c - 128) * 4096 + (d - 128) * 64
             + (e - 128))%N :: utf8 r3
        | _ => []
        end
  end.

Fixpoint bytes_of (s : string) : list N :=
  match s with
  | EmptyString => []
  | String a r => N_of_ascii a :: bytes_of r
  end.

(** A literal of the source. *)
Definition py (s : string) : str := utf8 (bytes_of s).

Definition NL : N := 10%N.
Definition CR : N := 13%N.
Definition PIPE : N := 124%N.

(** [str.isspace] on one code point. *)
Definition isspace (c : N) : bool :=
  ((9 <=? c) && (c <=? 13) || (28 <=? c) && (c <=? 32)
   || (c =? 133) || (c =? 160) || (c =? 5760)
   || (8192 <=? c) && (c <=? 8202)
   || (c =? 8232) || (c =? 8233) || (c =? 8239) || (c =? 8287)
   || (c =? 12288))%N.

Fixpoint lstrip (s : str) : str :=
  match s with
  | [] => []
  | c :: r => if isspace c then lstrip r else s
  end.

Definition rstrip (s : str) : str := rev (lstrip (rev s)).

(** [s.strip()] *)
Definition strip (s : str) : str := rstrip (lstrip s).

(** [str.lower] on the Basic Latin and Latin-1 blocks, where every literal
    the sources compare a lowered text with lives; code points of other
    blocks are left as they are. *)
Definition lower_char (c : N) : N :=
  if ((65 <=? c) && (c <=? 90))%N then (c + 32)%N
  else if ((192 <=? c) && (c <=? 222) && negb (c =? 215))%N then (c + 32)%N
  else c.

Definition lower (s : str) : str := map lower_char s.

(** [a == b] on texts. *)
Definition eqb (a b : str) : bool := bool_decide (a = b).

Fixpoint startswith (s p : str) : bool :=
  match p, s with
  | [], _ => true
  | _ :: _, [] => false
  | x :: p1, y :: s1 => (x =? y)%N && startswith s1 p1
  end.

(** [p in s]: [p] occurs in [s] as a contiguous run. *)
Fixpoint contains (s p : str) : bool :=
  startswith s p ||
  match s with
  | [] => false
  | _ :: r => contains r p
  end.

(** [s.split(sep)] for a separator of one code point. *)
Fixpoint split (sep : N) (s : str) : list str :=
  match s with
  | [] => [[]]
  | c :: r =>
      if (c =? sep)%N then [] :: split sep r
      else
        match split sep r with
        | [] => [[c]]
        | p :: ps => (c :: p) :: ps
        end
  end.

(** [sep.join(parts)] *)
Fixpoint join (sep : str) (parts : list str) : str :=
  match parts with
  | [] => []
  | [p] => p
  | p :: ps => p ++ sep ++ join sep ps
  end.

(** The lines a text-mode file yields to [readlines()]: universal newlines
    turn "\r\n" and a lone "\r" into "\n", and every line keeps its
    terminator. *)
Fixpoint readlines (s : str) : list str :=
  match s with
  | [] => []
  | c :: r =>
      if (c =? NL)%N then [NL] :: readlines r
      else if (c =? CR)%N then
        match r with
        | d :: r1 => if (d =? NL)%N then [NL] :: readlines r1
                     else [NL] :: readlines r
        | [] => [[NL]]
        end
      else
        match readlines r with
        | [] => [[c]]
        | l :: ls => (c :: l) :: ls
        end
  end.

(** Decimal digits. *)
Fixpoint uint_chars (u : Decimal.uint) : str :=
  match u with
  | Decimal.Nil => []
  | Decimal.D0 v => 48%N :: uint_chars v
  | Decimal.D1 v => 49%N :: uint_chars v
  | Decimal.D2 v => 50%N :: uint_chars v
  | Decimal.D3 v => 51%N :: uint_chars v
  | Decimal.D4 v => 52%N :: uint_chars v
  | Decimal.D5 v => 53%N :: uint_chars v
  | Decimal.D6 v => 54%N :: uint_chars v
  | Decimal.D7 v => 55%N :: uint_chars v
  | Decimal.D8 v => 56%N :: uint_chars v
  | Decimal.D9 v => 57%N :: uint_chars v
  end.

(** [str(n)] of an [int], as an f-string prints it. *)
Definition str_of_int (n : Z) : str :=
  match Z.to_int n with
  | Decimal.Pos u => uint_chars u
  | Decimal.Neg u => 45%N :: uint_chars u
  end.

(** [str(b)] of a [bool]. *)
Definition str_of_bool (b : bool) : str :=
  if b then py "True" else py "False".

Definition digit (c : N) (u : Decimal.uint) : option Decimal.uint :=
  if (c =? 48)%N then Some (Decimal.D0 u)
  else if (c =? 49)%N then Some (Decimal.D1 u)
  else if (c =? 50)%N then Some (Decimal.D2 u)
  else if (c =? 51)%N then Some (Decimal.D3 u)
  else if (c =? 52)%N then Some (Decimal.D4 u)
  else if (c =? 53)%N then Some (Decimal.D5 u)
  else if (c =? 54)%N then Some (Decimal.D6 u)
  else if (c =? 55)%N then Some (Decimal.D7 u)
  else if (c =? 56)%N then Some (Decimal.D8 u)
  else if (c =? 57)%N then Some (Decimal.D9 u)
  else None.

(** The digits of an integer literal; a single underscore may sit between
    two digits.  [prev] tells whether the previous code point was a
    digit. *)
Fixpoint digits (prev : bool) (s : str) : option Decimal.uint :=
  match s with
  | [] => if prev then Some Decimal.Nil else None
  | c :: r =>
      if (c =? 95)%N then (if prev then digits false r else None)
      else
        match digits true r with
        | Some u => digit c u
        | None => None
        end
  end.

(** [int(s)]: surrounding white space, an optional sign, ASCII digits.
    [None] is the [ValueError] Python raises.  (Python also reads the
    decimal digits of other scripts, and from version 3.11 on [int] and
    [str] refuse a number of more than 4300 digits; the numbers read back
    below are those [str] has printed.) *)
Definition int (s : str) : option Z :=
  match strip s with
  | c :: r =>
      if (c =? 45)%N then
        (fun u => Z.of_int (Decimal.Neg u)) <$> digits false r
      else if (c =? 43)%N then
        (fun u => Z.of_int (Decimal.Pos u)) <$> digits false r
      else (fun u => Z.of_int (Decimal.Pos u)) <$> digits false (c :: r)
  | [] => None
  end.

(** The exceptions the sources raise or catch. *)
Inductive Exception :=
| ValueError (msg : str)
| InvalidLiteralForInt (literal : str)
| IndexError.

(** The outcome of a call that may raise. *)
Inductive result (A : Type) :=
| Ok (a : A)
| Raise (e : Exception).

Arguments Ok {A} a.
Arguments Raise {A} e.

End Py.

Import Py.
Arguments py s%_string : simpl never.

(** ** Entities *)

Module Libro.

(** Modelled from the spec: libro.py is not among the sources.  The record
    has the five attributes of the Book of the data model, in the order of
    the constructor calls [Libro(id, titulo, autor, isbn, disponible)];
    [id] is [None] until a repository assigns it. *)
Record t := Libro {
  id : option Z;
  titulo : str;
  autor : str;
  isbn : str;
  disponible : bool
}.

Definition set_id (v : option Z) (l : t) : t :=
  Libro v (titulo l) (autor l) (isbn l) (disponible l).

Definition set_disponible (v : bool) (l : t) : t :=
  Libro (id l) (titulo l) (autor l) (isbn l) v.

End Libro.

Module Prestamo.

(** Modelled from the spec: prestamo.py is not among the sources.  The
    record has the attributes of the Loan of the data model; the
    constructor [Prestamo(id, libro_id, usuario, fecha)] leaves [devuelto]
    at its default, false. *)
Record t := Prestamo_ {
  id : option Z;
  libro_id : Z;
  usuario : str;
  fecha : str;
  devuelto : bool
}.

Definition Prestamo (id : option Z) (libro_id : Z) (usuario fecha : str) : t :=
  Prestamo_ id libro_id usuario fecha false.

Definition set_id (v : option Z) (p : t) : t :=
  Prestamo_ v (libro_id p) (usuario p) (fecha p) (devuelto p).

Definition set_devuelto (v : bool) (p : t) : t :=
  Prestamo_ (id p) (libro_id p) (usuario p) (fecha p) v.

End Prestamo.

(** ** ejercicio01.py: search strategies *)

Module Ej01.

(** [class EstrategiaBusqueda(ABC)]: the one abstract method. *)
Record EstrategiaBusqueda := {
  buscar : list Libro.t -> str -> list Libro.t
}.

Definition BusquedaPorTitulo : EstrategiaBusqueda :=
  {| buscar libros valor :=
       List.filter
         (fun libro => contains (lower (Libro.titulo libro)) (lower valor))
         libros |}.

Definition BusquedaPorAutor : EstrategiaBusqueda :=
  {| buscar libros valor :=
       List.filter
         (fun libro => contains (lower (Libro.autor libro)) (lower valor))
         libros |}.

Definition BusquedaPorISBN : EstrategiaBusqueda :=
  {| buscar libros valor :=
       List.filter (fun libro => Py.eqb (Libro.isbn libro) valor) libros |}.

(** The tokens [BusquedaPorDisponibilidad] reads as true. *)
Definition tokens_verdaderos : list str :=
  [py "true"; py "1"; py "si"; py "sí"; py "yes"].

Definition BusquedaPorDisponibilidad : EstrategiaBusqueda :=
  {| buscar libros valor :=
       let disponible := existsb (Py.eqb (lower valor)) tokens_verdaderos in
       List.filter
         (fun libro => Bool.eqb (Libro.disponible libro) disponible)
         libros |}.

Record SistemaBibliotecaRefactorizado := {
  libros : list Libro.t;
  _estrategias_busqueda : gmap (list N) EstrategiaBusqueda
}.

(** [__init__] *)
Definition nuevo : SistemaBibliotecaRefactorizado :=
  {| libros := [];
     _estrategias_busqueda :=
       <[py "titulo" := BusquedaPorTitulo]>
       (<[py "autor" := BusquedaPorAutor]>
       (<[py "isbn" := BusquedaPorISBN]>
       (<[py "disponible" := BusquedaPorDisponibilidad]> ∅))) |}.

Definition agregar_libro (libro : Libro.t) (s : SistemaBibliotecaRefactorizado)
  : SistemaBibliotecaRefactorizado :=
  {| libros := libros s ++ [libro];
     _estrategias_busqueda := _estrategias_busqueda s |}.

Definition buscar_libro (criterio valor : str)
    (s : SistemaBibliotecaRefactorizado) : result (list Libro.t) :=
  match _estrategias_busqueda s !! criterio with
  | None =>
      Raise (ValueError (py "Criterio de búsqueda no válido: " ++ criterio))
  | Some estrategia => Ok (buscar estrategia (libros s) valor)
  end.

Definition registrar_estrategia (criterio : str)
    (estrategia : EstrategiaBusqueda) (s : SistemaBibliotecaRefactorizado)
  : SistemaBibliotecaRefactorizado :=
  {| libros := libros s;
     _estrategias_busqueda := <[criterio := estrategia]> (_estrategias_busqueda s) |}.

End Ej01.

(** ** The world outside the objects *)

(** The file system: the text of every file that exists, by path. *)
Abbreviation Disco := (gmap (list N) (list N)).

(** What [print] sends to standard output. *)
Inductive Impreso :=
| Linea (texto : str)
| ErrorCargandoArchivo (e : Exception).

(** [not s] on a text: true on the empty text. *)
Definition vacio (s : str) : bool :=
  match s with
  | [] => true
  | _ :: _ => false
  end.

(** An optional id, as an f-string prints it. *)
Definition str_of_id (i : option Z) : str :=
  match i with
  | Some n => str_of_int n
  | None => py "None"
  end.

(** ** ejercicio02.py: single responsibility *)

Module Ej02.

Module ValidadorBiblioteca.

Definition validar_libro (titulo autor isbn : str) : list str :=
  let errores := [] in
  let errores :=
    if vacio titulo || (len (strip titulo) <? 2)%Z
    then errores ++ [py "Error: Título inválido - debe tener al menos 2 caracteres"]
    else errores in
  let errores :=
    if vacio autor || (len (strip autor) <? 3)%Z
    then errores ++ [py "Error: Autor inválido - debe tener al menos 3 caracteres"]
    else errores in
  let errores :=
    if vacio isbn || (len (strip isbn) <? 10)%Z
    then errores ++ [py "Error: ISBN inválido - debe tener al menos 10 caracteres"]
    else errores in
  errores.

Definition validar_usuario (usuario : str) : list str :=
  let errores := [] in
  let errores :=
    if vacio usuario || (len (strip usuario) <? 3)%Z
    then errores ++ [py "Error: Nombre de usuario inválido - debe tener al menos 3 caracteres"]
    else errores in
  errores.

Definition validar_prestamo_existente (prestamo : option Prestamo.t) : list str :=
  match prestamo with
  | None => [py "Error: Préstamo no encontrado"]
  | Some p =>
      if Prestamo.devuelto p then [py "Error: Libro ya devuelto"] else []
  end.

Definition validar_libro_disponible (libro : option Libro.t) : list str :=
  match libro with
  | None => [py "Error: Libro no encontrado"]
  | Some l =>
      if negb (Libro.disponible l) then [py "Error: Libro no disponible"]
      else []
  end.

End ValidadorBiblioteca.

Module RepositorioBiblioteca.

Record t := Repo {
  archivo : str;
  libros : list Libro.t;
  prestamos : list Prestamo.t;
  contador_libro : Z;
  contador_prestamo : Z
}.

(** [__init__], with the default file name. *)
Definition nuevo : t := Repo (py "biblioteca.txt") [] [] 1 1.

(** The simplified dump: two counts. *)
Definition _guardar_en_archivo (r : t) (d : Disco) : Disco :=
  <[archivo r :=
      py "Libros: " ++ str_of_int (Z.of_nat (length (libros r))) ++ [NL]
      ++ py "Préstamos: " ++ str_of_int (Z.of_nat (length (prestamos r)))
      ++ [NL]]> d.

(** The record handed in stands for an object no list holds yet, as in every
    call the service makes: the id is written on it and it is appended. *)
Definition agregar_libro (libro : Libro.t) (r : t) (d : Disco)
  : Libro.t * t * Disco :=
  let libro := Libro.set_id (Some (contador_libro r)) libro in
  let r := Repo (archivo r) (libros r ++ [libro]) (prestamos r)
                (contador_libro r + 1) (contador_prestamo r) in
  (libro, r, _guardar_en_archivo r d).

Definition obtener_libro_por_id (libro_id : Z) (r : t) : option Libro.t :=
  snd <$> list_find (fun libro => Libro.id libro = Some libro_id) (libros r).

Definition obtener_todos_libros (r : t) : list Libro.t := libros r.

Definition obtener_libros_disponibles (r : t) : list Libro.t :=
  List.filter Libro.disponible (libros r).

Definition actualizar_libro (libro : Libro.t) (r : t) (d : Disco) : t * Disco :=
  let r :=
    match list_find (fun l => Libro.id l = Libro.id libro) (libros r) with
    | Some (i, _) =>
        Repo (archivo r) (<[i := libro]> (libros r)) (prestamos r)
             (contador_libro r) (contador_prestamo r)
    | None => r
    end in
  (r, _guardar_en_archivo r d).

(** As for [agregar_libro], the record stands for an object no list holds
    yet. *)
Definition agregar_prestamo (prestamo : Prestamo.t) (r : t) (d : Disco)
  : Prestamo.t * t * Disco :=
  let prestamo := Prestamo.set_id (Some (contador_prestamo r)) prestamo in
  let r := Repo (archivo r) (libros r) (prestamos r ++ [prestamo])
                (contador_libro r) (contador_prestamo r + 1) in
  (prestamo, r, _guardar_en_archivo r d).

Definition obtener_prestamo_por_id (prestamo_id : Z) (r : t)
  : option Prestamo.t :=
  snd <$> list_find (fun prestamo => Prestamo.id prestamo = Some prestamo_id)
            (prestamos r).

Definition obtener_prestamos_activos (r : t) : list Prestamo.t :=
  List.filter (fun p => negb (Prestamo.devuelto p)) (prestamos r).

Definition actualizar_prestamo (prestamo : Prestamo.t) (r : t) (d : Disco)
  : t * Disco :=
  let r :=
    match list_find (fun p => Prestamo.id p = Prestamo.id prestamo)
            (prestamos r) with
    | Some (i, _) =>
        Repo (archivo r) (libros r) (<[i := prestamo]> (prestamos r))
             (contador_libro r) (contador_prestamo r)
    | None => r
    end in
  (r, _guardar_en_archivo r d).

(** [cargar_desde_archivo], which nothing in the file calls, is not
    embedded: it stores nothing and only answers whether the file could be
    opened and read, and the file system above holds no file that exists
    and cannot be read. *)

End RepositorioBiblioteca.

Module ServicioNotificaciones.

Definition enviar_notificacion_prestamo (usuario titulo_libro : str) : Impreso :=
  Linea (py "[NOTIFICACIÓN] " ++ usuario ++ py ": Préstamo de '"
         ++ titulo_libro ++ py "' realizado exitosamente").

Definition enviar_notificacion_devolucion (usuario titulo_libro : str) : Impreso :=
  Linea (py "[NOTIFICACIÓN] " ++ usuario ++ py ": Devolución de '"
         ++ titulo_libro ++ py "' realizada exitosamente").

Definition enviar_recordatorio_prestamo (usuario titulo_libro : str)
    (dias_retraso : Z) : Impreso :=
  Linea (py "[RECORDATORIO] " ++ usuario ++ py ": El libro '" ++ titulo_libro
         ++ py "' tiene " ++ str_of_int dias_retraso ++ py " días de retraso").

End ServicioNotificaciones.

Module SistemaBibliotecaRefactorizado.

(** The service object (its validator and notifier hold no data) with the
    file system and the standard output it acts on. *)
Record t := Sistema {
  repositorio : RepositorioBiblioteca.t;
  disco : Disco;
  salida : list Impreso
}.

(** [__init__], on a given file system. *)
Definition nuevo (d : Disco) : t := Sistema RepositorioBiblioteca.nuevo d [].

Definition agregar_libro (titulo autor isbn : str) (s : t) : str * t :=
  let errores := ValidadorBiblioteca.validar_libro titulo autor isbn in
  if negb (bool_decide (errores = [])) then (join [NL] errores, s)
  else
    let libro := Libro.Libro None titulo autor isbn true in
    let '(libro_guardado, r, d) :=
      RepositorioBiblioteca.agregar_libro libro (repositorio s) (disco s) in
    (py "Libro '" ++ titulo ++ py "' agregado exitosamente (ID: "
     ++ str_of_id (Libro.id libro_guardado) ++ py ")",
     Sistema r d (salida s)).

Definition buscar_libro (criterio valor : str) (s : t) : list Libro.t :=
  let libros := RepositorioBiblioteca.obtener_todos_libros (repositorio s) in
  if Py.eqb criterio (py "titulo") then
    List.filter
      (fun libro => contains (lower (Libro.titulo libro)) (lower valor)) libros
  else if Py.eqb criterio (py "autor") then
    List.filter
      (fun libro => contains (lower (Libro.autor libro)) (lower valor)) libros
  else if Py.eqb criterio (py "isbn") then
    List.filter (fun libro => Py.eqb (Libro.isbn libro) valor) libros
  else if Py.eqb criterio (py "disponible") then
    let disponible := Py.eqb (lower valor) (py "true") in
    List.filter (fun libro => Bool.eqb (Libro.disponible libro) disponible)
      libros
  else [].

(** [hoy] is the text [datetime.now().strftime("%Y-%m-%d")] gives at the
    call.  The validator reports an absent book, so the method has returned
    before it reads an attribute of [libro]. *)
Definition realizar_prestamo (libro_id : Z) (usuario : str) (hoy : str)
    (s : t) : str * t :=
  let errores_usuario := ValidadorBiblioteca.validar_usuario usuario in
  if negb (bool_decide (errores_usuario = [])) then
    (join [NL] errores_usuario, s)
  else
    let libro :=
      RepositorioBiblioteca.obtener_libro_por_id libro_id (repositorio s) in
    let errores_libro := ValidadorBiblioteca.validar_libro_disponible libro in
    match libro with
    | Some libro =>
        if negb (bool_decide (errores_libro = [])) then
          (join [NL] errores_libro, s)
        else
          let prestamo := Prestamo.Prestamo None libro_id usuario hoy in
          let '(prestamo_guardado, r, d) :=
            RepositorioBiblioteca.agregar_prestamo prestamo (repositorio s)
              (disco s) in
          let libro := Libro.set_disponible false libro in
          let '(r, d) := RepositorioBiblioteca.actualizar_libro libro r d in
          let salida :=
            salida s ++
            [ServicioNotificaciones.enviar_notificacion_prestamo usuario
               (Libro.titulo libro)] in
          (py "Préstamo realizado a " ++ usuario ++ py " (ID Préstamo: "
           ++ str_of_id (Prestamo.id prestamo_guardado) ++ py ")",
           Sistema r d salida)
    | None => (join [NL] errores_libro, s)
    end.

(** The validator reports an absent loan, so the method has returned before
    it reads an attribute of [prestamo]. *)
Definition devolver_libro (prestamo_id : Z) (s : t) : str * t :=
  let prestamo :=
    RepositorioBiblioteca.obtener_prestamo_por_id prestamo_id (repositorio s) in
  let errores := ValidadorBiblioteca.validar_prestamo_existente prestamo in
  match prestamo with
  | Some prestamo =>
      if negb (bool_decide (errores = [])) then (join [NL] errores, s)
      else
        let libro :=
          RepositorioBiblioteca.obtener_libro_por_id
            (Prestamo.libro_id prestamo) (repositorio s) in
        let '(r, d) :=
          match libro with
          | Some libro =>
              RepositorioBiblioteca.actualizar_libro
                (Libro.set_disponible true libro) (repositorio s) (disco s)
          | None => (repositorio s, disco s)
          end in
        let prestamo := Prestamo.set_devuelto true prestamo in
        let '(r, d) := RepositorioBiblioteca.actualizar_prestamo prestamo r d in
        let salida :=
          match libro with
          | Some libro =>
              salida s ++
              [ServicioNotificaciones.enviar_notificacion_devolucion
                 (Prestamo.usuario prestamo) (Libro.titulo libro)]
          | None => salida s
          end in
        (py "Libro devuelto exitosamente", Sistema r d salida)
  | None => (join [NL] errores, s)
  end.

Definition obtener_todos_libros (s : t) : list Libro.t :=
  RepositorioBiblioteca.obtener_todos_libros (repositorio s).

Definition obtener_libros_disponibles (s : t) : list Libro.t :=
  RepositorioBiblioteca.obtener_libros_disponibles (repositorio s).

Definition obtener_prestamos_activos (s : t) : list Prestamo.t :=
  RepositorioBiblioteca.obtener_prestamos_activos (repositorio s).

End SistemaBibliotecaRefactorizado.

End Ej02.

(** ** ejercicio03.py: dependency inversion *)

Module Ej03.

(** [class IRepositorioBiblioteca(ABC)]: the nine abstract methods.  The
    methods that change the repository also receive the file system and give
    it back. *)
Module IRepositorioBiblioteca.

Class t (R : Type) := {
  agregar_libro : Libro.t -> R -> Disco -> Libro.t * R * Disco;
  obtener_libro_por_id : Z -> R -> option Libro.t;
  obtener_todos_libros : R -> list Libro.t;
  obtener_libros_disponibles : R -> list Libro.t;
  actualizar_libro : Libro.t -> R -> Disco -> R * Disco;
  agregar_prestamo : Prestamo.t -> R -> Disco -> Prestamo.t * R * Disco;
  obtener_prestamo_por_id : Z -> R -> option Prestamo.t;
  obtener_prestamos_activos : R -> list Prestamo.t;
  actualizar_prestamo : Prestamo.t -> R -> Disco -> R * Disco
}.

End IRepositorioBiblioteca.

Module RepositorioMemoria.

Record t := Repo {
  libros : list Libro.t;
  prestamos : list Prestamo.t;
  contador_libro : Z;
  contador_prestamo : Z
}.

(** [__init__] *)
Definition nuevo : t := Repo [] [] 1 1.

(** The record handed in stands for an object no list holds yet, as in every
    call the services make; [PorReferencia.RepositorioMemoria] has the
    method on any object. *)
Definition agregar_libro (libro : Libro.t) (r : t) : Libro.t * t :=
  let libro := Libro.set_id (Some (contador_libro r)) libro in
  (libro,
   Repo (libros r ++ [libro]) (prestamos r) (contador_libro r + 1)
        (contador_prestamo r)).

Definition obtener_libro_por_id (libro_id : Z) (r : t) : option Libro.t :=
  snd <$> list_find (fun libro => Libro.id libro = Some libro_id) (libros r).

Definition obtener_todos_libros (r : t) : list Libro.t := libros r.

Definition obtener_libros_disponibles (r : t) : list Libro.t :=
  List.filter Libro.disponible (libros r).

Definition actualizar_libro (libro : Libro.t) (r : t) : t :=
  match list_find (fun l => Libro.id l = Libro.id libro) (libros r) with
  | Some (i, _) =>
      Repo (<[i := libro]> (libros r)) (prestamos r) (contador_libro r)
           (contador_prestamo r)
  | None => r
  end.

(** As for [agregar_libro], the record stands for an object no list holds
    yet. *)
Definition agregar_prestamo (prestamo : Prestamo.t) (r : t) : Prestamo.t * t :=
  let prestamo := Prestamo.set_id (Some (contador_prestamo r)) prestamo in
  (prestamo,
   Repo (libros r) (prestamos r ++ [prestamo]) (contador_libro r)
        (contador_prestamo r + 1)).

Definition obtener_prestamo_por_id (prestamo_id : Z) (r : t)
  : option Prestamo.t :=
  snd <$> list_find (fun prestamo => Prestamo.id prestamo = Some prestamo_id)
            (prestamos r).

Definition obtener_prestamos_activos (r : t) : list Prestamo.t :=
  List.filter (fun p => negb (Prestamo.devuelto p)) (prestamos r).

Definition actualizar_prestamo (prestamo : Prestamo.t) (r : t) : t :=
  match list_find (fun p => Prestamo.id p = Prestamo.id prestamo)
          (prestamos r) with
  | Some (i, _) =>
      Repo (libros r) (<[i := prestamo]> (prestamos r)) (contador_libro r)
           (contador_prestamo r)
  | None => r
  end.

End RepositorioMemoria.

Module RepositorioArchivo.

Record t := Repo {
  archivo : str;
  libros : list Libro.t;
  prestamos : list Prestamo.t;
  contador_libro : Z;
  contador_prestamo : Z
}.

(** The line written for a book. *)
Definition linea_libro (libro : Libro.t) : str :=
  py "LIBRO|" ++ str_of_id (Libro.id libro) ++ [PIPE] ++ Libro.titulo libro
  ++ [PIPE] ++ Libro.autor libro ++ [PIPE] ++ Libro.isbn libro ++ [PIPE]
  ++ str_of_bool (Libro.disponible libro) ++ [NL].

(** The line written for a loan. *)
Definition linea_prestamo (prestamo : Prestamo.t) : str :=
  py "PRESTAMO|" ++ str_of_id (Prestamo.id prestamo) ++ [PIPE]
  ++ str_of_int (Prestamo.libro_id prestamo) ++ [PIPE]
  ++ Prestamo.usuario prestamo ++ [PIPE] ++ Prestamo.fecha prestamo ++ [PIPE]
  ++ str_of_bool (Prestamo.devuelto prestamo) ++ [NL].

(** Everything [_guardar_en_archivo] writes, in order. *)
Definition contenido (r : t) : str :=
  py "Libros: " ++ str_of_int (Z.of_nat (length (libros r))) ++ [NL]
  ++ py "Préstamos: " ++ str_of_int (Z.of_nat (length (prestamos r))) ++ [NL]
  ++ concat (map linea_libro (libros r))
  ++ concat (map linea_prestamo (prestamos r)).

(** Opening with mode 'w' replaces the file. *)
Definition _guardar_en_archivo (r : t) (d : Disco) : Disco :=
  <[archivo r := contenido r]> d.

(** What the loop of [_cargar_desde_archivo] holds: the object and the two
    local maxima. *)
Record Carga := {
  repo : t;
  max_libro_id : Z;
  max_prestamo_id : Z
}.

(** One turn of the loop. *)
Definition cargar_linea (linea : str) (c : Carga) : result Carga :=
  let partes := split PIPE (strip linea) in
  match partes with
  | [] => Raise IndexError
  | tag :: _ =>
      if Py.eqb tag (py "LIBRO") && (length partes =? 6)%nat then
        match int (nth 1 partes []) with
        | None => Raise (InvalidLiteralForInt (nth 1 partes []))
        | Some libro_id =>
            let libro :=
              Libro.Libro (Some libro_id) (nth 2 partes []) (nth 3 partes [])
                (nth 4 partes [])
                (Py.eqb (lower (nth 5 partes [])) (py "true")) in
            let r := repo c in
            Ok {| repo := Repo (archivo r) (libros r ++ [libro]) (prestamos r)
                            (contador_libro r) (contador_prestamo r);
                  max_libro_id := Z.max (max_libro_id c) libro_id;
                  max_prestamo_id := max_prestamo_id c |}
        end
      else if Py.eqb tag (py "PRESTAMO") && (length partes =? 6)%nat then
        match int (nth 1 partes []) with
        | None => Raise (InvalidLiteralForInt (nth 1 partes []))
        | Some prestamo_id =>
            match int (nth 2 partes []) with
            | None => Raise (InvalidLiteralForInt (nth 2 partes []))
            | Some libro_id =>
                let prestamo :=
                  Prestamo.Prestamo (Some prestamo_id) libro_id
                    (nth 3 partes []) (nth 4 partes []) in
                let prestamo :=
                  Prestamo.set_devuelto
                    (Py.eqb (lower (nth 5 partes [])) (py "true")) prestamo in
                let r := repo c in
                Ok {| repo := Repo (archivo r) (libros r)
                                (prestamos r ++ [prestamo])
                                (contador_libro r) (contador_prestamo r);
                      max_libro_id := max_libro_id c;
                      max_prestamo_id :=
                        Z.max (max_prestamo_id c) prestamo_id |}
            end
        end
      else Ok c
  end.

(** The loop: it stops at the first line that raises, with what the earlier
    lines have stored. *)
Fixpoint cargar_lineas (lineas : list str) (c : Carga) : Carga * option Exception :=
  match lineas with
  | [] => (c, None)
  | linea :: resto =>
      match cargar_linea linea c with
      | Ok c1 => cargar_lineas resto c1
      | Raise e => (c, Some e)
      end
  end.

(** Returns the flag, the object and what was printed. *)
Definition _cargar_desde_archivo (r : t) (d : Disco) : bool * t * list Impreso :=
  match d !! archivo r with
  | None => (false, r, [])
  | Some texto =>
      let lineas := readlines texto in
      match cargar_lineas lineas
              {| repo := r; max_libro_id := 0; max_prestamo_id := 0 |} with
      | (c, None) =>
          let r := repo c in
          (true,
           Repo (archivo r) (libros r) (prestamos r)
             (if (max_libro_id c >? 0)%Z then max_libro_id c + 1 else 1)
             (if (max_prestamo_id c >? 0)%Z then max_prestamo_id c + 1 else 1),
           [])
      | (c, Some e) => (false, repo c, [ErrorCargandoArchivo e])
      end
  end.

(** [__init__] *)
Definition nuevo (archivo : str) (d : Disco) : t * list Impreso :=
  let r := Repo archivo [] [] 1 1 in
  let '(_, r, impreso) := _cargar_desde_archivo r d in
  (r, impreso).

(** As in [RepositorioMemoria], the record stands for an object no list
    holds yet. *)
Definition agregar_libro (libro : Libro.t) (r : t) (d : Disco)
  : Libro.t * t * Disco :=
  let libro := Libro.set_id (Some (contador_libro r)) libro in
  let r := Repo (archivo r) (libros r ++ [libro]) (prestamos r)
                (contador_libro r + 1) (contador_prestamo r) in
  (libro, r, _guardar_en_archivo r d).

Definition obtener_libro_por_id (libro_id : Z) (r : t) : option Libro.t :=
  snd <$> list_find (fun libro => Libro.id libro = Some libro_id) (libros r).

Definition obtener_todos_libros (r : t) : list Libro.t := libros r.

Definition obtener_libros_disponibles (r : t) : list Libro.t :=
  List.filter Libro.disponible (libros r).

Definition actualizar_libro (libro : Libro.t) (r : t) (d : Disco) : t * Disco :=
  let r :=
    match list_find (fun l => Libro.id l = Libro.id libro) (libros r) with
    | Some (i, _) =>
        Repo (archivo r) (<[i := libro]> (libros r)) (prestamos r)
             (contador_libro r) (contador_prestamo r)
    | None => r
    end in
  (r, _guardar_en_archivo r d).

(** As for [agregar_libro], the record stands for an object no list holds
    yet. *)
Definition agregar_prestamo (prestamo : Prestamo.t) (r : t) (d : Disco)
  : Prestamo.t * t * Disco :=
  let prestamo := Prestamo.set_id (Some (contador_prestamo r)) prestamo in
  let r := Repo (archivo r) (libros r) (prestamos r ++ [prestamo])
                (contador_libro r) (contador_prestamo r + 1) in
  (prestamo, r, _guardar_en_archivo r d).

Definition obtener_prestamo_por_id (prestamo_id : Z) (r : t)
  : option Prestamo.t :=
  snd <$> list_find (fun prestamo => Prestamo.id prestamo = Some prestamo_id)
            (prestamos r).

Definition obtener_prestamos_activos (r : t) : list Prestamo.t :=
  List.filter (fun p => negb (Prestamo.devuelto p)) (prestamos r).

Definition actualizar_prestamo (prestamo : Prestamo.t) (r : t) (d : Disco)
  : t * Disco :=
  let r :=
    match list_find (fun p => Prestamo.id p = Prestamo.id prestamo)
            (prestamos r) with
    | Some (i, _) =>
        Repo (archivo r) (libros r) (<[i := prestamo]> (prestamos r))
             (contador_libro r) (contador_prestamo r)
    | None => r
    end in
  (r, _guardar_en_archivo r d).

End RepositorioArchivo.

#[export] Instance RepositorioArchivo_IRepositorioBiblioteca
  : IRepositorioBiblioteca.t RepositorioArchivo.t :=
  {| IRepositorioBiblioteca.agregar_libro := RepositorioArchivo.agregar_libro;
     IRepositorioBiblioteca.obtener_libro_por_id :=
       RepositorioArchivo.obtener_libro_por_id;
     IRepositorioBiblioteca.obtener_todos_libros :=
       RepositorioArchivo.obtener_todos_libros;
     IRepositorioBiblioteca.obtener_libros_disponibles :=
       RepositorioArchivo.obtener_libros_disponibles;
     IRepositorioBiblioteca.actualizar_libro :=
       RepositorioArchivo.actualizar_libro;
     IRepositorioBiblioteca.agregar_prestamo :=
       RepositorioArchivo.agregar_prestamo;
     IRepositorioBiblioteca.obtener_prestamo_por_id :=
       RepositorioArchivo.obtener_prestamo_por_id;
     IRepositorioBiblioteca.obtener_prestamos_activos :=
       RepositorioArchivo.obtener_prestamos_activos;
     IRepositorioBiblioteca.actualizar_prestamo :=
       RepositorioArchivo.actualizar_prestamo |}.

(** The memory repository never touches the file system. *)
#[export] Instance RepositorioMemoria_IRepositorioBiblioteca
  : IRepositorioBiblioteca.t RepositorioMemoria.t :=
  {| IRepositorioBiblioteca.agregar_libro libro r d :=
       let '(l, r1) := RepositorioMemoria.agregar_libro libro r in (l, r1, d);
     IRepositorioBiblioteca.obtener_libro_por_id :=
       RepositorioMemoria.obtener_libro_por_id;
     IRepositorioBiblioteca.obtener_todos_libros :=
       RepositorioMemoria.obtener_todos_libros;
     IRepositorioBiblioteca.obtener_libros_disponibles :=
       RepositorioMemoria.obtener_libros_disponibles;
     IRepositorioBiblioteca.actualizar_libro libro r d :=
       (RepositorioMemoria.actualizar_libro libro r, d);
     IRepositorioBiblioteca.agregar_prestamo prestamo r d :=
       let '(p, r1) := RepositorioMemoria.agregar_prestamo prestamo r in
       (p, r1, d);
     IRepositorioBiblioteca.obtener_prestamo_por_id :=
       RepositorioMemoria.obtener_prestamo_por_id;
     IRepositorioBiblioteca.obtener_prestamos_activos :=
       RepositorioMemoria.obtener_prestamos_activos;
     IRepositorioBiblioteca.actualizar_prestamo prestamo r d :=
       (RepositorioMemoria.actualizar_prestamo prestamo r, d) |}.

Module SistemaBibliotecaDIP.

Section Servicio.

Context {R : Type} `{IRepositorioBiblioteca.t R}.

(** The service object, which holds the injected repository, with the file
    system and the standard output it acts on. *)
Record t := Sistema {
  repositorio : R;
  disco : Disco;
  salida : list Impreso
}.

Definition agregar_libro (titulo autor isbn : str) (s : t) : str * t :=
  if vacio titulo || (len titulo <? 2)%Z then
    (py "Error: Título inválido", s)
  else if vacio autor || (len autor <? 3)%Z then
    (py "Error: Autor inválido", s)
  else if vacio isbn || (len isbn <? 10)%Z then
    (py "Error: ISBN inválido", s)
  else
    let libro := Libro.Libro None titulo autor isbn true in
    let '(libro_guardado, r, d) :=
      IRepositorioBiblioteca.agregar_libro libro (repositorio s) (disco s) in
    (py "Libro '" ++ titulo ++ py "' agregado exitosamente (ID: "
     ++ str_of_id (Libro.id libro_guardado) ++ py ")",
     Sistema r d (salida s)).

Definition buscar_libro (criterio valor : str) (s : t) : list Libro.t :=
  let libros := IRepositorioBiblioteca.obtener_todos_libros (repositorio s) in
  if Py.eqb criterio (py "titulo") then
    List.filter
      (fun libro => contains (lower (Libro.titulo libro)) (lower valor)) libros
  else if Py.eqb criterio (py "autor") then
    List.filter
      (fun libro => contains (lower (Libro.autor libro)) (lower valor)) libros
  else if Py.eqb criterio (py "isbn") then
    List.filter (fun libro => Py.eqb (Libro.isbn libro) valor) libros
  else if Py.eqb criterio (py "disponible") then
    let disponible := Py.eqb (lower valor) (py "true") in
    List.filter (fun libro => Bool.eqb (Libro.disponible libro) disponible)
      libros
  else [].

(** [hoy] is the text [datetime.now().strftime("%Y-%m-%d")] gives at the
    call. *)
Definition realizar_prestamo (libro_id : Z) (usuario : str) (hoy : str)
    (s : t) : str * t :=
  if vacio usuario || (len usuario <? 3)%Z then
    (py "Error: Nombre de usuario inválido", s)
  else
    match IRepositorioBiblioteca.obtener_libro_por_id libro_id (repositorio s) with
    | None => (py "Error: Libro no encontrado", s)
    | Some libro =>
        if negb (Libro.disponible libro) then
          (py "Error: Libro no disponible", s)
        else
          let prestamo := Prestamo.Prestamo None libro_id usuario hoy in
          let '(prestamo_guardado, r, d) :=
            IRepositorioBiblioteca.agregar_prestamo prestamo (repositorio s)
              (disco s) in
          let libro := Libro.set_disponible false libro in
          let '(r, d) := IRepositorioBiblioteca.actualizar_libro libro r d in
          let salida :=
            salida s ++
            [Linea (py "[NOTIFICACIÓN] " ++ usuario ++ py ": Préstamo de '"
                    ++ Libro.titulo libro ++ py "'")] in
          (py "Préstamo realizado a " ++ usuario ++ py " (ID Préstamo: "
           ++ str_of_id (Prestamo.id prestamo_guardado) ++ py ")",
           Sistema r d salida)
    end.

Definition devolver_libro (prestamo_id : Z) (s : t) : str * t :=
  match IRepositorioBiblioteca.obtener_prestamo_por_id prestamo_id
          (repositorio s) with
  | None => (py "Error: Préstamo no encontrado", s)
  | Some prestamo =>
      if Prestamo.devuelto prestamo then (py "Error: Libro ya devuelto", s)
      else
        let libro :=
          IRepositorioBiblioteca.obtener_libro_por_id
            (Prestamo.libro_id prestamo) (repositorio s) in
        let '(r, d) :=
          match libro with
          | Some libro =>
              IRepositorioBiblioteca.actualizar_libro
                (Libro.set_disponible true libro) (repositorio s) (disco s)
          | None => (repositorio s, disco s)
          end in
        let prestamo := Prestamo.set_devuelto true prestamo in
        let '(r, d) := IRepositorioBiblioteca.actualizar_prestamo prestamo r d in
        let salida :=
          match libro with
          | Some libro =>
              salida s ++
              [Linea (py "[NOTIFICACIÓN] " ++ Prestamo.usuario prestamo
                      ++ py ": Devolución de '" ++ Libro.titulo libro
                      ++ py "'")]
          | None => salida s
          end in
        (py "Libro devuelto exitosamente", Sistema r d salida)
  end.

Definition obtener_todos_libros (s : t) : list Libro.t :=
  IRepositorioBiblioteca.obtener_todos_libros (repositorio s).

Definition obtener_libros_disponibles (s : t) : list Libro.t :=
  IRepositorioBiblioteca.obtener_libros_disponibles (repositorio s).

Definition obtener_prestamos_activos (s : t) : list Prestamo.t :=
  IRepositorioBiblioteca.obtener_prestamos_activos (repositorio s).

End Servicio.

Arguments t R : clear implicits.
Arguments Sistema {R} repositorio disco salida.

End SistemaBibliotecaDIP.

End Ej03.

(** ** The lists of [RepositorioMemoria] as Python holds them

    A Python list holds references.  [agregar_libro] and [agregar_prestamo]
    write the id on the object they are handed, whoever else holds it, and
    append a reference to it.  Here the objects of a class live in a store,
    by address, the lists hold addresses, and an argument is an address. *)

Module PorReferencia.

Module RepositorioMemoria.

Record t := Repo {
  libros : list nat;
  prestamos : list nat;
  contador_libro : Z;
  contador_prestamo : Z
}.

(** [__init__] *)
Definition nuevo : t := Repo [] [] 1 1.

(** [libro.id = self.contador_libro] acts on the object at [libro].  (The
    argument of a call is an object, so its address is in the store; at an
    address that is not, the store is left as it is.) *)
Definition agregar_libro (libro : nat) (r : t) (objetos : gmap nat Libro.t)
  : nat * t * gmap nat Libro.t :=
  let objetos := alter (Libro.set_id (Some (contador_libro r))) libro objetos in
  (libro,
   Repo (libros r ++ [libro]) (prestamos r) (contador_libro r + 1)
        (contador_prestamo r),
   objetos).

(** The first object of the list whose id, as it stands now, is the one
    asked for. *)
Definition obtener_libro_por_id (libro_id : Z) (r : t)
    (objetos : gmap nat Libro.t) : option nat :=
  snd <$> list_find
            (fun libro => objetos !! libro ≫= Libro.id = Some libro_id)
            (libros r).

Definition agregar_prestamo (prestamo : nat) (r : t)
    (objetos : gmap nat Prestamo.t) : nat * t * gmap nat Prestamo.t :=
  let objetos :=
    alter (Prestamo.set_id (Some (contador_prestamo r))) prestamo objetos in
  (prestamo,
   Repo (libros r) (prestamos r ++ [prestamo]) (contador_libro r)
        (contador_prestamo r + 1),
   objetos).

Definition obtener_prestamo_por_id (prestamo_id : Z) (r : t)
    (objetos : gmap nat Prestamo.t) : option nat :=
  snd <$> list_find
            (fun prestamo => objetos !! prestamo ≫= Prestamo.id = Some prestamo_id)
            (prestamos r).

(** The records the lists point at: the repository as
    [Ej03.RepositorioMemoria] has it. *)
Definition valores (r : t) (libro_objetos : gmap nat Libro.t)
    (prestamo_objetos : gmap nat Prestamo.t) : Ej03.RepositorioMemoria.t :=
  Ej03.RepositorioMemoria.Repo
    (omap (fun libro => libro_objetos !! libro) (libros r))
    (omap (fun prestamo => prestamo_objetos !! prestamo) (prestamos r))
    (contador_libro r) (contador_prestamo r).

End RepositorioMemoria.

End PorReferencia.

(** * Vocabulary of the properties *)

(** A result text of a service method that reports a failed check: every
    such text of the three files starts with "Error". *)
Definition es_error (mensaje : str) : bool := startswith mensaje (py "Error").

(** A call of one of the three service methods that change the state. *)
Inductive Llamada :=
| AgregarLibro (titulo autor isbn : str)
| RealizarPrestamo (libro_id : Z) (usuario hoy : str)
| DevolverLibro (prestamo_id : Z).

(** The loans that are out and point at a given book. *)
Definition referencias_activas (libro : Libro.t) (prestamos : list Prestamo.t)
  : list Prestamo.t :=
  List.filter
    (fun p => bool_decide (Libro.id libro = Some (Prestamo.libro_id p))
              && negb (Prestamo.devuelto p))
    prestamos.

(** The loans that are out and carry a given book id. *)
Definition activos_de (k : Z) (prestamos : list Prestamo.t) : nat :=
  length
    (List.filter
       (fun p => bool_decide (Prestamo.libro_id p = k)
                 && negb (Prestamo.devuelto p))
       prestamos).

(** The greatest of the ids given, and 0 when none is positive. *)
Definition max_id (ids : list (option Z)) : Z :=
  fold_right (fun i m => match i with Some k => Z.max k m | None => m end)
    0%Z ids.

(** A text that can sit in one field of one line of the file. *)
Definition sin_barra (s : str) : bool :=
  forallb (fun c => negb (c =? PIPE)%N) s.

Definition sin_salto (s : str) : bool :=
  forallb (fun c => negb (c =? NL)%N && negb (c =? CR)%N) s.

Definition campo (s : str) : bool := sin_barra s && sin_salto s.

Definition libro_sin_barras (l : Libro.t) : bool :=
  sin_barra (Libro.titulo l) && sin_barra (Libro.autor l)
  && sin_barra (Libro.isbn l).

Definition prestamo_sin_barras (p : Prestamo.t) : bool :=
  sin_barra (Prestamo.usuario p) && sin_barra (Prestamo.fecha p).

Definition libro_guardable (l : Libro.t) : bool :=
  match Libro.id l with Some _ => true | None => false end
  && campo (Libro.titulo l) && campo (Libro.autor l) && campo (Libro.isbn l).

Definition prestamo_guardable (p : Prestamo.t) : bool :=
  match Prestamo.id p with Some _ => true | None => false end
  && campo (Prestamo.usuario p) && campo (Prestamo.fecha p).

Module Ej02S.

Import Ej02.

Definition ejecutar (c : Llamada) (s : SistemaBibliotecaRefactorizado.t)
  : str * SistemaBibliotecaRefactorizado.t :=
  match c with
  | AgregarLibro titulo autor isbn =>
      SistemaBibliotecaRefactorizado.agregar_libro titulo autor isbn s
  | RealizarPrestamo libro_id usuario hoy =>
      SistemaBibliotecaRefactorizado.realizar_prestamo libro_id usuario hoy s
  | DevolverLibro prestamo_id =>
      SistemaBibliotecaRefactorizado.devolver_libro prestamo_id s
  end.

Definition ejecutar_todas (cs : list Llamada)
    (s : SistemaBibliotecaRefactorizado.t) : SistemaBibliotecaRefactorizado.t :=
  fold_left (fun s c => snd (ejecutar c s)) cs s.

End Ej02S.

Module Ej03S.

Import Ej03.

(** The four attributes both repository classes of ejercicio03.py keep. *)
Class Vista (R : Type) := memoria : R -> RepositorioMemoria.t.

#[export] Instance Vista_RepositorioMemoria : Vista RepositorioMemoria.t :=
  fun r => r.

#[export] Instance Vista_RepositorioArchivo : Vista RepositorioArchivo.t :=
  fun r =>
    RepositorioMemoria.Repo (RepositorioArchivo.libros r)
      (RepositorioArchivo.prestamos r) (RepositorioArchivo.contador_libro r)
      (RepositorioArchivo.contador_prestamo r).

(** A repository behind the interface whose methods act on the four
    attributes as those of [RepositorioMemoria] do. *)
Class Fiel (R : Type) `{IRepositorioBiblioteca.t R} `{Vista R} : Prop := {
  fiel_agregar_libro l r d :
    ((IRepositorioBiblioteca.agregar_libro l r d).1.1,
     memoria (IRepositorioBiblioteca.agregar_libro l r d).1.2)
    = RepositorioMemoria.agregar_libro l (memoria r);
  fiel_obtener_libro_por_id k r :
    IRepositorioBiblioteca.obtener_libro_por_id k r
    = RepositorioMemoria.obtener_libro_por_id k (memoria r);
  fiel_obtener_todos_libros r :
    IRepositorioBiblioteca.obtener_todos_libros r
    = RepositorioMemoria.obtener_todos_libros (memoria r);
  fiel_obtener_libros_disponibles r :
    IRepositorioBiblioteca.obtener_libros_disponibles r
    = RepositorioMemoria.obtener_libros_disponibles (memoria r);
  fiel_actualizar_libro l r d :
    memoria (IRepositorioBiblioteca.actualizar_libro l r d).1
    = RepositorioMemoria.actualizar_libro l (memoria r);
  fiel_agregar_prestamo p r d :
    ((IRepositorioBiblioteca.agregar_prestamo p r d).1.1,
     memoria (IRepositorioBiblioteca.agregar_prestamo p r d).1.2)
    = RepositorioMemoria.agregar_prestamo p (memoria r);
  fiel_obtener_prestamo_por_id k r :
    IRepositorioBiblioteca.obtener_prestamo_por_id k r
    = RepositorioMemoria.obtener_prestamo_por_id k (memoria r);
  fiel_obtener_prestamos_activos r :
    IRepositorioBiblioteca.obtener_prestamos_activos r
    = RepositorioMemoria.obtener_prestamos_activos (memoria r);
  fiel_actualizar_prestamo p r d :
    memoria (IRepositorioBiblioteca.actualizar_prestamo p r d).1
    = RepositorioMemoria.actualizar_prestamo p (memoria r)
}.

Section Llamadas.

Context {R : Type} `{IRepositorioBiblioteca.t R} `{Vista R}.

Definition ejecutar (c : Llamada) (s : SistemaBibliotecaDIP.t R)
  : str * SistemaBibliotecaDIP.t R :=
  match c with
  | AgregarLibro titulo autor isbn =>
      SistemaBibliotecaDIP.agregar_libro titulo autor isbn s
  | RealizarPrestamo libro_id usuario hoy =>
      SistemaBibliotecaDIP.realizar_prestamo libro_id usuario hoy s
  | DevolverLibro prestamo_id =>
      SistemaBibliotecaDIP.devolver_libro prestamo_id s
  end.

Definition ejecutar_todas (cs : list Llamada) (s : SistemaBibliotecaDIP.t R)
  : SistemaBibliotecaDIP.t R :=
  fold_left (fun s c => snd (ejecutar c s)) cs s.

(** The attributes of the repository a service holds. *)
Definition datos (s : SistemaBibliotecaDIP.t R) : RepositorioMemoria.t :=
  memoria (SistemaBibliotecaDIP.repositorio s).

(** The same service over the attributes alone. *)
Definition proyectar (s : SistemaBibliotecaDIP.t R)
  : SistemaBibliotecaDIP.t RepositorioMemoria.t :=
  SistemaBibliotecaDIP.Sistema (datos s) ∅ (SistemaBibliotecaDIP.salida s).

(** The states a service reaches from an empty repository. *)
Inductive alcanzable : SistemaBibliotecaDIP.t R -> Prop :=
| alcanzable_vacio s :
    datos s = RepositorioMemoria.nuevo -> alcanzable s
| alcanzable_paso c s :
    alcanzable s -> alcanzable (ejecutar c s).2.

End Llamadas.

(** What every reachable state satisfies. *)
Record invariante (m : RepositorioMemoria.t) : Prop := {
  inv_ids : forall j b, RepositorioMemoria.libros m !! j = Some b ->
      exists k, Libro.id b = Some k /\ (k < RepositorioMemoria.contador_libro m)%Z;
  inv_nodup : NoDup (map Libro.id (RepositorioMemoria.libros m));
  inv_ref : forall i p, RepositorioMemoria.prestamos m !! i = Some p ->
      (Prestamo.libro_id p < RepositorioMemoria.contador_libro m)%Z;
  inv_activos : forall j b k, RepositorioMemoria.libros m !! j = Some b ->
      Libro.id b = Some k ->
      activos_de k (RepositorioMemoria.prestamos m)
      = if Libro.disponible b then 0 else 1
}.

End Ej03S.

(** ** Vocabulary of the file format *)

Definition es_digito (c : N) : bool := ((48 <=? c) && (c <=? 57))%N.

Definition es_signo_o_digito (c : N) : bool := (c =? 45)%N || es_digito c.

Module ArchivoS.

Import Ej03.

(** A line of a book without its terminator. *)
Definition cuerpo_libro (b : Libro.t) : str :=
  py "LIBRO" ++ PIPE :: str_of_id (Libro.id b) ++ PIPE :: Libro.titulo b
  ++ PIPE :: Libro.autor b ++ PIPE :: Libro.isbn b
  ++ PIPE :: str_of_bool (Libro.disponible b).

(** A line of a loan without its terminator. *)
Definition cuerpo_prestamo (p : Prestamo.t) : str :=
  py "PRESTAMO" ++ PIPE :: str_of_id (Prestamo.id p)
  ++ PIPE :: str_of_int (Prestamo.libro_id p) ++ PIPE :: Prestamo.usuario p
  ++ PIPE :: Prestamo.fecha p ++ PIPE :: str_of_bool (Prestamo.devuelto p).

(** The two lines at the head of the file, without their terminators. *)
Definition cabecera_libros (r : RepositorioArchivo.t) : str :=
  py "Libros: " ++ str_of_int (Z.of_nat (length (RepositorioArchivo.libros r))).

Definition cabecera_prestamos (r : RepositorioArchivo.t) : str :=
  py "Préstamos: "
  ++ str_of_int (Z.of_nat (length (RepositorioArchivo.prestamos r))).

End ArchivoS.

(** ** What a return must do, over any of the services *)

(** [x], at place [i], is the first record of [l] that carries the id [k]:
    the one a loop over [l] that returns at the first match hands back. *)
Definition primero {A : Type} (clave : A -> option Z) (k : Z) (l : list A)
    (i : nat) (x : A) : Prop :=
  l !! i = Some x /\ clave x = Some k
  /\ forall j y, (j < i)%nat -> l !! j = Some y -> clave y <> Some k.

(** When the first loan that carries the id is out, [devolver] marks that
    loan and no other, and says so.  With no book under the loan's
    [libro_id] no book changes and nothing is printed; otherwise the first
    book under it is made available, no other book changes, and the notice
    is printed.  Nothing is asked of the other records: ids may repeat. *)
Definition devolucion_conforme {St : Type}
    (libros : St -> list Libro.t) (prestamos : St -> list Prestamo.t)
    (salida : St -> list Impreso) (devolver : Z -> St -> str * St)
    (aviso : Prestamo.t -> Libro.t -> Impreso) : Prop :=
  forall (s : St) (i : nat) (p : Prestamo.t) (k : Z),
    primero Prestamo.id k (prestamos s) i p ->
    Prestamo.devuelto p = false ->
    (devolver k s).1 = py "Libro devuelto exitosamente"
    /\ prestamos (devolver k s).2
       = <[i := Prestamo.set_devuelto true p]> (prestamos s)
    /\ ((forall b, In b (libros s) ->
           Libro.id b <> Some (Prestamo.libro_id p)) ->
        libros (devolver k s).2 = libros s
        /\ salida (devolver k s).2 = salida s)
    /\ (forall j b, primero Libro.id (Prestamo.libro_id p) (libros s) j b ->
          libros (devolver k s).2
          = <[j := Libro.set_disponible true b]> (libros s)
          /\ salida (devolver k s).2 = salida s ++ [aviso p b]).

(** A returned loan stays as it is under every later call, and returning it
    again is refused and changes nothing. *)
Definition devuelto_permanente {St : Type}
    (prestamos : St -> list Prestamo.t)
    (ejecutar : Llamada -> St -> str * St)
    (devolver : Z -> St -> str * St) : Prop :=
  (forall (cs : list Llamada) (s : St) (i : nat) (p : Prestamo.t),
     prestamos s !! i = Some p -> Prestamo.devuelto p = true ->
     prestamos (fold_left (fun s c => (ejecutar c s).2) cs s) !! i = Some p)
  /\ (forall (k : Z) (s : St),
        (devolver k s).1 = py "Libro devuelto exitosamente" ->
        devolver k (devolver k s).2
        = (py "Error: Libro ya devuelto", (devolver k s).2)).

(** The notices of the two services. *)
Definition aviso_devolucion_02 (p : Prestamo.t) (b : Libro.t) : Impreso :=
  Ej02.ServicioNotificaciones.enviar_notificacion_devolucion
    (Prestamo.usuario p) (Libro.titulo b).

Definition aviso_devolucion_03 (p : Prestamo.t) (b : Libro.t) : Impreso :=
  Linea (py "[NOTIFICACIÓN] " ++ Prestamo.usuario p ++ py ": Devolución de '"
         ++ Libro.titulo b ++ py "'").

(** ** Concrete states used by the examples *)

Module Ejemplos.

Import Ej03.

Definition cien : Libro.t :=
  Libro.Libro (Some 1%Z) (py "Cien Años de Soledad")
    (py "Gabriel García Márquez") (py "9780060883287") true.

Definition prestamo_juan : Prestamo.t :=
  Prestamo.Prestamo_ (Some 1%Z) 1%Z (py "Juan Pérez") (py "2024-01-01") false.

(** An empty service over the memory repository. *)
Definition s_vacio : SistemaBibliotecaDIP.t RepositorioMemoria.t :=
  SistemaBibliotecaDIP.Sistema RepositorioMemoria.nuevo ∅ [].

Definition llamadas_prestamo : list Llamada :=
  [AgregarLibro (py "Cien Años de Soledad") (py "Gabriel García Márquez")
     (py "9780060883287");
   RealizarPrestamo 1%Z (py "Juan Pérez") (py "2024-01-01")].

(** One book, lent. *)
Definition s_prestado : SistemaBibliotecaDIP.t RepositorioMemoria.t :=
  Ej03S.ejecutar_todas llamadas_prestamo s_vacio.

(** One book, available. *)
Definition s_un_libro : SistemaBibliotecaDIP.t RepositorioMemoria.t :=
  SistemaBibliotecaDIP.Sistema (RepositorioMemoria.Repo [cien] [] 2 1) ∅ [].

(** A loan whose book is not stored. *)
Definition prestamo_colgante : Prestamo.t :=
  Prestamo.Prestamo_ (Some 1%Z) 99%Z (py "Ana") (py "2024-01-01") false.

Definition s_colgante : SistemaBibliotecaDIP.t RepositorioMemoria.t :=
  SistemaBibliotecaDIP.Sistema
    (RepositorioMemoria.Repo [] [prestamo_colgante] 1 2) ∅ [].

(** The same states for the service of ejercicio02.py. *)
Definition s2_vacio : Ej02.SistemaBibliotecaRefactorizado.t :=
  Ej02.SistemaBibliotecaRefactorizado.nuevo ∅.

Definition s2_colgante : Ej02.SistemaBibliotecaRefactorizado.t :=
  Ej02.SistemaBibliotecaRefactorizado.Sistema
    (Ej02.RepositorioBiblioteca.Repo (py "biblioteca.txt") []
       [prestamo_colgante] 1 2) ∅ [].

(** Two loans under one id: the first is back, the second is out and its
    book is not stored.  The file that holds them, and the service over
    the repository that has read it. *)
Definition prestamo_devuelto : Prestamo.t :=
  Prestamo.Prestamo_ (Some 1%Z) 99%Z (py "Luis") (py "2023-12-01") true.

Definition texto_repetido : str :=
  py "PRESTAMO|1|99|Luis|2023-12-01|True" ++ [NL]
  ++ py "PRESTAMO|1|99|Ana|2024-01-01|False" ++ [NL].

Definition s_repetido : SistemaBibliotecaDIP.t RepositorioArchivo.t :=
  SistemaBibliotecaDIP.Sistema
    (RepositorioArchivo.Repo (py "biblioteca_dip.txt") []
       [prestamo_devuelto; prestamo_colgante] 1 2)
    (<[py "biblioteca_dip.txt" := texto_repetido]> ∅) [].

(** A file repository with one book and one loan. *)
Definition r_archivo : RepositorioArchivo.t :=
  RepositorioArchivo.Repo (py "biblioteca_dip.txt")
    [Libro.set_disponible false cien] [prestamo_juan] 2 2.

(** A title that holds a line break, and no bar. *)
Definition r_salto : RepositorioArchivo.t :=
  RepositorioArchivo.Repo (py "biblioteca_dip.txt")
    [Libro.Libro (Some 1%Z) (py "Rayuela" ++ [NL] ++ py "Tomo 2")
       (py "Julio Cortázar") (py "9788437604572") true]
    [] 2 1.

(** An id below 1. *)
Definition r_negativo : RepositorioArchivo.t :=
  RepositorioArchivo.Repo (py "biblioteca_dip.txt")
    [Libro.Libro (Some (-5)%Z) (py "Rayuela") (py "Julio Cortázar")
       (py "9788437604572") true]
    [] 1 1.

(** A file whose second line carries the tag and six fields, and an id that
    is no number. *)
Definition texto_roto : str :=
  py "LIBRO|1|Rayuela|Julio Cortázar|9788437604572|True" ++ [NL]
  ++ py "LIBRO|x|Ficciones|Jorge Luis Borges|9788420633121|True" ++ [NL]
  ++ py "LIBRO|3|Pedro Páramo|Juan Rulfo|9788437604183|True" ++ [NL].

Definition rayuela : Libro.t :=
  Libro.Libro (Some 1%Z) (py "Rayuela") (py "Julio Cortázar")
    (py "9788437604572") true.

(** A repository whose list holds the object at address 0, and a store
    where a second object, at address 1, is in no list. *)
Definition pr_un_libro : PorReferencia.RepositorioMemoria.t :=
  PorReferencia.RepositorioMemoria.Repo [0%nat] [] 2 1.

Definition objetos_libro : gmap nat Libro.t :=
  <[1%nat := Libro.Libro None (py "Rayuela") (py "Julio Cortázar")
               (py "9788437604572") true]> (<[0%nat := cien]> ∅).

End Ejemplos.

(** ** Vocabulary of the further properties *)

Module Ej01Demo.

Import Ej01.

(** The strategy [demostrar_funcionamiento] declares and registers: a match
    in the title or in the author. *)
Definition BusquedaPorPalabraClave : EstrategiaBusqueda :=
  {| buscar libros valor :=
       List.filter
         (fun libro =>
            contains (lower (Libro.titulo libro)) (lower valor)
            || contains (lower (Libro.autor libro)) (lower valor))
         libros |}.

(** The four books of the demonstration. *)
Definition libros_demo : list Libro.t :=
  [Libro.Libro (Some 1%Z) (py "Cien Años de Soledad")
     (py "Gabriel García Márquez") (py "9780060883287") true;
   Libro.Libro (Some 2%Z) (py "El Principito")
     (py "Antoine de Saint-Exupéry") (py "9780156012195") true;
   Libro.Libro (Some 3%Z) (py "1984") (py "George Orwell")
     (py "9780451524935") false;
   Libro.Libro (Some 4%Z) (py "Crónica de una Muerte Anunciada")
     (py "Gabriel García Márquez") (py "9781400034956") true].

Definition sistema_demo : SistemaBibliotecaRefactorizado :=
  fold_left (fun s l => agregar_libro l s) libros_demo nuevo.

End Ej01Demo.

(** The names the services and the first registry know. *)
Definition criterios : list str :=
  [py "titulo"; py "autor"; py "isbn"; py "disponible"].

(** The ids [1, 2, ..., n]. *)
Definition ids_consecutivos (n : nat) : list (option Z) :=
  map (fun i => Some (Z.of_nat i)) (seq 1 n).

(** A line the loader passes over: it has not six fields, or its first
    field is neither tag. *)
Definition ajena (linea : str) : bool :=
  let partes := split PIPE (strip linea) in
  negb (length partes =? 6)%nat
  || negb (Py.eqb (hd [] partes) (py "LIBRO"))
     && negb (Py.eqb (hd [] partes) (py "PRESTAMO")).

Module Ej02S2.

Import Ej02.

(** The four attributes of the repository a service of ejercicio02.py
    holds. *)
Definition datos (s : SistemaBibliotecaRefactorizado.t)
  : Ej03.RepositorioMemoria.t :=
  let r := SistemaBibliotecaRefactorizado.repositorio s in
  Ej03.RepositorioMemoria.Repo (RepositorioBiblioteca.libros r)
    (RepositorioBiblioteca.prestamos r) (RepositorioBiblioteca.contador_libro r)
    (RepositorioBiblioteca.contador_prestamo r).

(** The states the service reaches from a new one. *)
Inductive alcanzable : SistemaBibliotecaRefactorizado.t -> Prop :=
| alcanzable_nuevo d : alcanzable (SistemaBibliotecaRefactorizado.nuevo d)
| alcanzable_paso c s : alcanzable s -> alcanzable (Ej02S.ejecutar c s).2.

End Ej02S2.

Module ArchivoS2.

Import Ej03.

(** The states a service over a file repository reaches when the file did
    not exist at the start. *)
Inductive alcanzable (archivo : str)
  : SistemaBibliotecaDIP.t RepositorioArchivo.t -> Prop :=
| alcanzable_nuevo d :
    d !! archivo = None ->
    alcanzable archivo
      (SistemaBibliotecaDIP.Sistema (RepositorioArchivo.nuevo archivo d).1 d
         (RepositorioArchivo.nuevo archivo d).2)
| alcanzable_paso c s :
    alcanzable archivo s -> alcanzable archivo (Ej03S.ejecutar c s).2.

(** The file holds what the repository holds, or does not exist yet and the
    repository is empty. *)
Definition al_dia (archivo : str) (s : SistemaBibliotecaDIP.t RepositorioArchivo.t)
  : Prop :=
  RepositorioArchivo.archivo (SistemaBibliotecaDIP.repositorio s) = archivo
  /\ (SistemaBibliotecaDIP.disco s !! archivo
      = Some (RepositorioArchivo.contenido (SistemaBibliotecaDIP.repositorio s))
      \/ SistemaBibliotecaDIP.disco s !! archivo = None
         /\ SistemaBibliotecaDIP.repositorio s
            = RepositorioArchivo.Repo archivo [] [] 1 1).

End ArchivoS2.

(** Ids given in order from 1: the counter is one above the number of
    records. *)
Record numerado (m : Ej03.RepositorioMemoria.t) : Prop := {
  num_libros :
    map Libro.id (Ej03.RepositorioMemoria.libros m)
    = ids_consecutivos (length (Ej03.RepositorioMemoria.libros m));
  num_contador_libro :
    Ej03.RepositorioMemoria.contador_libro m
    = (Z.of_nat (length (Ej03.RepositorioMemoria.libros m)) + 1)%Z;
  num_prestamos :
    map Prestamo.id (Ej03.RepositorioMemoria.prestamos m)
    = ids_consecutivos (length (Ej03.RepositorioMemoria.prestamos m));
  num_contador_prestamo :
    Ej03.RepositorioMemoria.contador_prestamo m
    = (Z.of_nat (length (Ej03.RepositorioMemoria.prestamos m)) + 1)%Z
}.

(** The texts of a record can each sit in a field of the file. *)
Definition libro_campos (l : Libro.t) : bool :=
  campo (Libro.titulo l) && campo (Libro.autor l) && campo (Libro.isbn l).

Definition prestamo_campos (p : Prestamo.t) : bool :=
  campo (Prestamo.usuario p) && campo (Prestamo.fecha p).

(** Every loan points at a stored book. *)
Definition referidos (m : Ej03.RepositorioMemoria.t) : Prop :=
  forall p, In p (Ej03.RepositorioMemoria.prestamos m) ->
    In (Some (Prestamo.libro_id p))
      (map Libro.id (Ej03.RepositorioMemoria.libros m)).

(** How many of the books carry the id [k]. *)
Definition libros_con_id (k : Z) (libros : list Libro.t) : nat :=
  length (List.filter (fun b => bool_decide (Libro.id b = Some k)) libros).

(** The sum of a list of numbers. *)
Definition suma (ns : list nat) : nat := fold_right Nat.add 0 ns.

(** What the repository of ejercicio02.py keeps in its file: two counts. *)
Definition cuentas_02 (r : Ej02.RepositorioBiblioteca.t) : str :=
  py "Libros: "
  ++ str_of_int (Z.of_nat (length (Ej02.RepositorioBiblioteca.libros r)))
  ++ [NL] ++ py "Préstamos: "
  ++ str_of_int (Z.of_nat (length (Ej02.RepositorioBiblioteca.prestamos r)))
  ++ [NL].

(** ** What an insert does, on the lists held by reference *)

(** [agregar] on the object at [o], which holds [x], when no object of the
    list carries the id the counter is about to give.  The call hands [o]
    back, [o] now holds [x] under that id, and that id finds [o].  When [o]
    is not in the list, no object of the list changes, every other id finds
    what it found before, and the records the lists point at are those the
    method of [Ej03.RepositorioMemoria] gives on [x].  When [o] is in the
    list, and is the only object of the list under its id, that id found [o]
    before the call and finds nothing after it. *)
Definition alta_conforme {A : Type} (id : A -> option Z)
    (lista : PorReferencia.RepositorioMemoria.t -> list nat)
    (contador : PorReferencia.RepositorioMemoria.t -> Z)
    (agregar : nat -> PorReferencia.RepositorioMemoria.t -> gmap nat A
               -> nat * PorReferencia.RepositorioMemoria.t * gmap nat A)
    (obtener : Z -> PorReferencia.RepositorioMemoria.t -> gmap nat A
               -> option nat)
    (valores : PorReferencia.RepositorioMemoria.t -> gmap nat A
               -> Ej03.RepositorioMemoria.t)
    (agregar_valor : A -> Ej03.RepositorioMemoria.t
                     -> A * Ej03.RepositorioMemoria.t) : Prop :=
  forall (r : PorReferencia.RepositorioMemoria.t) (objetos : gmap nat A)
         (o : nat) (x : A),
    objetos !! o = Some x ->
    (forall a y, In a (lista r) -> objetos !! a = Some y ->
       id y <> Some (contador r)) ->
    let res := agregar o r objetos in
    res.1.1 = o
    /\ res.2 !! o = Some (agregar_valor x (valores r objetos)).1
    /\ obtener (contador r) res.1.2 res.2 = Some o
    /\ (~ In o (lista r) ->
        (forall a, In a (lista r) -> res.2 !! a = objetos !! a)
        /\ (forall k, k <> contador r ->
              obtener k res.1.2 res.2 = obtener k r objetos)
        /\ valores res.1.2 res.2 = (agregar_valor x (valores r objetos)).2)
    /\ (In o (lista r) ->
        forall k, id x = Some k ->
          (forall a y, In a (lista r) -> a <> o -> objetos !! a = Some y ->
             id y <> Some k) ->
          obtener k r objetos = Some o
          /\ obtener k res.1.2 res.2 = None).

(** Short names. *)
Module PR := PorReferencia.RepositorioMemoria.
Module S := Ej03.SistemaBibliotecaDIP.
Module RM := Ej03.RepositorioMemoria.
Module RA := Ej03.RepositorioArchivo.
Module IR := Ej03.IRepositorioBiblioteca.
Module S2 := Ej02.SistemaBibliotecaRefactorizado.
Module RB := Ej02.RepositorioBiblioteca.
Module V := Ej02.ValidadorBiblioteca.

(** * Properties *)

(** ** The built-ins *)

Module PyFacts.

Lemma forallb_mono {A} (f g : A -> bool) l :
  (forall x, f x = true -> g x = true) ->
  forallb f l = true -> forallb g l = true.
Proof.
  intros Hfg. rewrite !forallb_forall. auto.
Qed.

Lemma lstrip_head c r : isspace c = false -> lstrip (c :: r) = c :: r.
Proof. intros Hc. simpl. now rewrite Hc. Qed.

Lemma lstrip_all_false s :
  forallb (fun c => negb (isspace c)) s = true -> lstrip s = s.
Proof.
  destruct s as [|c r]; [done|]. simpl. intros [Hc _]%andb_true_iff.
  apply negb_true_iff in Hc. now rewrite Hc.
Qed.

(** A line that starts and ends with something other than white space
    loses only its terminator. *)
Lemma strip_linea c medio z :
  isspace c = false -> isspace z = false ->
  strip ((c :: medio) ++ [z] ++ [NL]) = (c :: medio) ++ [z].
Proof.
  intros Hc Hz. unfold strip, rstrip.
  change ((c :: medio) ++ [z] ++ [NL]) with (c :: (medio ++ [z] ++ [NL])).
  rewrite (lstrip_head _ _ Hc).
  change (c :: medio ++ [z] ++ [NL]) with ((c :: medio) ++ [z] ++ [NL]).
  rewrite !rev_app_distr. simpl.
  rewrite Hz. simpl. rewrite rev_app_distr. simpl. now rewrite rev_involutive.
Qed.

Lemma strip_solo c medio :
  isspace c = false ->
  forallb (fun c => negb (isspace c)) medio = true ->
  strip (c :: medio) = c :: medio.
Proof.
  intros Hc Hm. unfold strip, rstrip. rewrite (lstrip_head _ _ Hc).
  rewrite lstrip_all_false; [apply rev_involutive|].
  rewrite forallb_forall. intros x Hx%in_rev. simpl in Hx.
  destruct Hx as [<-|Hx]; [now rewrite Hc|].
  rewrite forallb_forall in Hm. auto.
Qed.

Lemma split_sin_sep sep a :
  forallb (fun c => negb (c =? sep)%N) a = true -> split sep a = [a].
Proof.
  induction a as [|c a IH]; [done|]. simpl.
  intros [Hc Ha]%andb_true_iff. apply negb_true_iff in Hc.
  now rewrite Hc, (IH Ha).
Qed.

Lemma split_app sep a b :
  forallb (fun c => negb (c =? sep)%N) a = true ->
  split sep (a ++ sep :: b) = a :: split sep b.
Proof.
  induction a as [|c a IH]; simpl.
  - intros _. now rewrite N.eqb_refl.
  - intros [Hc Ha]%andb_true_iff. apply negb_true_iff in Hc.
    now rewrite Hc, (IH Ha).
Qed.

Lemma readlines_linea l resto :
  sin_salto l = true ->
  readlines (l ++ NL :: resto) = (l ++ [NL]) :: readlines resto.
Proof.
  induction l as [|c l IH]; simpl.
  - done.
  - intros [Hc Hl]%andb_true_iff.
    apply andb_true_iff in Hc as [H1%negb_true_iff H2%negb_true_iff].
    now rewrite H1, H2, (IH Hl).
Qed.


Lemma uint_chars_digitos u : forallb es_digito (uint_chars u) = true.
Proof. induction u; simpl; auto. Qed.

Lemma digits_uint_chars u : digits true (uint_chars u) = Some u.
Proof. induction u; simpl; [done|..]; now rewrite IHu. Qed.

Lemma digits_uint_chars_nonnil u :
  u <> Decimal.Nil -> digits false (uint_chars u) = Some u.
Proof. destruct u; [done|..]; intros _; simpl; now rewrite digits_uint_chars. Qed.

Lemma es_digito_no_espacio c : es_digito c = true -> isspace c = false.
Proof.
  unfold es_digito, isspace. intros [H1%N.leb_le H2%N.leb_le]%andb_true_iff.
  repeat (apply orb_false_iff; split);
    try (apply andb_false_iff); try (apply N.eqb_neq); 
    rewrite ?N.leb_gt; lia.
Qed.



Lemma str_of_int_chars n : forallb es_signo_o_digito (str_of_int n) = true.
Proof.
  unfold str_of_int. destruct (Z.to_int n) as [u|u]; simpl.
  - eapply forallb_mono; [|apply uint_chars_digitos].
    intros c Hc. unfold es_signo_o_digito. now rewrite Hc, orb_true_r.
  - eapply forallb_mono; [|apply uint_chars_digitos].
    intros c Hc. unfold es_signo_o_digito. now rewrite Hc, orb_true_r.
Qed.

Lemma es_signo_o_digito_no_espacio c :
  es_signo_o_digito c = true -> isspace c = false.
Proof.
  unfold es_signo_o_digito. intros [Hc%N.eqb_eq|Hc]%orb_true_iff.
  - now subst c.
  - now apply es_digito_no_espacio.
Qed.

Lemma es_signo_o_digito_campo c :
  es_signo_o_digito c = true ->
  negb (c =? PIPE)%N = true /\ negb (c =? NL)%N && negb (c =? CR)%N = true.
Proof.
  unfold es_signo_o_digito, es_digito, PIPE, NL, CR.
  intros [Hc%N.eqb_eq|[H1%N.leb_le H2%N.leb_le]%andb_true_iff]%orb_true_iff.
  - now subst c.
  - rewrite andb_true_iff, !negb_true_iff, !N.eqb_neq. lia.
Qed.

Lemma str_of_int_campo n : campo (str_of_int n) = true.
Proof.
  unfold campo, sin_barra, sin_salto. apply andb_true_iff.
  pose proof (str_of_int_chars n) as H. rewrite forallb_forall in H.
  split; apply forallb_forall; intros c Hc;
    apply es_signo_o_digito_campo; auto.
Qed.

Lemma str_of_int_strip n : strip (str_of_int n) = str_of_int n.
Proof.
  pose proof (str_of_int_chars n) as H.
  destruct (str_of_int n) as [|c r] eqn:E; [done|].
  simpl in H. apply andb_true_iff in H as [Hc Hr].
  apply strip_solo.
  - now apply es_signo_o_digito_no_espacio.
  - eapply forallb_mono; [|exact Hr]. intros x Hx. simpl.
    now rewrite (es_signo_o_digito_no_espacio _ Hx).
Qed.

Lemma uint_chars_cabeza u c r :
  uint_chars u = c :: r -> (c =? 45)%N = false /\ (c =? 43)%N = false.
Proof. destruct u; simpl; [done|..]; intros [= <- _]; done. Qed.

Lemma to_int_nonnil n :
  match Z.to_int n with
  | Decimal.Pos u | Decimal.Neg u => u <> Decimal.Nil
  end.
Proof.
  destruct n; simpl; [done|..]; apply Unsigned.to_uint_nonnil.
Qed.

(** Reading back what [str] printed. *)
Lemma int_str_of_int n : int (str_of_int n) = Some n.
Proof.
  unfold int. rewrite str_of_int_strip. unfold str_of_int.
  pose proof (to_int_nonnil n) as Hn. pose proof (DecimalZ.of_to n) as Hz.
  destruct (Z.to_int n) as [u|u].
  - destruct (uint_chars u) as [|c r] eqn:E.
    + destruct u; simpl in E; congruence.
    + destruct (uint_chars_cabeza _ _ _ E) as [-> ->].
      rewrite <- E, (digits_uint_chars_nonnil _ Hn). cbn [fmap option_fmap option_map].
      now rewrite Hz.
  - cbn [N.eqb Pos.eqb]. rewrite (digits_uint_chars_nonnil _ Hn).
    cbn [fmap option_fmap option_map]. now rewrite Hz.
Qed.

End PyFacts.

(** ** Lists searched by key and counted *)

Module ListaFacts.

Section Contar.

Context {A : Type} (f : A -> bool).

Lemma contar_app (a b : list A) :
  length (List.filter f (a ++ b))
  = length (List.filter f a) + length (List.filter f b).
Proof. now rewrite List.filter_app, length_app. Qed.

Lemma contar_insert (l : list A) i x y :
  l !! i = Some x ->
  length (List.filter f (<[i := y]> l)) + (if f x then 1 else 0)
  = length (List.filter f l) + (if f y then 1 else 0).
Proof.
  intros Hi. pose proof (lookup_lt_Some _ _ _ Hi) as Hlt.
  rewrite insert_take_drop by done.
  rewrite <- (take_drop_middle l i x Hi) at 3.
  rewrite !contar_app. simpl. destruct (f x), (f y); simpl; lia.
Qed.

Lemma contar_cero (l : list A) :
  (forall i x, l !! i = Some x -> f x = false) ->
  length (List.filter f l) = 0.
Proof.
  induction l as [|a l IH]; [done|]. intros H. simpl.
  rewrite (H 0 a eq_refl). apply IH. intros i x Hx. apply (H (S i) x Hx).
Qed.

End Contar.

Section Buscar.

Context {A K : Type} `{EqDecision K} (clave : A -> K).

(** Looking a key up finds the first record that carries it. *)
Lemma buscar_Some (l : list A) k i x :
  list_find (fun a => clave a = k) l = Some (i, x) ->
  l !! i = Some x /\ clave x = k.
Proof. intros (? & ? & _)%list_find_Some. done. Qed.

Lemma buscar_None (l : list A) k j x :
  list_find (fun a => clave a = k) l = None ->
  l !! j = Some x -> clave x <> k.
Proof.
  intros Hn Hj. rewrite list_find_None in Hn.
  rewrite Forall_forall in Hn. apply Hn. eapply list_elem_of_lookup_2, Hj.
Qed.

Lemma nodup_clave (l : list A) i j x y :
  NoDup (map clave l) -> l !! i = Some x -> l !! j = Some y ->
  clave x = clave y -> i = j.
Proof.
  intros Hnd Hi Hj Hk.
  eapply NoDup_lookup; [exact Hnd| |].
  - rewrite list_lookup_fmap, Hi. reflexivity.
  - rewrite list_lookup_fmap, Hj. simpl. now rewrite Hk.
Qed.

Lemma map_clave_insert (l : list A) i x y :
  l !! i = Some x -> clave y = clave x ->
  map clave (<[i := y]> l) = map clave l.
Proof.
  intros Hi Hk. change (map clave) with (fmap (M:=list) clave).
  rewrite list_fmap_insert, Hk. apply list_insert_id.
  now rewrite list_lookup_fmap, Hi.
Qed.

(** After the record found under a key is overwritten by one with the same
    key, the same key finds the new record at the same place. *)
Lemma buscar_tras_insert (l : list A) k i x y :
  list_find (fun a => clave a = k) l = Some (i, x) ->
  clave y = k ->
  list_find (fun a => clave a = k) (<[i := y]> l) = Some (i, y).
Proof.
  intros (Hi & Hx & Hmin)%list_find_Some Hy.
  apply list_find_Some. split_and!.
  - apply list_lookup_insert_eq. eapply lookup_lt_Some, Hi.
  - done.
  - intros j z Hj Hlt. rewrite list_lookup_insert_ne in Hj by lia. eauto.
Qed.

(** With distinct keys, a key finds the record that carries it. *)
Lemma buscar_nodup (l : list A) k i x :
  NoDup (map clave l) -> l !! i = Some x -> clave x = k ->
  list_find (fun a => clave a = k) l = Some (i, x).
Proof.
  intros Hnd Hi Hk. apply list_find_Some. split_and!; [done..|].
  intros j y Hj Hlt Hy.
  assert (j = i) by (eapply nodup_clave; eauto; congruence). lia.
Qed.

(** Overwriting a record whose key is not the one searched, by one whose
    key is not the one searched either, does not move the search. *)
Lemma buscar_insert_otra (l : list A) k i x y :
  l !! i = Some x -> clave x <> k -> clave y <> k ->
  list_find (fun a => clave a = k) (<[i := y]> l)
  = list_find (fun a => clave a = k) l.
Proof.
  revert i. induction l as [|a l IH]; intros i Hi Hx Hy; [done|].
  destruct i as [|i]; simpl in *.
  - injection Hi as ->. now rewrite !decide_False.
  - case_decide; [done|]. now rewrite (IH i).
Qed.

End Buscar.

(** The first record under an id is the one the search hands back. *)
Lemma buscar_primero {A : Type} (clave : A -> option Z) (l : list A) k i x :
  primero clave k l i x <->
  list_find (fun a => clave a = Some k) l = Some (i, x).
Proof.
  unfold primero. rewrite list_find_Some. split.
  - intros (Hi & Hk & Hmin). split_and!; [done..|]. intros j y Hj Hlt. eauto.
  - intros (Hi & Hk & Hmin). split_and!; [done..|]. intros j y Hlt Hj. eauto.
Qed.

End ListaFacts.

(** ** The file of [RepositorioArchivo] *)

Module ArchivoFacts.

Import Ej03 PyFacts ArchivoS.

Lemma strip_renglon s c z :
  head s = Some c -> last s = Some z ->
  isspace c = false -> isspace z = false -> strip (s ++ [NL]) = s.
Proof.
  intros Hh Hl Hc Hz. apply last_Some in Hl as [pre ->].
  destruct pre as [|x pre]; simpl in Hh; injection Hh as ->.
  - simpl. unfold strip, rstrip. simpl. now rewrite Hc; simpl; rewrite Hc.
  - rewrite <- app_assoc. apply (strip_linea c pre z Hc Hz).
Qed.

Lemma last_app_Some {A} (l1 l2 : list A) z :
  last l2 = Some z -> last (l1 ++ l2) = Some z.
Proof. intros H. now rewrite last_app, H. Qed.

Lemma last_cons_Some {A} (x : A) l z :
  last l = Some z -> last (x :: l) = Some z.
Proof. intros H. now rewrite last_cons, H. Qed.

Lemma split_seis a b c d e f :
  sin_barra a = true -> sin_barra b = true -> sin_barra c = true ->
  sin_barra d = true -> sin_barra e = true -> sin_barra f = true ->
  split PIPE (a ++ PIPE :: b ++ PIPE :: c ++ PIPE :: d ++ PIPE :: e ++ PIPE :: f)
  = [a; b; c; d; e; f].
Proof.
  intros Ha Hb Hc Hd He Hf.
  rewrite !split_app by assumption. now rewrite split_sin_sep.
Qed.

Lemma campo_sin_barra s : campo s = true -> sin_barra s = true.
Proof. now intros [? ?]%andb_true_iff. Qed.

Lemma campo_sin_salto s : campo s = true -> sin_salto s = true.
Proof. now intros [? ?]%andb_true_iff. Qed.

Lemma sin_salto_app a b :
  sin_salto (a ++ b) = sin_salto a && sin_salto b.
Proof. apply forallb_app. Qed.

Lemma sin_salto_cons c s :
  sin_salto (c :: s) = negb (c =? NL)%N && negb (c =? CR)%N && sin_salto s.
Proof. reflexivity. Qed.

Lemma str_of_bool_campo b : campo (str_of_bool b) = true.
Proof. now destruct b. Qed.

Lemma lower_str_of_bool b : Py.eqb (lower (str_of_bool b)) (py "true") = b.
Proof. now destruct b. Qed.


Lemma linea_libro_cuerpo b : RA.linea_libro b = cuerpo_libro b ++ [NL].
Proof.
  unfold RA.linea_libro, cuerpo_libro.
  change (py "LIBRO|") with (py "LIBRO" ++ [PIPE]).
  repeat (rewrite <- ?app_assoc, <- ?app_comm_cons; simpl). reflexivity.
Qed.

Lemma strip_linea_libro b : strip (RA.linea_libro b) = cuerpo_libro b.
Proof.
  rewrite linea_libro_cuerpo.
  apply (strip_renglon _ 76%N 101%N); [done| |done|done].
  unfold cuerpo_libro.
  repeat (apply last_app_Some || apply last_cons_Some).
  now destruct (Libro.disponible b).
Qed.

Lemma cargar_linea_libro b k c :
  Libro.id b = Some k -> libro_guardable b = true ->
  RA.cargar_linea (RA.linea_libro b) c
  = Ok {| RA.repo :=
            RA.Repo (RA.archivo (RA.repo c)) (RA.libros (RA.repo c) ++ [b])
              (RA.prestamos (RA.repo c)) (RA.contador_libro (RA.repo c))
              (RA.contador_prestamo (RA.repo c));
          RA.max_libro_id := Z.max (RA.max_libro_id c) k;
          RA.max_prestamo_id := RA.max_prestamo_id c |}.
Proof.
  intros Hid Hg. unfold libro_guardable in Hg. rewrite Hid in Hg.
  apply andb_true_iff in Hg as [Hg Hi]. apply andb_true_iff in Hg as [Hg Ha].
  simpl in Hg.
  unfold RA.cargar_linea. rewrite strip_linea_libro. unfold cuerpo_libro.
  rewrite split_seis; auto using campo_sin_barra, str_of_int_campo, str_of_bool_campo.
  2: { rewrite Hid. apply campo_sin_barra, str_of_int_campo. }
  cbn [nth length]. rewrite Hid. cbn [str_of_id]. rewrite int_str_of_int.
  rewrite lower_str_of_bool.
  change (Py.eqb (py "LIBRO") (py "LIBRO") && (6 =? 6)%nat) with true.
  cbv iota. destruct b; simpl in *; now subst.
Qed.

Lemma linea_prestamo_cuerpo p : RA.linea_prestamo p = cuerpo_prestamo p ++ [NL].
Proof.
  unfold RA.linea_prestamo, cuerpo_prestamo.
  change (py "PRESTAMO|") with (py "PRESTAMO" ++ [PIPE]).
  repeat (rewrite <- ?app_assoc, <- ?app_comm_cons; simpl). reflexivity.
Qed.

Lemma strip_linea_prestamo p : strip (RA.linea_prestamo p) = cuerpo_prestamo p.
Proof.
  rewrite linea_prestamo_cuerpo.
  apply (strip_renglon _ 80%N 101%N); [done| |done|done].
  unfold cuerpo_prestamo.
  repeat (apply last_app_Some || apply last_cons_Some).
  now destruct (Prestamo.devuelto p).
Qed.

Lemma cargar_linea_prestamo p k c :
  Prestamo.id p = Some k -> prestamo_guardable p = true ->
  RA.cargar_linea (RA.linea_prestamo p) c
  = Ok {| RA.repo :=
            RA.Repo (RA.archivo (RA.repo c)) (RA.libros (RA.repo c))
              (RA.prestamos (RA.repo c) ++ [p])
              (RA.contador_libro (RA.repo c))
              (RA.contador_prestamo (RA.repo c));
          RA.max_libro_id := RA.max_libro_id c;
          RA.max_prestamo_id := Z.max (RA.max_prestamo_id c) k |}.
Proof.
  intros Hid Hg. unfold prestamo_guardable in Hg. rewrite Hid in Hg.
  apply andb_true_iff in Hg as [Hg Hf]. simpl in Hg.
  unfold RA.cargar_linea. rewrite strip_linea_prestamo. unfold cuerpo_prestamo.
  rewrite split_seis; auto using campo_sin_barra, str_of_int_campo, str_of_bool_campo.
  2: { rewrite Hid. apply campo_sin_barra, str_of_int_campo. }
  cbn [nth length]. rewrite Hid. cbn [str_of_id]. rewrite !int_str_of_int.
  rewrite lower_str_of_bool.
  change (Py.eqb (py "PRESTAMO") (py "LIBRO") && (6 =? 6)%nat) with false.
  change (Py.eqb (py "PRESTAMO") (py "PRESTAMO") && (6 =? 6)%nat) with true.
  cbv iota. destruct p; simpl in *; now subst.
Qed.

Lemma sin_barra_lstrip s : sin_barra s = true -> sin_barra (lstrip s) = true.
Proof.
  induction s as [|c s IH]; [done|]. simpl.
  intros H. destruct (isspace c); [|exact H].
  apply andb_true_iff in H as [_ H]. auto.
Qed.

Lemma sin_barra_rev s : sin_barra (rev s) = sin_barra s.
Proof.
  unfold sin_barra. apply eq_true_iff_eq.
  rewrite !forallb_forall. split; intros H x Hx; apply H; now apply in_rev in Hx || apply in_rev.
Qed.

Lemma sin_barra_strip s : sin_barra s = true -> sin_barra (strip s) = true.
Proof.
  intros H. unfold strip, rstrip.
  rewrite sin_barra_rev. apply sin_barra_lstrip. rewrite sin_barra_rev.
  now apply sin_barra_lstrip.
Qed.

(** A line without a bar changes nothing. *)
Lemma cargar_linea_sin_barra linea c :
  sin_barra linea = true -> RA.cargar_linea linea c = Ok c.
Proof.
  intros H. unfold RA.cargar_linea.
  rewrite split_sin_sep by (apply sin_barra_strip, H).
  cbn [length Nat.eqb]. now rewrite !andb_false_r.
Qed.

Lemma max_id_nonneg ids : (0 <= max_id ids)%Z.
Proof. induction ids as [|[k|] ids IH]; simpl; lia. Qed.

Lemma cargar_lineas_libros bs resto c :
  forallb libro_guardable bs = true -> (0 <= RA.max_libro_id c)%Z ->
  RA.cargar_lineas (map RA.linea_libro bs ++ resto) c
  = RA.cargar_lineas resto
      {| RA.repo :=
           RA.Repo (RA.archivo (RA.repo c)) (RA.libros (RA.repo c) ++ bs)
             (RA.prestamos (RA.repo c)) (RA.contador_libro (RA.repo c))
             (RA.contador_prestamo (RA.repo c));
         RA.max_libro_id := Z.max (RA.max_libro_id c) (max_id (map Libro.id bs));
         RA.max_prestamo_id := RA.max_prestamo_id c |}.
Proof.
  revert c. induction bs as [|b bs IH]; intros c Hg Hm.
  - simpl. rewrite app_nil_r, Z.max_l by done. now destruct c as [[]].
  - simpl in Hg. apply andb_true_iff in Hg as [Hb Hg].
    assert (exists k, Libro.id b = Some k) as [k Hk].
    { unfold libro_guardable in Hb. destruct (Libro.id b); [eauto|done]. }
    cbn [map app RA.cargar_lineas]. rewrite (cargar_linea_libro b k c Hk Hb).
    rewrite IH by (simpl; auto; lia). simpl. rewrite Hk, <- app_assoc.
    simpl. now rewrite Z.max_assoc.
Qed.

Lemma cargar_lineas_prestamos ps resto c :
  forallb prestamo_guardable ps = true -> (0 <= RA.max_prestamo_id c)%Z ->
  RA.cargar_lineas (map RA.linea_prestamo ps ++ resto) c
  = RA.cargar_lineas resto
      {| RA.repo :=
           RA.Repo (RA.archivo (RA.repo c)) (RA.libros (RA.repo c))
             (RA.prestamos (RA.repo c) ++ ps) (RA.contador_libro (RA.repo c))
             (RA.contador_prestamo (RA.repo c));
         RA.max_libro_id := RA.max_libro_id c;
         RA.max_prestamo_id :=
           Z.max (RA.max_prestamo_id c) (max_id (map Prestamo.id ps)) |}.
Proof.
  revert c. induction ps as [|p ps IH]; intros c Hg Hm.
  - simpl. rewrite app_nil_r, Z.max_l by done. now destruct c as [[]].
  - simpl in Hg. apply andb_true_iff in Hg as [Hp Hg].
    assert (exists k, Prestamo.id p = Some k) as [k Hk].
    { unfold prestamo_guardable in Hp. destruct (Prestamo.id p); [eauto|done]. }
    cbn [map app RA.cargar_lineas]. rewrite (cargar_linea_prestamo p k c Hk Hp).
    rewrite IH by (simpl; auto; lia). simpl. rewrite Hk, <- app_assoc.
    simpl. now rewrite Z.max_assoc.
Qed.

Lemma libro_guardable_sin_salto b :
  libro_guardable b = true -> sin_salto (cuerpo_libro b) = true.
Proof.
  unfold libro_guardable, cuerpo_libro. intros H.
  repeat (apply andb_true_iff in H as [H ?]).
  destruct (Libro.id b) as [k|]; [|done]. cbn [str_of_id].
  repeat (rewrite sin_salto_app || rewrite sin_salto_cons).
  rewrite (campo_sin_salto _ (str_of_int_campo k)),
    (campo_sin_salto _ (str_of_bool_campo (Libro.disponible b))),
    !campo_sin_salto by assumption.
  reflexivity.
Qed.

Lemma prestamo_guardable_sin_salto p :
  prestamo_guardable p = true -> sin_salto (cuerpo_prestamo p) = true.
Proof.
  unfold prestamo_guardable, cuerpo_prestamo. intros H.
  repeat (apply andb_true_iff in H as [H ?]).
  destruct (Prestamo.id p) as [k|]; [|done]. cbn [str_of_id].
  repeat (rewrite sin_salto_app || rewrite sin_salto_cons).
  rewrite (campo_sin_salto _ (str_of_int_campo k)),
    (campo_sin_salto _ (str_of_int_campo (Prestamo.libro_id p))),
    (campo_sin_salto _ (str_of_bool_campo (Prestamo.devuelto p))),
    !campo_sin_salto by assumption.
  reflexivity.
Qed.

Lemma readlines_libros bs resto :
  forallb libro_guardable bs = true ->
  readlines (concat (map RA.linea_libro bs) ++ resto)
  = map RA.linea_libro bs ++ readlines resto.
Proof.
  induction bs as [|b bs IH]; [done|]. cbn [map concat forallb].
  intros [Hb Hg]%andb_true_iff. rewrite <- app_assoc.
  rewrite (linea_libro_cuerpo b). rewrite <- app_assoc.
  change ([NL] ++ ?x) with (NL :: x).
  rewrite readlines_linea by now apply libro_guardable_sin_salto.
  now rewrite IH.
Qed.

Lemma readlines_prestamos ps resto :
  forallb prestamo_guardable ps = true ->
  readlines (concat (map RA.linea_prestamo ps) ++ resto)
  = map RA.linea_prestamo ps ++ readlines resto.
Proof.
  induction ps as [|p ps IH]; [done|]. cbn [map concat forallb].
  intros [Hp Hg]%andb_true_iff. rewrite <- app_assoc.
  rewrite (linea_prestamo_cuerpo p). rewrite <- app_assoc.
  change ([NL] ++ ?x) with (NL :: x).
  rewrite readlines_linea by now apply prestamo_guardable_sin_salto.
  now rewrite IH.
Qed.

Lemma cabecera_libros_campo r : campo (cabecera_libros r) = true.
Proof.
  unfold cabecera_libros, campo, sin_barra, sin_salto.
  rewrite !forallb_app. pose proof (str_of_int_campo (Z.of_nat (length (RA.libros r)))) as H.
  apply andb_true_iff in H as [H1 H2]. unfold sin_barra, sin_salto in *.
  now rewrite H1, H2.
Qed.

Lemma cabecera_prestamos_campo r : campo (cabecera_prestamos r) = true.
Proof.
  unfold cabecera_prestamos, campo, sin_barra, sin_salto.
  rewrite !forallb_app. pose proof (str_of_int_campo (Z.of_nat (length (RA.prestamos r)))) as H.
  apply andb_true_iff in H as [H1 H2]. unfold sin_barra, sin_salto in *.
  now rewrite H1, H2.
Qed.

Lemma contenido_forma r :
  RA.contenido r
  = cabecera_libros r ++ NL :: cabecera_prestamos r ++ NL
    :: concat (map RA.linea_libro (RA.libros r))
    ++ concat (map RA.linea_prestamo (RA.prestamos r)) ++ [].
Proof.
  unfold RA.contenido, cabecera_libros, cabecera_prestamos.
  rewrite app_nil_r.
  repeat (rewrite <- ?app_assoc, <- ?app_comm_cons; simpl). reflexivity.
Qed.

Lemma readlines_contenido r :
  forallb libro_guardable (RA.libros r) = true ->
  forallb prestamo_guardable (RA.prestamos r) = true ->
  readlines (RA.contenido r)
  = (cabecera_libros r ++ [NL]) :: (cabecera_prestamos r ++ [NL])
    :: map RA.linea_libro (RA.libros r)
    ++ map RA.linea_prestamo (RA.prestamos r) ++ [].
Proof.
  intros Hl Hp. rewrite contenido_forma.
  rewrite readlines_linea by apply campo_sin_salto, cabecera_libros_campo.
  rewrite readlines_linea by apply campo_sin_salto, cabecera_prestamos_campo.
  now rewrite readlines_libros, readlines_prestamos.
Qed.

Lemma sin_barra_app a b : sin_barra (a ++ b) = sin_barra a && sin_barra b.
Proof. apply forallb_app. Qed.

Lemma contador_recalculado m :
  (0 <= m)%Z -> (if (m >? 0)%Z then m + 1 else 1)%Z = (m + 1)%Z.
Proof. intros H. destruct (Z.gtb_spec m 0); lia. Qed.

(** Building a repository over a file that holds what a repository [r]
    writes gives the lists of [r] back. *)
Lemma cargar_contenido r d :
  d !! RA.archivo r = Some (RA.contenido r) ->
  forallb libro_guardable (RA.libros r) = true ->
  forallb prestamo_guardable (RA.prestamos r) = true ->
  RA.nuevo (RA.archivo r) d
  = (RA.Repo (RA.archivo r) (RA.libros r) (RA.prestamos r)
       (max_id (map Libro.id (RA.libros r)) + 1)
       (max_id (map Prestamo.id (RA.prestamos r)) + 1),
     []).
Proof.
  intros Hd Hl Hp. unfold RA.nuevo, RA._cargar_desde_archivo.
  cbn [RA.archivo]. rewrite Hd.
  rewrite (readlines_contenido r Hl Hp).
  cbn [RA.cargar_lineas].
  rewrite cargar_linea_sin_barra
    by (rewrite sin_barra_app, (campo_sin_barra _ (cabecera_libros_campo r)); reflexivity).
  rewrite cargar_linea_sin_barra
    by (rewrite sin_barra_app, (campo_sin_barra _ (cabecera_prestamos_campo r)); reflexivity).
  rewrite (cargar_lineas_libros _ _ _ Hl) by (simpl; lia).
  rewrite (cargar_lineas_prestamos _ _ _ Hp) by (simpl; lia).
  cbn. rewrite !Z.max_r by apply max_id_nonneg.
  now rewrite !contador_recalculado by apply max_id_nonneg.
Qed.

(** C2, amended.  When every stored record has an id and its texts hold no
    bar and no line break, saving the repository and building a new one
    over the same file gives the two lists back as they were, and sets each
    counter one above the greatest id of its list (above 0 when the list
    has no positive id). *)
Theorem C2_guardar_y_cargar r d :
  forallb libro_guardable (RA.libros r) = true ->
  forallb prestamo_guardable (RA.prestamos r) = true ->
  RA.nuevo (RA.archivo r) (RA._guardar_en_archivo r d)
  = (RA.Repo (RA.archivo r) (RA.libros r) (RA.prestamos r)
       (max_id (map Libro.id (RA.libros r)) + 1)
       (max_id (map Prestamo.id (RA.prestamos r)) + 1),
     []).
Proof.
  intros Hl Hp. apply cargar_contenido; [|done..].
  unfold RA._guardar_en_archivo. apply lookup_insert_eq.
Qed.

End ArchivoFacts.

Opaque py.

(** ** ejercicio03.py *)

Module Ej03Facts.

Import Ej03 Ej03S ListaFacts.

#[export] Instance Fiel_RepositorioMemoria : Fiel RepositorioMemoria.t.
Proof. split; intros; reflexivity. Qed.

#[export] Instance Fiel_RepositorioArchivo : Fiel RepositorioArchivo.t.
Proof.
  split; intros; try reflexivity.
  - unfold memoria, Vista_RepositorioArchivo; simpl.
    unfold RM.actualizar_libro. simpl.
    now destruct (list_find _ _) as [[? ?]|].
  - unfold memoria, Vista_RepositorioArchivo; simpl.
    unfold RM.actualizar_prestamo. simpl.
    now destruct (list_find _ _) as [[? ?]|].
Qed.



#[local] Opaque py.

Section Simulacion.

Context {R : Type} `{Fiel R}.

Lemma datos_proyectar (s : S.t R) : datos (proyectar s) = datos s.
Proof. reflexivity. Qed.

Lemma sim_agregar_libro titulo autor isbn (s : S.t R) :
  (S.agregar_libro titulo autor isbn s).1
  = (S.agregar_libro titulo autor isbn (proyectar s)).1
  /\ proyectar (S.agregar_libro titulo autor isbn s).2
     = (S.agregar_libro titulo autor isbn (proyectar s)).2.
Proof.
  unfold S.agregar_libro.
  destruct (vacio titulo || _); [done|].
  destruct (vacio autor || _); [done|].
  destruct (vacio isbn || _); [done|].
  pose proof (fiel_agregar_libro (Libro.Libro None titulo autor isbn true)
                (S.repositorio s) (S.disco s)) as F.
  destruct (IR.agregar_libro _ (S.repositorio s) (S.disco s)) as [[l r] d].
  simpl in F. injection F as -> Hr. simpl. unfold proyectar, datos. simpl.
  now rewrite Hr.
Qed.

Lemma sim_realizar_prestamo libro_id usuario hoy (s : S.t R) :
  (S.realizar_prestamo libro_id usuario hoy s).1
  = (S.realizar_prestamo libro_id usuario hoy (proyectar s)).1
  /\ proyectar (S.realizar_prestamo libro_id usuario hoy s).2
     = (S.realizar_prestamo libro_id usuario hoy (proyectar s)).2.
Proof.
  unfold S.realizar_prestamo.
  destruct (vacio usuario || _); [done|].
  rewrite fiel_obtener_libro_por_id.
  unfold proyectar at 2 4, datos. cbn [S.repositorio S.disco S.salida].
  change (@IR.obtener_libro_por_id RM.t _) with RM.obtener_libro_por_id.
  destruct (RM.obtener_libro_por_id libro_id _) as [libro|]; [|done].
  destruct (negb (Libro.disponible libro)); [done|].
  pose proof (fiel_agregar_prestamo (Prestamo.Prestamo None libro_id usuario hoy)
                (S.repositorio s) (S.disco s)) as F.
  destruct (IR.agregar_prestamo _ (S.repositorio s) (S.disco s)) as [[p r] d].
  simpl in F. injection F as -> Hr.
  pose proof (fiel_actualizar_libro (Libro.set_disponible false libro) r d) as G.
  destruct (IR.actualizar_libro _ r d) as [r1 d1]. simpl in G.
  simpl. unfold proyectar, datos. simpl. now rewrite G, Hr.
Qed.

Lemma sim_devolver_libro prestamo_id (s : S.t R) :
  (S.devolver_libro prestamo_id s).1
  = (S.devolver_libro prestamo_id (proyectar s)).1
  /\ proyectar (S.devolver_libro prestamo_id s).2
     = (S.devolver_libro prestamo_id (proyectar s)).2.
Proof.
  unfold S.devolver_libro.
  rewrite fiel_obtener_prestamo_por_id.
  unfold proyectar at 2 4, datos. cbn [S.repositorio S.disco S.salida].
  change (@IR.obtener_prestamo_por_id RM.t _) with RM.obtener_prestamo_por_id.
  destruct (RM.obtener_prestamo_por_id prestamo_id _) as [p|]; [|done].
  destruct (Prestamo.devuelto p); [done|].
  rewrite fiel_obtener_libro_por_id.
  change (@IR.obtener_libro_por_id RM.t _) with RM.obtener_libro_por_id.
  destruct (RM.obtener_libro_por_id _ _) as [libro|].
  - pose proof (fiel_actualizar_libro (Libro.set_disponible true libro)
                  (S.repositorio s) (S.disco s)) as G.
    destruct (IR.actualizar_libro _ (S.repositorio s) (S.disco s)) as [r d].
    simpl in G.
    pose proof (fiel_actualizar_prestamo (Prestamo.set_devuelto true p) r d) as G2.
    destruct (IR.actualizar_prestamo _ r d) as [r1 d1]. simpl in G2.
    simpl. unfold proyectar, datos. simpl. now rewrite G2, G.
  - pose proof (fiel_actualizar_prestamo (Prestamo.set_devuelto true p)
                  (S.repositorio s) (S.disco s)) as G2.
    destruct (IR.actualizar_prestamo _ (S.repositorio s) (S.disco s)) as [r1 d1].
    simpl in G2. simpl. unfold proyectar, datos. simpl. now rewrite G2.
Qed.

Lemma sim_ejecutar c (s : S.t R) :
  (ejecutar c s).1 = (ejecutar c (proyectar s)).1
  /\ proyectar (ejecutar c s).2 = (ejecutar c (proyectar s)).2.
Proof.
  destruct c; simpl.
  - apply sim_agregar_libro.
  - apply sim_realizar_prestamo.
  - apply sim_devolver_libro.
Qed.

End Simulacion.

(** ** What the three methods do to the attributes *)

Section Memoria.

Implicit Type s : S.t RM.t.

Lemma actualizar_libro_encontrado (m : RM.t) k j b b' :
  list_find (fun l => Libro.id l = Some k) (RM.libros m) = Some (j, b) ->
  Libro.id b' = Some k ->
  RM.actualizar_libro b' m
  = RM.Repo (<[j := b']> (RM.libros m)) (RM.prestamos m) (RM.contador_libro m)
      (RM.contador_prestamo m).
Proof.
  intros Hf Hid. unfold RM.actualizar_libro.
  rewrite (list_find_ext _ (fun l => Libro.id l = Some k))
    by (intros x; now rewrite Hid).
  now rewrite Hf.
Qed.

Lemma actualizar_prestamo_encontrado (m : RM.t) k i p p' :
  list_find (fun q => Prestamo.id q = Some k) (RM.prestamos m) = Some (i, p) ->
  Prestamo.id p' = Some k ->
  RM.actualizar_prestamo p' m
  = RM.Repo (RM.libros m) (<[i := p']> (RM.prestamos m)) (RM.contador_libro m)
      (RM.contador_prestamo m).
Proof.
  intros Hf Hid. unfold RM.actualizar_prestamo.
  rewrite (list_find_ext _ (fun q => Prestamo.id q = Some k))
    by (intros x; now rewrite Hid).
  now rewrite Hf.
Qed.

Lemma agregar_libro_M titulo autor isbn s :
  S.agregar_libro titulo autor isbn s
  = if vacio titulo || (len titulo <? 2)%Z then (py "Error: Título inválido", s)
    else if vacio autor || (len autor <? 3)%Z then (py "Error: Autor inválido", s)
    else if vacio isbn || (len isbn <? 10)%Z then (py "Error: ISBN inválido", s)
    else
      let m := S.repositorio s in
      (py "Libro '" ++ titulo ++ py "' agregado exitosamente (ID: "
       ++ str_of_int (RM.contador_libro m) ++ py ")",
       S.Sistema
         (RM.Repo
            (RM.libros m
             ++ [Libro.Libro (Some (RM.contador_libro m)) titulo autor isbn true])
            (RM.prestamos m) (RM.contador_libro m + 1) (RM.contador_prestamo m))
         (S.disco s) (S.salida s)).
Proof. reflexivity. Qed.

Lemma realizar_prestamo_M libro_id usuario hoy s :
  S.realizar_prestamo libro_id usuario hoy s
  = if vacio usuario || (len usuario <? 3)%Z then
      (py "Error: Nombre de usuario inválido", s)
    else
      let m := S.repositorio s in
      match list_find (fun l => Libro.id l = Some libro_id) (RM.libros m) with
      | None => (py "Error: Libro no encontrado", s)
      | Some (j, libro) =>
          if negb (Libro.disponible libro) then (py "Error: Libro no disponible", s)
          else
            (py "Préstamo realizado a " ++ usuario ++ py " (ID Préstamo: "
             ++ str_of_int (RM.contador_prestamo m) ++ py ")",
             S.Sistema
               (RM.Repo
                  (<[j := Libro.set_disponible false libro]> (RM.libros m))
                  (RM.prestamos m
                   ++ [Prestamo.Prestamo_ (Some (RM.contador_prestamo m))
                         libro_id usuario hoy false])
                  (RM.contador_libro m) (RM.contador_prestamo m + 1))
               (S.disco s)
               (S.salida s
                ++ [Linea (py "[NOTIFICACIÓN] " ++ usuario
                           ++ py ": Préstamo de '" ++ Libro.titulo libro
                           ++ py "'")]))
      end.
Proof.
  unfold S.realizar_prestamo.
  destruct (vacio usuario || _); [done|].
  cbn [IR.obtener_libro_por_id RepositorioMemoria_IRepositorioBiblioteca].
  unfold RM.obtener_libro_por_id. cbv zeta.
  destruct (list_find _ _) as [[j libro]|] eqn:Hf; [|done]. cbn [fmap option_fmap option_map snd].
  destruct (negb (Libro.disponible libro)); [done|].
  cbn [IR.agregar_prestamo IR.actualizar_libro RepositorioMemoria_IRepositorioBiblioteca].
  unfold RM.agregar_prestamo. cbv zeta.
  pose proof (buscar_Some Libro.id _ _ _ _ Hf) as [_ Hid].
  erewrite actualizar_libro_encontrado; [|exact Hf|exact Hid].
  reflexivity.
Qed.

Lemma devolver_libro_M prestamo_id s :
  S.devolver_libro prestamo_id s
  = let m := S.repositorio s in
    match list_find (fun p => Prestamo.id p = Some prestamo_id) (RM.prestamos m) with
    | None => (py "Error: Préstamo no encontrado", s)
    | Some (i, prestamo) =>
        if Prestamo.devuelto prestamo then (py "Error: Libro ya devuelto", s)
        else
          let prestamos := <[i := Prestamo.set_devuelto true prestamo]> (RM.prestamos m) in
          match list_find (fun l => Libro.id l = Some (Prestamo.libro_id prestamo))
                  (RM.libros m) with
          | Some (j, libro) =>
              (py "Libro devuelto exitosamente",
               S.Sistema
                 (RM.Repo (<[j := Libro.set_disponible true libro]> (RM.libros m))
                    prestamos (RM.contador_libro m) (RM.contador_prestamo m))
                 (S.disco s)
                 (S.salida s
                  ++ [Linea (py "[NOTIFICACIÓN] " ++ Prestamo.usuario prestamo
                             ++ py ": Devolución de '" ++ Libro.titulo libro
                             ++ py "'")]))
          | None =>
              (py "Libro devuelto exitosamente",
               S.Sistema
                 (RM.Repo (RM.libros m) prestamos (RM.contador_libro m)
                    (RM.contador_prestamo m))
                 (S.disco s) (S.salida s))
          end
    end.
Proof.
  unfold S.devolver_libro.
  cbn [IR.obtener_prestamo_por_id IR.obtener_libro_por_id
       IR.actualizar_libro IR.actualizar_prestamo
       RepositorioMemoria_IRepositorioBiblioteca].
  unfold RM.obtener_prestamo_por_id, RM.obtener_libro_por_id. cbv zeta.
  destruct (list_find _ (RM.prestamos _)) as [[i p]|] eqn:Hp; [|done].
  cbn [fmap option_fmap option_map snd].
  destruct (Prestamo.devuelto p) eqn:Hd; [done|].
  pose proof (buscar_Some Prestamo.id _ _ _ _ Hp) as [_ Hid].
  destruct (list_find _ (RM.libros _)) as [[j b]|] eqn:Hl;
    cbn [fmap option_fmap option_map snd].
  - pose proof (buscar_Some Libro.id _ _ _ _ Hl) as [_ Hidb].
    erewrite actualizar_libro_encontrado; [|exact Hl|exact Hidb].
    erewrite actualizar_prestamo_encontrado; [|exact Hp|exact Hid].
    reflexivity.
  - erewrite actualizar_prestamo_encontrado; [|exact Hp|exact Hid].
    reflexivity.
Qed.

End Memoria.

(** ** The invariant of the reachable states *)

Lemma activos_de_app k ps qs :
  activos_de k (ps ++ qs) = activos_de k ps + activos_de k qs.
Proof. apply contar_app. Qed.

Lemma activos_de_cero k ps :
  (forall i p, ps !! i = Some p -> Prestamo.libro_id p <> k) ->
  activos_de k ps = 0.
Proof.
  intros H. apply contar_cero. intros i p Hp.
  rewrite (bool_decide_eq_false_2 _ (H i p Hp)). reflexivity.
Qed.

Lemma activos_de_devolver k ps i p :
  ps !! i = Some p -> Prestamo.devuelto p = false ->
  activos_de k (<[i := Prestamo.set_devuelto true p]> ps)
  + (if bool_decide (Prestamo.libro_id p = k) then 1 else 0)
  = activos_de k ps.
Proof.
  intros Hi Hd. unfold activos_de.
  pose proof (contar_insert
    (fun q => bool_decide (Prestamo.libro_id q = k) && negb (Prestamo.devuelto q))
    ps i p (Prestamo.set_devuelto true p) Hi) as E.
  simpl in E. rewrite Hd, andb_false_r, andb_true_r in E. lia.
Qed.

Lemma invariante_nuevo : invariante RM.nuevo.
Proof.
  split; simpl; try (intros; done). constructor.
Qed.

Lemma invariante_agregar_libro titulo autor isbn (s : S.t RM.t) :
  invariante (S.repositorio s) ->
  invariante (S.repositorio (S.agregar_libro titulo autor isbn s).2).
Proof.
  intros I. rewrite agregar_libro_M.
  repeat (match goal with |- context [if ?c then _ else _] => destruct c end;
          [exact I|]).
  destruct I as [Iids Ind Iref Iact]. cbv zeta. cbn [snd S.repositorio].
  set (m := S.repositorio s) in *.
  split; cbn [RM.libros RM.prestamos RM.contador_libro RM.contador_prestamo].
  - intros j b [Hb|[_ Hb]]%lookup_app_Some.
    + destruct (Iids j b Hb) as (k & ? & ?). exists k. split; [done|lia].
    + apply list_lookup_singleton_Some in Hb as [_ <-]. eexists. split; [done|lia].
  - rewrite map_app. apply NoDup_app. split_and!; [done| |apply NoDup_singleton].
    intros x Hx ->%list_elem_of_singleton.
    apply list_elem_of_fmap in Hx as (b & Hb & Hin).
    apply list_elem_of_lookup in Hin as [j Hj].
    destruct (Iids j b Hj) as (k & Hk & ?). simpl in Hb. rewrite Hk in Hb.
    injection Hb as <-. lia.
  - intros i p Hp. specialize (Iref i p Hp). lia.
  - intros j b k [Hb|[_ Hb]]%lookup_app_Some Hk.
    + eauto.
    + apply list_lookup_singleton_Some in Hb as [_ <-]. simpl in *.
      injection Hk as <-. apply activos_de_cero.
      intros i p Hp. specialize (Iref i p Hp). lia.
Qed.

Lemma invariante_realizar_prestamo libro_id usuario hoy (s : S.t RM.t) :
  invariante (S.repositorio s) ->
  invariante (S.repositorio (S.realizar_prestamo libro_id usuario hoy s).2).
Proof.
  intros I. rewrite realizar_prestamo_M.
  destruct (vacio usuario || _); [exact I|]. cbv zeta.
  destruct (list_find _ _) as [[j b]|] eqn:Hf; [|exact I].
  destruct (Libro.disponible b) eqn:Hd; [|exact I].
  cbn [negb snd S.repositorio].
  destruct (buscar_Some Libro.id _ _ _ _ Hf) as [Hj Hid].
  destruct I as [Iids Ind Iref Iact].
  set (m := S.repositorio s) in *.
  split; cbn [RM.libros RM.prestamos RM.contador_libro RM.contador_prestamo].
  - intros j' x [(<- & <- & _)|[? Hx]]%list_lookup_insert_Some; [|eauto].
    apply (Iids j b Hj).
  - now rewrite (map_clave_insert Libro.id _ _ _ _ Hj).
  - intros i p [Hp|[_ Hp]]%lookup_app_Some; [eauto|].
    apply list_lookup_singleton_Some in Hp as [_ <-]. simpl.
    destruct (Iids j b Hj) as (k & Hk & ?). congruence.
  - intros j' x k Hx Hk. rewrite activos_de_app.
    apply list_lookup_insert_Some in Hx as [(<- & <- & _)|[Hne Hx]].
    + simpl in Hk. rewrite Hid in Hk. injection Hk as <-.
      rewrite (Iact j b libro_id Hj Hid), Hd. unfold activos_de. simpl.
      now rewrite bool_decide_eq_true_2.
    + rewrite (Iact j' x k Hx Hk). unfold activos_de at 1. simpl.
      rewrite bool_decide_eq_false_2; [simpl; lia|].
      intros ->. apply Hne. eapply (nodup_clave Libro.id); eauto. congruence.
Qed.

Lemma invariante_devolver_libro prestamo_id (s : S.t RM.t) :
  invariante (S.repositorio s) ->
  invariante (S.repositorio (S.devolver_libro prestamo_id s).2).
Proof.
  intros I. rewrite devolver_libro_M. cbv zeta.
  destruct (list_find _ (RM.prestamos _)) as [[i p]|] eqn:Hp; [|exact I].
  destruct (Prestamo.devuelto p) eqn:Hd; [exact I|].
  destruct (buscar_Some Prestamo.id _ _ _ _ Hp) as [Hi Hid].
  destruct I as [Iids Ind Iref Iact].
  set (m := S.repositorio s) in *.
  assert (Href : forall i' q,
    <[i := Prestamo.set_devuelto true p]> (RM.prestamos m) !! i' = Some q ->
    (Prestamo.libro_id q < RM.contador_libro m)%Z).
  { intros i' q [(<- & <- & _)|[? Hq]]%list_lookup_insert_Some; [|eauto].
    apply (Iref i p Hi). }
  destruct (list_find _ (RM.libros _)) as [[j b]|] eqn:Hl;
    cbn [snd S.repositorio];
    split; cbn [RM.libros RM.prestamos RM.contador_libro RM.contador_prestamo];
    try exact Href; try done.
  - destruct (buscar_Some Libro.id _ _ _ _ Hl) as [Hj Hidb].
    intros j' x [(<- & <- & _)|[? Hx]]%list_lookup_insert_Some; [|eauto].
    apply (Iids j b Hj).
  - destruct (buscar_Some Libro.id _ _ _ _ Hl) as [Hj Hidb].
    now rewrite (map_clave_insert Libro.id _ _ _ _ Hj).
  - destruct (buscar_Some Libro.id _ _ _ _ Hl) as [Hj Hidb].
    intros j' x k Hx Hk.
    pose proof (activos_de_devolver k _ i p Hi Hd) as E.
    apply list_lookup_insert_Some in Hx as [(<- & <- & _)|[Hne Hx]].
    + simpl in Hk. rewrite Hidb in Hk. injection Hk as <-.
      rewrite bool_decide_eq_true_2 in E by done.
      rewrite (Iact j b _ Hj Hidb) in E. simpl. destruct (Libro.disponible b); lia.
    + rewrite bool_decide_eq_false_2 in E.
      * rewrite <- (Iact j' x k Hx Hk). lia.
      * intros Heq. apply Hne. eapply (nodup_clave Libro.id); eauto. congruence.
  - intros j' x k Hx Hk.
    pose proof (activos_de_devolver k _ i p Hi Hd) as E.
    rewrite bool_decide_eq_false_2 in E.
    + rewrite <- (Iact j' x k Hx Hk). lia.
    + intros Heq. apply (buscar_None Libro.id _ _ _ _ Hl Hx). congruence.
Qed.

Lemma invariante_ejecutar c (s : S.t RM.t) :
  invariante (S.repositorio s) -> invariante (S.repositorio (ejecutar c s).2).
Proof.
  destruct c; simpl.
  - apply invariante_agregar_libro.
  - apply invariante_realizar_prestamo.
  - apply invariante_devolver_libro.
Qed.

Section Alcanzables.

Context {R : Type} `{Fiel R}.

Lemma datos_ejecutar c (s : S.t R) :
  datos (ejecutar c s).2 = S.repositorio (ejecutar c (proyectar s)).2.
Proof.
  rewrite <- (proj2 (sim_ejecutar c s)). reflexivity.
Qed.

Lemma alcanzable_invariante (s : S.t R) : alcanzable s -> invariante (datos s).
Proof.
  induction 1 as [s Hs|c s _ IH].
  - rewrite Hs. apply invariante_nuevo.
  - rewrite datos_ejecutar. now apply invariante_ejecutar.
Qed.

Lemma referencias_activas_activos_de b k ps :
  Libro.id b = Some k -> length (referencias_activas b ps) = activos_de k ps.
Proof.
  intros Hk. unfold referencias_activas, activos_de. f_equal.
  apply List.filter_ext. intros p. rewrite Hk. f_equal.
  apply bool_decide_ext. split; congruence.
Qed.

End Alcanzables.

(** ** Results over any faithful repository *)

Section Resultados.

Context {R : Type} `{Fiel R}.

Lemma salida_ejecutar c (s : S.t R) :
  S.salida (ejecutar c s).2 = S.salida (ejecutar c (proyectar s)).2.
Proof. rewrite <- (proj2 (sim_ejecutar c s)). reflexivity. Qed.

Lemma alcanzable_todas cs (s : S.t R) :
  alcanzable s -> alcanzable (ejecutar_todas cs s).
Proof.
  revert s. induction cs as [|c cs IH]; intros s Hs; [done|].
  simpl. apply IH. now constructor.
Qed.

(** C1.  In every state reached from an empty repository by calls of
    agregar_libro, realizar_prestamo and devolver_libro, a stored book is
    unavailable exactly when one loan, and only one, points at its id and
    is not returned. *)
Theorem C1_disponible_sii_sin_prestamo_activo (s : S.t R) (b : Libro.t) :
  alcanzable s -> In b (RM.libros (datos s)) ->
  Libro.disponible b = false
  <-> length (referencias_activas b (RM.prestamos (datos s))) = 1.
Proof.
  intros Hs Hb. pose proof (alcanzable_invariante s Hs) as [Iids _ _ Iact].
  apply list_elem_of_In, list_elem_of_lookup in Hb as [j Hj].
  destruct (Iids j b Hj) as (k & Hk & _).
  rewrite (referencias_activas_activos_de b k _ Hk), (Iact j b k Hj Hk).
  destruct (Libro.disponible b); split; congruence.
Qed.

(** C10.  A loan that goes through leaves every book with another id as it
    was, keeps the number of books, and adds one loan, the new one, after
    the loans that were there. *)
Theorem C10_realizar_prestamo_marco libro_id usuario hoy (s : S.t R) :
  es_error (S.realizar_prestamo libro_id usuario hoy s).1 = false ->
  (forall j b, RM.libros (datos s) !! j = Some b ->
     Libro.id b <> Some libro_id ->
     RM.libros (datos (S.realizar_prestamo libro_id usuario hoy s).2) !! j
     = Some b)
  /\ length (RM.libros (datos (S.realizar_prestamo libro_id usuario hoy s).2))
     = length (RM.libros (datos s))
  /\ RM.prestamos (datos (S.realizar_prestamo libro_id usuario hoy s).2)
     = RM.prestamos (datos s)
       ++ [Prestamo.Prestamo_ (Some (RM.contador_prestamo (datos s)))
             libro_id usuario hoy false].
Proof.
  pose proof (sim_ejecutar (RealizarPrestamo libro_id usuario hoy) s) as [E1 E2].
  pose proof (datos_ejecutar (RealizarPrestamo libro_id usuario hoy) s) as E3.
  simpl in E1, E2, E3. rewrite E1, E3. clear E1 E2 E3.
  rewrite realizar_prestamo_M. cbn [proyectar S.repositorio].
  destruct (vacio usuario || _); [done|]. cbv zeta.
  destruct (list_find _ _) as [[j b]|] eqn:Hf; [|done].
  destruct (negb (Libro.disponible b)); [done|]. intros _.
  destruct (buscar_Some Libro.id _ _ _ _ Hf) as [Hj Hid].
  cbn [snd S.repositorio RM.libros RM.prestamos]. split_and!.
  - intros j' x Hx Hne. rewrite list_lookup_insert_ne; [done|].
    intros <-. congruence.
  - apply length_insert.
  - reflexivity.
Qed.

End Resultados.

Section Devoluciones.

Context {R : Type} `{Fiel R}.

Lemma salida_devolver k (s : S.t R) :
  S.salida (S.devolver_libro k s).2
  = S.salida (S.devolver_libro k (proyectar s)).2.
Proof. apply (salida_ejecutar (DevolverLibro k)). Qed.

Lemma devolucion_conforme_03 :
  devolucion_conforme (fun s : S.t R => RM.libros (datos s))
    (fun s => RM.prestamos (datos s)) S.salida S.devolver_libro
    aviso_devolucion_03.
Proof.
  intros s i p k Hp Hd. apply buscar_primero in Hp.
  pose proof (sim_ejecutar (DevolverLibro k) s) as [E1 _].
  pose proof (datos_ejecutar (DevolverLibro k) s) as E3.
  simpl in E1, E3. rewrite E1, E3, salida_devolver. clear E1 E3.
  rewrite devolver_libro_M. cbv zeta. cbn [proyectar S.repositorio S.salida].
  rewrite Hp, Hd.
  destruct (list_find _ (RM.libros _)) as [[j b]|] eqn:Hl;
    cbn [fst snd S.repositorio S.salida RM.libros RM.prestamos];
    (split; [done|]); (split; [done|]); split.
  - intros Hno. destruct (buscar_Some Libro.id _ _ _ _ Hl) as [Hj Hb].
    exfalso. apply (Hno b); [|done].
    apply list_elem_of_In. eapply list_elem_of_lookup_2, Hj.
  - intros j' b' Hb'. apply buscar_primero in Hb'.
    assert (j' = j /\ b' = b) as [-> ->] by (split; congruence). done.
  - done.
  - intros j' b' Hb'. apply buscar_primero in Hb'. congruence.
Qed.

Lemma prestamos_ejecutar_M c (s : S.t RM.t) i p :
  RM.prestamos (S.repositorio s) !! i = Some p -> Prestamo.devuelto p = true ->
  RM.prestamos (S.repositorio (ejecutar c s).2) !! i = Some p.
Proof.
  intros Hi Hd. destruct c as [t a n|k u hoy|k]; simpl.
  - rewrite agregar_libro_M.
    repeat (match goal with |- context [if ?c then _ else _] => destruct c end;
            [exact Hi|]).
    exact Hi.
  - rewrite realizar_prestamo_M.
    destruct (vacio u || _); [exact Hi|]. cbv zeta.
    destruct (list_find _ _) as [[j b]|]; [|exact Hi].
    destruct (negb _); [exact Hi|]. simpl. now apply lookup_app_l_Some.
  - rewrite devolver_libro_M. cbv zeta.
    destruct (list_find _ (RM.prestamos _)) as [[i' q]|] eqn:Hq; [|exact Hi].
    destruct (Prestamo.devuelto q) eqn:Hdq; [exact Hi|].
    destruct (buscar_Some Prestamo.id _ _ _ _ Hq) as [Hi' _].
    assert (i' <> i) by (intros ->; congruence).
    destruct (list_find _ (RM.libros _)) as [[j b]|]; simpl;
      now rewrite list_lookup_insert_ne.
Qed.

Lemma proyectar_todas cs (s : S.t R) :
  datos (fold_left (fun s c => (ejecutar c s).2) cs s)
  = S.repositorio (fold_left (fun s c => (ejecutar c s).2) cs (proyectar s)).
Proof.
  revert s. induction cs as [|c cs IH]; intros s; [done|].
  simpl. rewrite IH. now rewrite (proj2 (sim_ejecutar c s)).
Qed.

Lemma devuelto_permanente_03 :
  devuelto_permanente (fun s : S.t R => RM.prestamos (datos s)) ejecutar
    S.devolver_libro.
Proof.
  split.
  - intros cs s i p Hi Hd. rewrite proyectar_todas.
    change (datos s) with (S.repositorio (proyectar s)) in Hi.
    generalize dependent (proyectar s). clear s.
    induction cs as [|c cs IH]; intros s Hi; [done|].
    simpl. apply IH. now apply prestamos_ejecutar_M.
  - intros k s Hok.
    pose proof (sim_ejecutar (DevolverLibro k) s) as [E1 _].
    pose proof (datos_ejecutar (DevolverLibro k) s) as E3.
    simpl in E1, E3. rewrite E1 in Hok. clear E1.
    set (s1 := (S.devolver_libro k s).2) in *.
    unfold S.devolver_libro at 1. rewrite fiel_obtener_prestamo_por_id.
    fold (datos s1). rewrite E3. clear E3.
    rewrite devolver_libro_M in Hok |- *. cbv zeta in *.
    cbn [proyectar S.repositorio] in *.
    destruct (list_find _ (RM.prestamos _)) as [[i p]|] eqn:Hp; [|done].
    destruct (Prestamo.devuelto p) eqn:Hd; [done|].
    destruct (buscar_Some Prestamo.id _ _ _ _ Hp) as [Hi Hid].
    assert (RM.obtener_prestamo_por_id k
              (S.repositorio
                 (match list_find (fun l => Libro.id l = Some (Prestamo.libro_id p))
                          (RM.libros (datos s)) with
                  | Some (j, libro) => _
                  | None => _
                  end).2)
            = Some (Prestamo.set_devuelto true p)) as ->; [|done].
    unfold RM.obtener_prestamo_por_id.
    destruct (list_find _ (RM.libros _)) as [[j b]|];
      cbn [snd S.repositorio RM.prestamos];
      now rewrite (buscar_tras_insert Prestamo.id _ (Some k) i p
                   (Prestamo.set_devuelto true p) Hp Hid).
Qed.

End Devoluciones.

End Ej03Facts.

(** ** ejercicio02.py *)

Module Ej02Facts.

Import Ej02 Ej02S ListaFacts.

Lemma actualizar_libro_encontrado_02 (r : RB.t) d k j b b' :
  list_find (fun l => Libro.id l = Some k) (RB.libros r) = Some (j, b) ->
  Libro.id b' = Some k ->
  (RB.actualizar_libro b' r d).1
  = RB.Repo (RB.archivo r) (<[j := b']> (RB.libros r)) (RB.prestamos r)
      (RB.contador_libro r) (RB.contador_prestamo r).
Proof.
  intros Hf Hid. unfold RB.actualizar_libro.
  rewrite (list_find_ext _ (fun l => Libro.id l = Some k))
    by (intros x; now rewrite Hid).
  now rewrite Hf.
Qed.

Lemma actualizar_prestamo_encontrado_02 (r : RB.t) d k i p p' :
  list_find (fun q => Prestamo.id q = Some k) (RB.prestamos r) = Some (i, p) ->
  Prestamo.id p' = Some k ->
  (RB.actualizar_prestamo p' r d).1
  = RB.Repo (RB.archivo r) (RB.libros r) (<[i := p']> (RB.prestamos r))
      (RB.contador_libro r) (RB.contador_prestamo r).
Proof.
  intros Hf Hid. unfold RB.actualizar_prestamo.
  rewrite (list_find_ext _ (fun q => Prestamo.id q = Some k))
    by (intros x; now rewrite Hid).
  now rewrite Hf.
Qed.

(** The outcome of [devolver_libro]: the text, the two lists and what was
    printed. *)
Lemma devolver_libro_E prestamo_id (s : S2.t) :
  let r := S2.repositorio s in
  let res := S2.devolver_libro prestamo_id s in
  match list_find (fun p => Prestamo.id p = Some prestamo_id) (RB.prestamos r) with
  | None => res = (py "Error: Préstamo no encontrado", s)
  | Some (i, prestamo) =>
      if Prestamo.devuelto prestamo then res = (py "Error: Libro ya devuelto", s)
      else
        res.1 = py "Libro devuelto exitosamente"
        /\ RB.prestamos (S2.repositorio res.2)
           = <[i := Prestamo.set_devuelto true prestamo]> (RB.prestamos r)
        /\ RB.contador_libro (S2.repositorio res.2) = RB.contador_libro r
        /\ RB.contador_prestamo (S2.repositorio res.2) = RB.contador_prestamo r
        /\ match list_find
                   (fun l => Libro.id l = Some (Prestamo.libro_id prestamo))
                   (RB.libros r) with
           | Some (j, libro) =>
               RB.libros (S2.repositorio res.2)
               = <[j := Libro.set_disponible true libro]> (RB.libros r)
               /\ S2.salida res.2
                  = S2.salida s
                    ++ [ServicioNotificaciones.enviar_notificacion_devolucion
                          (Prestamo.usuario prestamo) (Libro.titulo libro)]
           | None =>
               RB.libros (S2.repositorio res.2) = RB.libros r
               /\ S2.salida res.2 = S2.salida s
           end
  end.
Proof.
  cbv zeta. unfold S2.devolver_libro, RB.obtener_prestamo_por_id,
    RB.obtener_libro_por_id.
  destruct (list_find _ (RB.prestamos _)) as [[i p]|] eqn:Hp;
    cbn [fmap option_fmap option_map snd V.validar_prestamo_existente]; [|done].
  destruct (Prestamo.devuelto p) eqn:Hd; [done|].
  cbn [bool_decide decide_rel negb].
  destruct (buscar_Some Prestamo.id _ _ _ _ Hp) as [Hi Hid].
  destruct (list_find _ (RB.libros _)) as [[j b]|] eqn:Hl;
    cbn [fmap option_fmap option_map snd].
  - destruct (buscar_Some Libro.id _ _ _ _ Hl) as [Hj Hidb].
    pose proof (actualizar_libro_encontrado_02 (S2.repositorio s) (S2.disco s)
                  _ j b (Libro.set_disponible true b) Hl Hidb) as E1.
    destruct (RB.actualizar_libro _ _ _) as [r1 d1]. simpl in E1. subst r1.
    pose proof (actualizar_prestamo_encontrado_02
                  (RB.Repo (RB.archivo (S2.repositorio s))
                     (<[j:=Libro.set_disponible true b]> (RB.libros (S2.repositorio s)))
                     (RB.prestamos (S2.repositorio s))
                     (RB.contador_libro (S2.repositorio s))
                     (RB.contador_prestamo (S2.repositorio s))) d1
                  _ i p (Prestamo.set_devuelto true p) Hp Hid) as E2.
    destruct (RB.actualizar_prestamo _ _ _) as [r2 d2]. simpl in E2. subst r2.
    done.
  - pose proof (actualizar_prestamo_encontrado_02 (S2.repositorio s) (S2.disco s)
                  _ i p (Prestamo.set_devuelto true p) Hp Hid) as E2.
    destruct (RB.actualizar_prestamo _ _ _) as [r2 d2]. simpl in E2. subst r2.
    done.
Qed.

Lemma devolucion_conforme_02 :
  devolucion_conforme (fun s => RB.libros (S2.repositorio s))
    (fun s => RB.prestamos (S2.repositorio s)) S2.salida S2.devolver_libro
    aviso_devolucion_02.
Proof.
  intros s i p k Hp Hd. apply buscar_primero in Hp.
  pose proof (devolver_libro_E k s) as E. cbv zeta in E.
  rewrite Hp, Hd in E.
  destruct E as (E1 & E2 & _ & _ & E3).
  split; [done|]. split; [done|].
  destruct (list_find _ (RB.libros _)) as [[j b]|] eqn:Hl; split.
  - intros Hno. destruct (buscar_Some Libro.id _ _ _ _ Hl) as [Hj Hb].
    exfalso. apply (Hno b); [|done].
    apply list_elem_of_In. eapply list_elem_of_lookup_2, Hj.
  - intros j' b' Hb'. apply buscar_primero in Hb'.
    assert (j' = j /\ b' = b) as [-> ->] by (split; congruence). done.
  - done.
  - intros j' b' Hb'. apply buscar_primero in Hb'. congruence.
Qed.

(** [agregar_libro] leaves the loans alone. *)
Lemma prestamos_agregar_libro titulo autor isbn (s : S2.t) :
  RB.prestamos (S2.repositorio (S2.agregar_libro titulo autor isbn s).2)
  = RB.prestamos (S2.repositorio s).
Proof.
  unfold S2.agregar_libro. now destruct (negb _).
Qed.

(** [realizar_prestamo] only ever adds a loan at the end. *)
Lemma prestamos_realizar_prestamo libro_id usuario hoy (s : S2.t) :
  exists nuevos,
    RB.prestamos (S2.repositorio (S2.realizar_prestamo libro_id usuario hoy s).2)
    = RB.prestamos (S2.repositorio s) ++ nuevos.
Proof.
  unfold S2.realizar_prestamo.
  destruct (negb _); [exists []; now rewrite app_nil_r|].
  destruct (RB.obtener_libro_por_id _ _) as [b|];
    [|exists []; now rewrite app_nil_r].
  destruct (negb _); [exists []; now rewrite app_nil_r|].
  unfold RB.agregar_prestamo, RB.actualizar_libro.
  destruct (list_find _ _) as [[j x]|]; simpl; eauto.
Qed.

Lemma prestamos_ejecutar c (s : S2.t) i p :
  RB.prestamos (S2.repositorio s) !! i = Some p -> Prestamo.devuelto p = true ->
  RB.prestamos (S2.repositorio (ejecutar c s).2) !! i = Some p.
Proof.
  intros Hi Hd. destruct c as [t a n|k u hoy|k]; simpl.
  - now rewrite prestamos_agregar_libro.
  - destruct (prestamos_realizar_prestamo k u hoy s) as [nuevos ->].
    now apply lookup_app_l_Some.
  - pose proof (devolver_libro_E k s) as E. cbv zeta in E.
    destruct (list_find _ (RB.prestamos _)) as [[i' q]|] eqn:Hq;
      [|now rewrite E].
    destruct (Prestamo.devuelto q) eqn:Hdq; [now rewrite E|].
    destruct E as (_ & -> & _).
    destruct (buscar_Some Prestamo.id _ _ _ _ Hq) as [Hi' _].
    rewrite list_lookup_insert_ne; [done|]. intros ->. congruence.
Qed.

Lemma devuelto_permanente_02 :
  devuelto_permanente (fun s => RB.prestamos (S2.repositorio s)) ejecutar
    S2.devolver_libro.
Proof.
  split.
  - intros cs. induction cs as [|c cs IH]; intros s i p Hi Hd; [done|].
    simpl. apply IH; [|done]. now apply prestamos_ejecutar.
  - intros k s Hok.
    pose proof (devolver_libro_E k s) as E. cbv zeta in E.
    destruct (list_find _ (RB.prestamos _)) as [[i p]|] eqn:Hp;
      [|rewrite E in Hok; done].
    destruct (Prestamo.devuelto p) eqn:Hd; [rewrite E in Hok; done|].
    destruct E as (_ & E2 & _).
    destruct (buscar_Some Prestamo.id _ _ _ _ Hp) as [Hi Hid].
    pose proof (devolver_libro_E k (S2.devolver_libro k s).2) as F.
    cbv zeta in F. rewrite E2 in F.
    rewrite (buscar_tras_insert Prestamo.id _ (Some k) i p
               (Prestamo.set_devuelto true p) Hp Hid) in F.
    exact F.
Qed.

(** C3.  When one of the three methods of ejercicio02.py answers with an
    error text, the state it gives back is the state it received: lists,
    counters, file system and output. *)
Theorem C3_error_sin_cambio (c : Llamada) (s : S2.t) :
  es_error (ejecutar c s).1 = true -> (ejecutar c s).2 = s.
Proof.
  destruct c as [t a n|k u hoy|k]; simpl.
  - unfold S2.agregar_libro. destruct (negb _); [done|].
    destruct (RB.agregar_libro _ _ _) as [[? ?] ?]. done.
  - unfold S2.realizar_prestamo. destruct (negb _); [done|].
    destruct (RB.obtener_libro_por_id _ _) as [b|]; [|done].
    destruct (negb _); [done|].
    destruct (RB.agregar_prestamo _ _ _) as [[? ?] ?].
    destruct (RB.actualizar_libro _ _ _) as [? ?]. done.
  - pose proof (devolver_libro_E k s) as E. cbv zeta in E.
    destruct (list_find _ (RB.prestamos _)) as [[i p]|]; [|now rewrite E].
    destruct (Prestamo.devuelto p); [now rewrite E|].
    destruct E as (-> & _). done.
Qed.

End Ej02Facts.

(** ** The claims that span several files *)

Module Claims.

Import Ej03 Ej03S Ej02 Ej02S ListaFacts ArchivoFacts Ej03Facts Ej02Facts.
Import Ejemplos.

(** C7.  In both services, and in every state, returning a loan by its id
    succeeds when the first stored loan that carries the id is out: that
    loan is marked returned, no other loan changes, and the fixed text comes
    back.  When no stored book has the loan's [libro_id], no book changes
    and nothing is printed; otherwise the first stored book that has it
    becomes available, no other book changes, and the notice is printed.
    Where the ids of a list are pairwise distinct, every record of the list
    is the first under its id. *)
Theorem C7_devolucion :
  devolucion_conforme
    (fun s => RepositorioBiblioteca.libros (SistemaBibliotecaRefactorizado.repositorio s))
    (fun s => RepositorioBiblioteca.prestamos (SistemaBibliotecaRefactorizado.repositorio s))
    SistemaBibliotecaRefactorizado.salida
    SistemaBibliotecaRefactorizado.devolver_libro aviso_devolucion_02
  /\ (forall (R : Type) (HR : IRepositorioBiblioteca.t R) (HV : Vista R),
        Fiel R ->
        devolucion_conforme
          (fun s : SistemaBibliotecaDIP.t R => RepositorioMemoria.libros (datos s))
          (fun s => RepositorioMemoria.prestamos (datos s))
          SistemaBibliotecaDIP.salida SistemaBibliotecaDIP.devolver_libro
          aviso_devolucion_03)
  /\ (forall (A : Type) (clave : A -> option Z) (l : list A) (i : nat)
             (x : A) (k : Z),
        NoDup (map clave l) -> l !! i = Some x -> clave x = Some k ->
        primero clave k l i x).
Proof.
  split_and!.
  - apply devolucion_conforme_02.
  - intros R HR HV HF. apply devolucion_conforme_03.
  - intros A clave l i x k Hnd Hi Hk. apply buscar_primero.
    now apply (buscar_nodup clave).
Qed.

Lemma C7_devolucion_witness :
  (SistemaBibliotecaDIP.devolver_libro 1 s_colgante).1
  = py "Libro devuelto exitosamente"
  /\ RepositorioMemoria.prestamos
       (datos (SistemaBibliotecaDIP.devolver_libro 1 s_colgante).2)
     = [Prestamo.set_devuelto true prestamo_colgante]
  /\ RepositorioMemoria.libros
       (datos (SistemaBibliotecaDIP.devolver_libro 1 s_colgante).2) = []
  /\ SistemaBibliotecaDIP.salida
       (SistemaBibliotecaDIP.devolver_libro 1 s_colgante).2 = [].
Proof.
  destruct C7_devolucion as (_ & H03 & _).
  destruct (H03 RepositorioMemoria.t _ _ _ s_colgante 0%nat prestamo_colgante 1%Z)
    as (H1 & H2 & H3 & _).
  - split; [reflexivity|]. split; [reflexivity|]. intros j y Hj. lia.
  - reflexivity.
  - split; [exact H1|]. split; [exact H2|]. apply H3.
    intros b Hb. vm_compute in Hb. destruct Hb.
Defined.

(** C7 as stated fails.  The file [texto_repetido] loads, with no warning,
    as a repository with no book and two loans under the id 1.  The second
    loan is out and its book is not stored, yet [devolver_libro 1] stops at
    the first, answers "Error: Libro ya devuelto" and marks nothing. *)
Lemma C7_contraejemplo :
  RepositorioArchivo.nuevo (py "biblioteca_dip.txt")
    (SistemaBibliotecaDIP.disco s_repetido)
  = (SistemaBibliotecaDIP.repositorio s_repetido, [])
  /\ RepositorioMemoria.libros (datos s_repetido) = []
  /\ RepositorioMemoria.prestamos (datos s_repetido) !! 1%nat
     = Some prestamo_colgante
  /\ Prestamo.id prestamo_colgante = Some 1%Z
  /\ Prestamo.devuelto prestamo_colgante = false
  /\ SistemaBibliotecaDIP.devolver_libro 1 s_repetido
     = (py "Error: Libro ya devuelto", s_repetido).
Proof.
  split_and!; vm_compute; reflexivity.
Qed.

(** C8.  In both services a loan that is returned stays returned, and
    unchanged, under every later sequence of calls; and after a return that
    went through, returning the same id again answers "Error: Libro ya
    devuelto" and gives the state back as it was. *)
Theorem C8_devuelto_permanente :
  devuelto_permanente
    (fun s => RepositorioBiblioteca.prestamos (SistemaBibliotecaRefactorizado.repositorio s))
    Ej02S.ejecutar SistemaBibliotecaRefactorizado.devolver_libro
  /\ (forall (R : Type) (HR : IRepositorioBiblioteca.t R) (HV : Vista R),
        Fiel R ->
        devuelto_permanente
          (fun s : SistemaBibliotecaDIP.t R => RepositorioMemoria.prestamos (datos s))
          Ej03S.ejecutar SistemaBibliotecaDIP.devolver_libro).
Proof.
  split.
  - apply devuelto_permanente_02.
  - intros R HR HV HF. apply devuelto_permanente_03.
Qed.

Lemma C8_devuelto_permanente_witness :
  SistemaBibliotecaDIP.devolver_libro 1
    (SistemaBibliotecaDIP.devolver_libro 1 s_prestado).2
  = (py "Error: Libro ya devuelto",
     (SistemaBibliotecaDIP.devolver_libro 1 s_prestado).2).
Proof.
  destruct C8_devuelto_permanente as [_ H03].
  destruct (H03 RepositorioMemoria.t _ _ _) as [_ H2].
  apply (H2 1%Z s_prestado). vm_compute. reflexivity.
Defined.


Lemma C1_disponible_sii_sin_prestamo_activo_witness :
  Libro.disponible (Libro.set_disponible false cien) = false
  <-> length (referencias_activas (Libro.set_disponible false cien)
                (RepositorioMemoria.prestamos (datos s_prestado))) = 1.
Proof.
  apply (C1_disponible_sii_sin_prestamo_activo s_prestado
           (Libro.set_disponible false cien)).
  - apply alcanzable_todas. apply alcanzable_vacio. reflexivity.
  - vm_compute. left. reflexivity.
Defined.

Lemma C10_realizar_prestamo_marco_witness :
  RepositorioMemoria.prestamos
    (datos (SistemaBibliotecaDIP.realizar_prestamo 1 (py "Juan Pérez")
              (py "2024-01-01") s_un_libro).2)
  = [prestamo_juan].
Proof.
  assert (es_error
            (SistemaBibliotecaDIP.realizar_prestamo 1 (py "Juan Pérez")
               (py "2024-01-01") s_un_libro).1 = false) as Hok
    by (vm_compute; reflexivity).
  destruct (C10_realizar_prestamo_marco 1%Z (py "Juan Pérez") (py "2024-01-01")
              s_un_libro Hok) as (_ & _ & H3).
  exact H3.
Defined.

Lemma C2_guardar_y_cargar_witness :
  RepositorioArchivo.nuevo (RepositorioArchivo.archivo r_archivo)
    (RepositorioArchivo._guardar_en_archivo r_archivo ∅)
  = (r_archivo, []).
Proof.
  apply (C2_guardar_y_cargar r_archivo ∅); vm_compute; reflexivity.
Defined.

(** C2 as stated fails.  A title with a line break and no bar is written
    over two lines and neither is read back; and a list whose only id is -5
    gets the counter 1, not -4. *)
Lemma C2_contraejemplo :
  (forallb libro_sin_barras (RepositorioArchivo.libros r_salto) = true
   /\ NoDup (map Libro.id (RepositorioArchivo.libros r_salto))
   /\ RepositorioArchivo.libros
        (RepositorioArchivo.nuevo (RepositorioArchivo.archivo r_salto)
           (RepositorioArchivo._guardar_en_archivo r_salto ∅)).1
      <> RepositorioArchivo.libros r_salto)
  /\ (forallb libro_sin_barras (RepositorioArchivo.libros r_negativo) = true
      /\ NoDup (map Libro.id (RepositorioArchivo.libros r_negativo))
      /\ RepositorioArchivo.contador_libro
           (RepositorioArchivo.nuevo (RepositorioArchivo.archivo r_negativo)
              (RepositorioArchivo._guardar_en_archivo r_negativo ∅)).1
         <> (-5 + 1)%Z).
Proof.
  split; split_and!.
  - vm_compute. reflexivity.
  - vm_compute. repeat constructor. intros Hin; inversion Hin.
  - vm_compute. discriminate.
  - vm_compute. reflexivity.
  - vm_compute. repeat constructor. intros Hin; inversion Hin.
  - vm_compute. discriminate.
Qed.

Lemma C3_error_sin_cambio_witness :
  (Ej02S.ejecutar (AgregarLibro (py "A") (py "B") (py "123")) s2_vacio).2
  = s2_vacio.
Proof.
  apply (C3_error_sin_cambio (AgregarLibro (py "A") (py "B") (py "123")) s2_vacio).
  vm_compute. reflexivity.
Defined.

(** C4 on the code.  With "A", "B" and "123" the service of ejercicio03.py
    stops at the first check and answers with the one text about the title;
    the service of ejercicio02.py answers with the three texts, one per
    line.  Neither stores anything. *)
Theorem C4_tres_errores (R : Type) (HR : IRepositorioBiblioteca.t R)
    (s : SistemaBibliotecaDIP.t R) (s2 : SistemaBibliotecaRefactorizado.t) :
  SistemaBibliotecaDIP.agregar_libro (py "A") (py "B") (py "123") s
  = (py "Error: Título inválido", s)
  /\ ValidadorBiblioteca.validar_libro (py "A") (py "B") (py "123")
     = [py "Error: Título inválido - debe tener al menos 2 caracteres";
        py "Error: Autor inválido - debe tener al menos 3 caracteres";
        py "Error: ISBN inválido - debe tener al menos 10 caracteres"]
  /\ SistemaBibliotecaRefactorizado.agregar_libro (py "A") (py "B") (py "123") s2
     = (join [NL]
          [py "Error: Título inválido - debe tener al menos 2 caracteres";
           py "Error: Autor inválido - debe tener al menos 3 caracteres";
           py "Error: ISBN inválido - debe tener al menos 10 caracteres"],
        s2).
Proof.
  assert (ValidadorBiblioteca.validar_libro (py "A") (py "B") (py "123")
     = [py "Error: Título inválido - debe tener al menos 2 caracteres";
        py "Error: Autor inválido - debe tener al menos 3 caracteres";
        py "Error: ISBN inválido - debe tener al menos 10 caracteres"]) as E
    by (vm_compute; reflexivity).
  split_and!.
  - unfold SistemaBibliotecaDIP.agregar_libro.
    replace (vacio (py "A") || (len (py "A") <? 2)%Z) with true
      by (vm_compute; reflexivity).
    reflexivity.
  - exact E.
  - unfold SistemaBibliotecaRefactorizado.agregar_libro. rewrite E.
    reflexivity.
Qed.

(** C5 on the code.  The service of ejercicio03.py answers a criterion
    other than its four with the empty list; the registry of ejercicio01.py
    raises ValueError for a criterion it does not hold and hands back what
    the strategy returns for one it holds. *)
Theorem C5_criterio_desconocido (R : Type) (HR : IRepositorioBiblioteca.t R)
    (s : SistemaBibliotecaDIP.t R) (s1 : Ej01.SistemaBibliotecaRefactorizado)
    (criterio valor : str) :
  ~ In criterio [py "titulo"; py "autor"; py "isbn"; py "disponible"] ->
  SistemaBibliotecaDIP.buscar_libro criterio valor s = []
  /\ (Ej01._estrategias_busqueda s1 !! criterio = None ->
      Ej01.buscar_libro criterio valor s1
      = Raise (ValueError (py "Criterio de búsqueda no válido: " ++ criterio)))
  /\ (forall e, Ej01._estrategias_busqueda s1 !! criterio = Some e ->
      Ej01.buscar_libro criterio valor s1
      = Ok (Ej01.buscar e (Ej01.libros s1) valor)).
Proof.
  intros Hno. split_and!.
  - unfold SistemaBibliotecaDIP.buscar_libro, Py.eqb.
    rewrite !bool_decide_eq_false_2; [done|..]; intros ->; apply Hno; simpl; auto.
  - intros Hn. unfold Ej01.buscar_libro. now rewrite Hn.
  - intros e He. unfold Ej01.buscar_libro. now rewrite He.
Qed.

Lemma C5_criterio_desconocido_witness :
  SistemaBibliotecaDIP.buscar_libro (py "genero") (py "novela") s_un_libro = []
  /\ Ej01.buscar_libro (py "genero") (py "novela") Ej01.nuevo
     = Raise (ValueError (py "Criterio de búsqueda no válido: " ++ py "genero")).
Proof.
  destruct (C5_criterio_desconocido RepositorioMemoria.t _ s_un_libro Ej01.nuevo
              (py "genero") (py "novela")) as (H1 & H2 & _).
  - vm_compute. intros [H|[H|[H|[H|[]]]]]; discriminate H.
  - split; [exact H1|]. apply H2. vm_compute. reflexivity.
Defined.

(** C6 on the code.  For a query whose lowered text is "1", "si", "sí" or
    "yes", the strategy of ejercicio01.py returns the available books, in
    order, while the services of ejercicio02.py and ejercicio03.py, which
    compare with "true" alone, return the books that are not available. *)
Theorem C6_tokens_disponibilidad (R : Type) (HR : IRepositorioBiblioteca.t R)
    (s : SistemaBibliotecaDIP.t R) (s2 : SistemaBibliotecaRefactorizado.t)
    (libros : list Libro.t) (valor : str) :
  In (lower valor) [py "1"; py "si"; py "sí"; py "yes"] ->
  Ej01.buscar Ej01.BusquedaPorDisponibilidad libros valor
  = List.filter Libro.disponible libros
  /\ SistemaBibliotecaDIP.buscar_libro (py "disponible") valor s
     = List.filter (fun l => negb (Libro.disponible l))
         (IRepositorioBiblioteca.obtener_todos_libros
            (SistemaBibliotecaDIP.repositorio s))
  /\ SistemaBibliotecaRefactorizado.buscar_libro (py "disponible") valor s2
     = List.filter (fun l => negb (Libro.disponible l))
         (RepositorioBiblioteca.libros
            (SistemaBibliotecaRefactorizado.repositorio s2)).
Proof.
  intros Hv.
  assert (existsb (Py.eqb (lower valor)) Ej01.tokens_verdaderos = true) as E1.
  { simpl in Hv. destruct Hv as [<-|[<-|[<-|[<-|[]]]]]; vm_compute; reflexivity. }
  assert (Py.eqb (lower valor) (py "true") = false) as E2.
  { simpl in Hv. destruct Hv as [<-|[<-|[<-|[<-|[]]]]]; vm_compute; reflexivity. }
  assert (Py.eqb (py "disponible") (py "titulo") = false) as F1
    by (vm_compute; reflexivity).
  assert (Py.eqb (py "disponible") (py "autor") = false) as F2
    by (vm_compute; reflexivity).
  assert (Py.eqb (py "disponible") (py "isbn") = false) as F3
    by (vm_compute; reflexivity).
  assert (Py.eqb (py "disponible") (py "disponible") = true) as F4
    by (vm_compute; reflexivity).
  split_and!.
  - unfold Ej01.buscar, Ej01.BusquedaPorDisponibilidad. rewrite E1.
    apply List.filter_ext. intros l. now destruct (Libro.disponible l).
  - unfold SistemaBibliotecaDIP.buscar_libro. rewrite F1, F2, F3, F4, E2.
    apply List.filter_ext. intros l. now destruct (Libro.disponible l).
  - unfold SistemaBibliotecaRefactorizado.buscar_libro.
    rewrite F1, F2, F3, F4, E2.
    apply List.filter_ext. intros l. now destruct (Libro.disponible l).
Qed.

Lemma C6_tokens_disponibilidad_witness :
  Ej01.buscar Ej01.BusquedaPorDisponibilidad [cien] (py "Si") = [cien]
  /\ SistemaBibliotecaDIP.buscar_libro (py "disponible") (py "Si") s_un_libro
     = [].
Proof.
  destruct (C6_tokens_disponibilidad RepositorioMemoria.t _ s_un_libro s2_vacio
              [cien] (py "Si")) as (H1 & H2 & _).
  - vm_compute. right. left. reflexivity.
  - split; [exact H1|exact H2].
Defined.

(** C9 on the code.  A line with the tag, six fields and an id that is no
    number stops the load: the book of the line before it stays stored, the
    line after it is never read, the counters stay at 1, and the error is
    printed. *)
Theorem C9_carga_interrumpida (archivo : str) :
  RepositorioArchivo.nuevo archivo (<[archivo := texto_roto]> ∅)
  = (RepositorioArchivo.Repo archivo [rayuela] [] 1 1,
     [ErrorCargandoArchivo (InvalidLiteralForInt (py "x"))]).
Proof.
  unfold RepositorioArchivo.nuevo, RepositorioArchivo._cargar_desde_archivo.
  cbn [RepositorioArchivo.archivo]. rewrite lookup_insert_eq.
  vm_compute. reflexivity.
Qed.

End Claims.

(** * Further properties of the code *)

Module Extras.

Import Ej03 Ej03S Ej02 Ej02S ListaFacts ArchivoFacts Ej03Facts Ej02Facts.
Import Ejemplos.

(** *** ejercicio01.py *)

(** X1.  After [registrar_estrategia], a search under the registered name
    hands back what the new strategy returns, also when the name was taken,
    and a search under any other name answers as before. *)
Theorem X1_registrar_estrategia (s : Ej01.SistemaBibliotecaRefactorizado)
    (criterio : str) (e : Ej01.EstrategiaBusqueda) (otro valor : str) :
  Ej01.buscar_libro criterio valor (Ej01.registrar_estrategia criterio e s)
  = Ok (Ej01.buscar e (Ej01.libros s) valor)
  /\ (otro <> criterio ->
      Ej01.buscar_libro otro valor (Ej01.registrar_estrategia criterio e s)
      = Ej01.buscar_libro otro valor s).
Proof.
  unfold Ej01.buscar_libro, Ej01.registrar_estrategia. simpl. split.
  - now rewrite lookup_insert_eq.
  - intros Hne. now rewrite lookup_insert_ne.
Qed.

Lemma X1_registrar_estrategia_witness :
  Ej01.buscar_libro (py "titulo") (py "Gabriel")
    (Ej01.registrar_estrategia (py "palabra_clave")
       Ej01Demo.BusquedaPorPalabraClave Ej01Demo.sistema_demo)
  = Ej01.buscar_libro (py "titulo") (py "Gabriel") Ej01Demo.sistema_demo.
Proof.
  apply (X1_registrar_estrategia Ej01Demo.sistema_demo (py "palabra_clave")
           Ej01Demo.BusquedaPorPalabraClave (py "titulo") (py "Gabriel")).
  vm_compute. discriminate.
Defined.

Lemma estrategias_agregar_libro l s :
  Ej01._estrategias_busqueda (Ej01.agregar_libro l s)
  = Ej01._estrategias_busqueda s.
Proof. reflexivity. Qed.

Lemma estrategias_nuevo_lookup criterio :
  Ej01._estrategias_busqueda Ej01.nuevo !! criterio
  = if decide (criterio = py "titulo") then Some Ej01.BusquedaPorTitulo
    else if decide (criterio = py "autor") then Some Ej01.BusquedaPorAutor
    else if decide (criterio = py "isbn") then Some Ej01.BusquedaPorISBN
    else if decide (criterio = py "disponible")
         then Some Ej01.BusquedaPorDisponibilidad
    else None.
Proof.
  unfold Ej01.nuevo. cbn [Ej01._estrategias_busqueda].
  rewrite !lookup_insert, lookup_empty.
  repeat (case_decide; [subst; rewrite ?decide_True by done; try done|]);
    repeat (case_decide; [congruence|]); done.
Qed.

(** X2.  A system that has only received books, through [agregar_libro],
    knows the four names it was built with: a search raises ValueError
    exactly for every other name. *)
Theorem X2_criterios_iniciales (ls : list Libro.t) (criterio valor : str) :
  let s := fold_left (fun s l => Ej01.agregar_libro l s) ls Ej01.nuevo in
  (In criterio criterios ->
   exists e, Ej01._estrategias_busqueda Ej01.nuevo !! criterio = Some e
             /\ Ej01.buscar_libro criterio valor s = Ok (Ej01.buscar e ls valor))
  /\ (~ In criterio criterios ->
      Ej01.buscar_libro criterio valor s
      = Raise (ValueError (py "Criterio de búsqueda no válido: " ++ criterio))).
Proof.
  cbv zeta.
  assert (forall s0,
    Ej01._estrategias_busqueda
      (fold_left (fun s l => Ej01.agregar_libro l s) ls s0)
    = Ej01._estrategias_busqueda s0
    /\ Ej01.libros (fold_left (fun s l => Ej01.agregar_libro l s) ls s0)
       = Ej01.libros s0 ++ ls) as Hfold.
  { induction ls as [|l ls IH]; intros s0; simpl.
    - now rewrite app_nil_r.
    - destruct (IH (Ej01.agregar_libro l s0)) as [-> ->]. simpl.
      now rewrite <- app_assoc. }
  destruct (Hfold Ej01.nuevo) as [He Hl]. simpl in Hl.
  unfold Ej01.buscar_libro. rewrite He, Hl, estrategias_nuevo_lookup.
  unfold criterios. split.
  - intros [<-|[<-|[<-|[<-|[]]]]];
      repeat (case_decide; [eauto|]); try done;
      exfalso; vm_compute in *; congruence.
  - intros Hno. repeat (case_decide; [exfalso; apply Hno; subst; simpl; auto|]).
    done.
Qed.

Lemma X2_criterios_iniciales_witness :
  Ej01.buscar_libro (py "editorial") (py "Sudamericana") Ej01Demo.sistema_demo
  = Raise (ValueError (py "Criterio de búsqueda no válido: " ++ py "editorial")).
Proof.
  apply (X2_criterios_iniciales Ej01Demo.libros_demo (py "editorial")
           (py "Sudamericana")).
  vm_compute. intros [H|[H|[H|[H|[]]]]]; discriminate H.
Defined.

Lemma contains_vacio s : contains s [] = true.
Proof. destruct s; reflexivity. Qed.

Lemma filter_todos {A} (f : A -> bool) l :
  (forall x, f x = true) -> List.filter f l = l.
Proof.
  intros H. induction l as [|a l IH]; [done|]. simpl. now rewrite H, IH.
Qed.

(** X3.  With the empty query, the title and the author strategies return
    every book, the isbn strategy the books whose isbn is empty, and the
    availability strategy the books that are not available. *)
Theorem X3_consulta_vacia (libros : list Libro.t) :
  Ej01.buscar Ej01.BusquedaPorTitulo libros [] = libros
  /\ Ej01.buscar Ej01.BusquedaPorAutor libros [] = libros
  /\ Ej01.buscar Ej01.BusquedaPorISBN libros []
     = List.filter (fun l => vacio (Libro.isbn l)) libros
  /\ Ej01.buscar Ej01.BusquedaPorDisponibilidad libros []
     = List.filter (fun l => negb (Libro.disponible l)) libros.
Proof.
  split_and!.
  - apply filter_todos. intros l. apply contains_vacio.
  - apply filter_todos. intros l. apply contains_vacio.
  - apply List.filter_ext. intros l. unfold Py.eqb.
    destruct (Libro.isbn l); [now rewrite bool_decide_eq_true_2|].
    now rewrite bool_decide_eq_false_2.
  - unfold Ej01.buscar, Ej01.BusquedaPorDisponibilidad.
    replace (existsb (Py.eqb (lower [])) Ej01.tokens_verdaderos) with false
      by (vm_compute; reflexivity).
    apply List.filter_ext. intros l. now destruct (Libro.disponible l).
Qed.

(** *** ejercicio02.py *)

Lemma vacio_len_strip t : vacio t = true -> (len (strip t) <? 2)%Z = true.
Proof. destruct t; [reflexivity|discriminate]. Qed.

Lemma prueba_longitud t n :
  (0 < n)%Z ->
  vacio t || (len (strip t) <? n)%Z = negb (n <=? len (strip t))%Z.
Proof.
  intros Hn. destruct t as [|c t].
  - simpl. symmetry. apply negb_true_iff, Z.leb_gt. exact Hn.
  - simpl vacio. rewrite orb_false_l. rewrite Z.ltb_antisym. reflexivity.
Qed.

Lemma startswith_app e resto pre :
  startswith e pre = true -> startswith (e ++ resto) pre = true.
Proof.
  revert e. induction pre as [|x pre IH]; intros e He;
    [now destruct (e ++ resto)|].
  destruct e as [|y e]; [discriminate|]. simpl in *.
  apply andb_true_iff in He as [-> He]. simpl. now apply IH.
Qed.

Lemma validar_libro_tabla (titulo autor isbn : str) :
  (V.validar_libro titulo autor isbn = []
   <-> (2 <= len (strip titulo) /\ 3 <= len (strip autor)
        /\ 10 <= len (strip isbn))%Z)
  /\ length (V.validar_libro titulo autor isbn) <= 3
  /\ Forall (fun e => es_error e = true) (V.validar_libro titulo autor isbn).
Proof.
  unfold V.validar_libro. cbv zeta.
  rewrite !prueba_longitud by lia.
  destruct (Z.leb_spec 2 (len (strip titulo)));
    destruct (Z.leb_spec 3 (len (strip autor)));
    destruct (Z.leb_spec 10 (len (strip isbn)));
    cbn [negb app length]; (split_and!; [split; [try discriminate; lia|try lia; done]|lia|]);
    repeat constructor; vm_compute; reflexivity.
Qed.

Lemma es_error_join (errores : list str) :
  errores <> [] -> Forall (fun e => es_error e = true) errores ->
  es_error (join [NL] errores) = true.
Proof.
  destruct errores as [|e es]; [done|]. intros _ [He _]%Forall_cons.
  destruct es; [exact He|]. now apply startswith_app.
Qed.

Lemma validar_usuario_errores usuario :
  Forall (fun e => es_error e = true) (V.validar_usuario usuario).
Proof.
  unfold V.validar_usuario. cbv zeta. destruct (vacio usuario || _); simpl;
    repeat constructor.
Qed.

Lemma validar_libro_disponible_errores libro :
  Forall (fun e => es_error e = true) (V.validar_libro_disponible libro).
Proof.
  unfold V.validar_libro_disponible. destruct libro as [l|];
    [destruct (negb _)|]; repeat constructor.
Qed.

Lemma validar_prestamo_existente_errores prestamo :
  Forall (fun e => es_error e = true) (V.validar_prestamo_existente prestamo).
Proof.
  unfold V.validar_prestamo_existente. destruct prestamo as [p|];
    [destruct (Prestamo.devuelto p)|]; repeat constructor.
Qed.

(** X4.  [validar_libro] measures each text after trimming: it returns no
    error exactly when the trimmed title has 2 code points or more, the
    trimmed author 3 and the trimmed isbn 10; it never returns more than
    three texts, and each is an error text. *)
Theorem X4_validar_libro (titulo autor isbn : str) :
  (V.validar_libro titulo autor isbn = []
   <-> (2 <= len (strip titulo) /\ 3 <= len (strip autor)
        /\ 10 <= len (strip isbn))%Z)
  /\ length (V.validar_libro titulo autor isbn) <= 3
  /\ Forall (fun e => es_error e = true) (V.validar_libro titulo autor isbn).
Proof. apply validar_libro_tabla. Qed.

(** X5.  [agregar_libro] of ejercicio02.py stores the book, as given and
    untrimmed, under the next id and available, exactly when the three
    trimmed lengths are enough; it touches no loan; and on refusal its
    answer is an error text and nothing changes. *)
Theorem X5_agregar_libro_02 (titulo autor isbn : str) (s : S2.t) :
  let r := S2.repositorio s in
  let res := S2.agregar_libro titulo autor isbn s in
  ((2 <= len (strip titulo) /\ 3 <= len (strip autor)
    /\ 10 <= len (strip isbn))%Z ->
   res.1 = py "Libro '" ++ titulo ++ py "' agregado exitosamente (ID: "
           ++ str_of_int (RB.contador_libro r) ++ py ")"
   /\ RB.libros (S2.repositorio res.2)
      = RB.libros r
        ++ [Libro.Libro (Some (RB.contador_libro r)) titulo autor isbn true]
   /\ RB.contador_libro (S2.repositorio res.2) = (RB.contador_libro r + 1)%Z
   /\ RB.prestamos (S2.repositorio res.2) = RB.prestamos r
   /\ RB.contador_prestamo (S2.repositorio res.2) = RB.contador_prestamo r
   /\ S2.salida res.2 = S2.salida s)
  /\ (~ (2 <= len (strip titulo) /\ 3 <= len (strip autor)
         /\ 10 <= len (strip isbn))%Z ->
      es_error res.1 = true /\ res.2 = s).
Proof.
  cbv zeta. destruct (validar_libro_tabla titulo autor isbn) as (Hv & _ & Herr).
  unfold S2.agregar_libro. split.
  - intros Hok. apply Hv in Hok. rewrite Hok. cbn [bool_decide decide_rel negb].
    done.
  - intros Hno.
    destruct (V.validar_libro titulo autor isbn) as [|e es] eqn:E.
    + exfalso. apply Hno, Hv. reflexivity.
    + rewrite bool_decide_eq_false_2 by discriminate. cbn [negb fst snd].
      split; [|reflexivity]. now apply es_error_join.
Qed.

Lemma X5_agregar_libro_02_witness :
  RB.libros
    (S2.repositorio
       (S2.agregar_libro (py " 1984 ") (py "George Orwell")
          (py "9780451524935") s2_vacio).2)
  = [Libro.Libro (Some 1%Z) (py " 1984 ") (py "George Orwell")
       (py "9780451524935") true].
Proof.
  destruct (X5_agregar_libro_02 (py " 1984 ") (py "George Orwell")
              (py "9780451524935") s2_vacio) as [H _].
  destruct H as (_ & H & _).
  - vm_compute. repeat split; discriminate.
  - exact H.
Defined.

(** *** ejercicio03.py: the service *)

Lemma prueba_longitud_03 t n :
  (0 < n)%Z -> vacio t || (len t <? n)%Z = negb (n <=? len t)%Z.
Proof.
  intros Hn. destruct t as [|c t].
  - simpl. symmetry. apply negb_true_iff, Z.leb_gt. exact Hn.
  - simpl vacio. rewrite orb_false_l. rewrite Z.ltb_antisym. reflexivity.
Qed.

Section Servicio03.

Context {R : Type} `{Fiel R}.

(** X6.  [agregar_libro] of ejercicio03.py measures the texts as given,
    without trimming, and reports only the first check that fails, in the
    order title, author, isbn; when the three pass, the book is stored at
    the end under the next id, available, and nothing else changes. *)
Theorem X6_agregar_libro_03 (titulo autor isbn : str) (s : S.t R) :
  let res := S.agregar_libro titulo autor isbn s in
  ((len titulo < 2)%Z -> res = (py "Error: Título inválido", s))
  /\ ((2 <= len titulo)%Z -> (len autor < 3)%Z ->
      res = (py "Error: Autor inválido", s))
  /\ ((2 <= len titulo)%Z -> (3 <= len autor)%Z -> (len isbn < 10)%Z ->
      res = (py "Error: ISBN inválido", s))
  /\ ((2 <= len titulo)%Z -> (3 <= len autor)%Z -> (10 <= len isbn)%Z ->
      res.1 = py "Libro '" ++ titulo ++ py "' agregado exitosamente (ID: "
              ++ str_of_int (RM.contador_libro (datos s)) ++ py ")"
      /\ datos res.2
         = RM.Repo
             (RM.libros (datos s)
              ++ [Libro.Libro (Some (RM.contador_libro (datos s))) titulo
                    autor isbn true])
             (RM.prestamos (datos s)) (RM.contador_libro (datos s) + 1)
             (RM.contador_prestamo (datos s))
      /\ S.salida res.2 = S.salida s).
Proof.
  cbv zeta. split_and!.
  - intros Ht. unfold S.agregar_libro. rewrite prueba_longitud_03 by lia.
    now rewrite (proj2 (Z.leb_gt 2 (len titulo))).
  - intros Ht Ha. unfold S.agregar_libro. rewrite !prueba_longitud_03 by lia.
    now rewrite (proj2 (Z.leb_le 2 (len titulo))),
      (proj2 (Z.leb_gt 3 (len autor))).
  - intros Ht Ha Hi. unfold S.agregar_libro. rewrite !prueba_longitud_03 by lia.
    now rewrite (proj2 (Z.leb_le 2 (len titulo))),
      (proj2 (Z.leb_le 3 (len autor))), (proj2 (Z.leb_gt 10 (len isbn))).
  - intros Ht Ha Hi.
    pose proof (sim_ejecutar (AgregarLibro titulo autor isbn) s) as [E1 _].
    pose proof (datos_ejecutar (AgregarLibro titulo autor isbn) s) as E2.
    pose proof (salida_ejecutar (AgregarLibro titulo autor isbn) s) as E3.
    simpl in E1, E2, E3. rewrite E1, E2, E3. clear E1 E2 E3.
    rewrite agregar_libro_M. rewrite !prueba_longitud_03 by lia.
    rewrite (proj2 (Z.leb_le 2 (len titulo))),
      (proj2 (Z.leb_le 3 (len autor))), (proj2 (Z.leb_le 10 (len isbn)))
      by done.
    done.
Qed.

(** X7.  When a method of the service of ejercicio03.py answers with an
    error text, it gives back the very state it received, whatever the
    repository behind the interface. *)
Theorem X7_error_sin_cambio_03 (c : Llamada) (s : S.t R) :
  es_error (Ej03S.ejecutar c s).1 = true -> (Ej03S.ejecutar c s).2 = s.
Proof.
  destruct c as [t a n|k u hoy|k]; simpl.
  - unfold S.agregar_libro.
    repeat (match goal with |- context [if ?c then _ else _] => destruct c end;
            [done|]).
    destruct (IR.agregar_libro _ _ _) as [[? ?] ?]. done.
  - unfold S.realizar_prestamo.
    destruct (vacio u || _); [done|].
    destruct (IR.obtener_libro_por_id _ _) as [b|]; [|done].
    destruct (negb _); [done|].
    destruct (IR.agregar_prestamo _ _ _) as [[? ?] ?].
    destruct (IR.actualizar_libro _ _ _) as [? ?]. done.
  - unfold S.devolver_libro.
    destruct (IR.obtener_prestamo_por_id _ _) as [p|]; [|done].
    destruct (Prestamo.devuelto p); [done|].
    destruct (IR.obtener_libro_por_id _ _) as [b|].
    + destruct (IR.actualizar_libro _ _ _) as [? ?].
      destruct (IR.actualizar_prestamo _ _ _) as [? ?]. done.
    + destruct (IR.actualizar_prestamo _ _ _) as [? ?]. done.
Qed.

(** X8.  A book that was just lent cannot be lent again: after a loan that
    went through, a second [realizar_prestamo] for the same book and any
    valid user answers "Error: Libro no disponible" and gives the state back
    unchanged. *)
Theorem X8_prestamo_doble (libro_id : Z) (usuario hoy usuario2 hoy2 : str)
    (s : S.t R) :
  es_error (S.realizar_prestamo libro_id usuario hoy s).1 = false ->
  (3 <= len usuario2)%Z ->
  S.realizar_prestamo libro_id usuario2 hoy2
    (S.realizar_prestamo libro_id usuario hoy s).2
  = (py "Error: Libro no disponible",
     (S.realizar_prestamo libro_id usuario hoy s).2).
Proof.
  intros Hok Hu.
  pose proof (sim_ejecutar (RealizarPrestamo libro_id usuario hoy) s) as [E1 _].
  pose proof (datos_ejecutar (RealizarPrestamo libro_id usuario hoy) s) as E2.
  simpl in E1, E2. rewrite E1 in Hok. clear E1.
  set (s1 := (S.realizar_prestamo libro_id usuario hoy s).2) in *.
  unfold S.realizar_prestamo at 1.
  rewrite prueba_longitud_03 by lia.
  rewrite (proj2 (Z.leb_le 3 (len usuario2))) by done. cbn [negb].
  rewrite fiel_obtener_libro_por_id. fold (datos s1). rewrite E2. clear E2.
  rewrite realizar_prestamo_M in Hok |- *. cbv zeta in *.
  cbn [proyectar S.repositorio] in *.
  destruct (vacio usuario || _); [done|].
  destruct (list_find _ _) as [[j b]|] eqn:Hf; [|done].
  destruct (negb (Libro.disponible b)); [done|].
  destruct (buscar_Some Libro.id _ _ _ _ Hf) as [Hj Hid].
  unfold RM.obtener_libro_por_id. cbn [snd S.repositorio RM.libros].
  rewrite (buscar_tras_insert Libro.id _ (Some libro_id) j b
             (Libro.set_disponible false b) Hf Hid).
  reflexivity.
Qed.

(** X9.  Lending a book and returning that loan puts the book list back as
    it was: when no stored loan carries the id the counter is about to
    give, a loan that goes through followed by [devolver_libro] of the new
    loan's id succeeds, the books are again those before the loan, and the
    loans are the old ones followed by the new one, returned. *)
Theorem X9_prestar_y_devolver (libro_id : Z) (usuario hoy : str) (s : S.t R) :
  (forall p, In p (RM.prestamos (datos s)) ->
     Prestamo.id p <> Some (RM.contador_prestamo (datos s))) ->
  es_error (S.realizar_prestamo libro_id usuario hoy s).1 = false ->
  let s1 := (S.realizar_prestamo libro_id usuario hoy s).2 in
  let res := S.devolver_libro (RM.contador_prestamo (datos s)) s1 in
  res.1 = py "Libro devuelto exitosamente"
  /\ RM.libros (datos res.2) = RM.libros (datos s)
  /\ RM.prestamos (datos res.2)
     = RM.prestamos (datos s)
       ++ [Prestamo.Prestamo_ (Some (RM.contador_prestamo (datos s)))
             libro_id usuario hoy true].
Proof.
  intros Hfresh Hok. cbv zeta.
  pose proof (sim_ejecutar (RealizarPrestamo libro_id usuario hoy) s) as [E1 E1'].
  simpl in E1, E1'. rewrite E1 in Hok. clear E1.
  set (s1 := (S.realizar_prestamo libro_id usuario hoy s).2) in *.
  pose proof (sim_ejecutar (DevolverLibro (RM.contador_prestamo (datos s))) s1)
    as [F1 _].
  pose proof (datos_ejecutar (DevolverLibro (RM.contador_prestamo (datos s))) s1)
    as F2.
  simpl in F1, F2. rewrite F1, F2, E1'. clear F1 F2 E1'.
  rewrite realizar_prestamo_M in Hok |- *. cbv zeta in *.
  cbn [proyectar S.repositorio] in *.
  destruct (vacio usuario || _); [done|].
  destruct (list_find _ _) as [[j b]|] eqn:Hf; [|done].
  destruct (Libro.disponible b) eqn:Hd; [|done]. cbn [negb snd].
  destruct (buscar_Some Libro.id _ _ _ _ Hf) as [Hj Hid].
  rewrite devolver_libro_M. cbv zeta. cbn [S.repositorio RM.prestamos RM.libros].
  assert (list_find
            (fun p => Prestamo.id p = Some (RM.contador_prestamo (datos s)))
            (RM.prestamos (datos s)
             ++ [Prestamo.Prestamo_ (Some (RM.contador_prestamo (datos s)))
                   libro_id usuario hoy false])
          = Some (length (RM.prestamos (datos s)),
                  Prestamo.Prestamo_ (Some (RM.contador_prestamo (datos s)))
                    libro_id usuario hoy false)) as ->.
  { apply list_find_app_Some. right. split_and!.
    - lia.
    - apply list_find_None, Forall_forall. intros p Hp.
      apply Hfresh. now apply list_elem_of_In.
    - rewrite Nat.sub_diag. simpl. now rewrite decide_True. }
  cbn [Prestamo.devuelto Prestamo.libro_id].
  rewrite (buscar_tras_insert Libro.id _ (Some libro_id) j b
             (Libro.set_disponible false b) Hf Hid).
  cbn [fst snd S.repositorio RM.libros RM.prestamos]. split_and!.
  - reflexivity.
  - rewrite list_insert_insert_eq. apply list_insert_id.
    rewrite Hj. f_equal. destruct b; simpl in *. now subst.
  - rewrite insert_app_r_alt by lia. rewrite Nat.sub_diag. reflexivity.
Qed.

End Servicio03.

Lemma X6_agregar_libro_03_witness :
  S.agregar_libro (py "1984") (py "Al") (py "123") s_vacio
  = (py "Error: Autor inválido", s_vacio).
Proof.
  destruct (X6_agregar_libro_03 (py "1984") (py "Al") (py "123") s_vacio)
    as (_ & H & _).
  apply H; vm_compute; [discriminate|reflexivity].
Defined.

Lemma X7_error_sin_cambio_03_witness :
  (Ej03S.ejecutar (DevolverLibro 7) s_prestado).2 = s_prestado.
Proof.
  apply (X7_error_sin_cambio_03 (DevolverLibro 7) s_prestado).
  vm_compute. reflexivity.
Defined.

Lemma X8_prestamo_doble_witness :
  S.realizar_prestamo 1 (py "Ana María") (py "2024-01-02")
    (S.realizar_prestamo 1 (py "Juan Pérez") (py "2024-01-01") s_un_libro).2
  = (py "Error: Libro no disponible",
     (S.realizar_prestamo 1 (py "Juan Pérez") (py "2024-01-01") s_un_libro).2).
Proof.
  apply (X8_prestamo_doble 1%Z (py "Juan Pérez") (py "2024-01-01")
           (py "Ana María") (py "2024-01-02") s_un_libro).
  - vm_compute. reflexivity.
  - vm_compute. discriminate.
Defined.

Lemma X9_prestar_y_devolver_witness :
  RM.libros
    (datos
       (S.devolver_libro 1
          (S.realizar_prestamo 1 (py "Juan Pérez") (py "2024-01-01")
             s_un_libro).2).2)
  = [cien].
Proof.
  destruct (X9_prestar_y_devolver 1%Z (py "Juan Pérez") (py "2024-01-01")
              s_un_libro) as (_ & H & _).
  - intros p Hp. vm_compute in Hp. destruct Hp.
  - vm_compute. reflexivity.
  - exact H.
Defined.

(** *** ejercicio03.py: the repositories *)

Lemma ids_consecutivos_S n :
  ids_consecutivos (S n) = ids_consecutivos n ++ [Some (Z.of_nat n + 1)%Z].
Proof.
  unfold ids_consecutivos. rewrite seq_S, map_app. simpl.
  do 3 f_equal. lia.
Qed.

Lemma numerado_nuevo : numerado RM.nuevo.
Proof. split; reflexivity. Qed.

Lemma numerado_ejecutar c (s : S.t RM.t) :
  numerado (S.repositorio s) -> numerado (S.repositorio (Ej03S.ejecutar c s).2).
Proof.
  intros N. destruct c as [t a n|k u hoy|k]; simpl.
  - rewrite agregar_libro_M.
    repeat (match goal with |- context [if ?c then _ else _] => destruct c end;
            [exact N|]).
    destruct N as [N1 N2 N3 N4]. cbv zeta.
    split; cbn [snd S.repositorio RM.libros RM.prestamos RM.contador_libro
                RM.contador_prestamo]; try done.
    + rewrite map_app, length_app, N1, Nat.add_1_r, ids_consecutivos_S.
      simpl. now rewrite N2.
    + rewrite length_app. simpl. lia.
  - rewrite realizar_prestamo_M.
    destruct (vacio u || _); [exact N|]. cbv zeta.
    destruct (list_find _ _) as [[j b]|] eqn:Hf; [|exact N].
    destruct (negb _); [exact N|].
    destruct (buscar_Some Libro.id _ _ _ _ Hf) as [Hj Hid].
    destruct N as [N1 N2 N3 N4].
    split; cbn [snd S.repositorio RM.libros RM.prestamos RM.contador_libro
                RM.contador_prestamo].
    + now rewrite (map_clave_insert Libro.id _ _ _ _ Hj), length_insert.
    + now rewrite length_insert.
    + rewrite map_app, length_app, N3, Nat.add_1_r, ids_consecutivos_S.
      simpl. now rewrite N4.
    + rewrite length_app. simpl. lia.
  - rewrite devolver_libro_M. cbv zeta.
    destruct (list_find _ (RM.prestamos _)) as [[i p]|] eqn:Hp; [|exact N].
    destruct (Prestamo.devuelto p); [exact N|].
    destruct (buscar_Some Prestamo.id _ _ _ _ Hp) as [Hi Hid].
    destruct N as [N1 N2 N3 N4].
    destruct (list_find _ (RM.libros _)) as [[j b]|] eqn:Hl;
      split; cbn [snd S.repositorio RM.libros RM.prestamos RM.contador_libro
                  RM.contador_prestamo];
      rewrite ?length_insert; try done.
    + destruct (buscar_Some Libro.id _ _ _ _ Hl) as [Hj Hidb].
      now rewrite (map_clave_insert Libro.id _ _ _ _ Hj).
    + now rewrite (map_clave_insert Prestamo.id _ _ _ _ Hi).
    + now rewrite (map_clave_insert Prestamo.id _ _ _ _ Hi).
Qed.

Section Repositorios.

Context {R : Type} `{Fiel R}.

Lemma alcanzable_numerado (s : S.t R) : alcanzable s -> numerado (datos s).
Proof.
  induction 1 as [s Hs|c s _ IH].
  - rewrite Hs. apply numerado_nuevo.
  - rewrite datos_ejecutar. now apply numerado_ejecutar.
Qed.

(** X10.  In every state reached from an empty repository the ids are the
    numbers given in order from 1: the n books carry 1 to n, the m loans 1
    to m, in the order of the lists, and each counter stands one above the
    length of its list, so no id is ever given twice. *)
Theorem X10_ids_consecutivos (s : S.t R) :
  alcanzable s ->
  map Libro.id (RM.libros (datos s))
  = ids_consecutivos (length (RM.libros (datos s)))
  /\ RM.contador_libro (datos s) = (Z.of_nat (length (RM.libros (datos s))) + 1)%Z
  /\ map Prestamo.id (RM.prestamos (datos s))
     = ids_consecutivos (length (RM.prestamos (datos s)))
  /\ RM.contador_prestamo (datos s)
     = (Z.of_nat (length (RM.prestamos (datos s))) + 1)%Z.
Proof.
  intros Hs. destruct (alcanzable_numerado s Hs). done.
Qed.

(** X12.  Update and look up.  [actualizar_libro] with a book whose id no
    stored book carries changes none of the four attributes.  With a book
    whose id some stored book carries, the lists keep their lengths, that id
    now finds the book handed in, and every other id finds what it found
    before. *)
Theorem X12_actualizar_y_obtener (r : R) (d : Disco) (libro : Libro.t) (k : Z) :
  Libro.id libro = Some k ->
  (IR.obtener_libro_por_id k r = None ->
   memoria (IR.actualizar_libro libro r d).1 = memoria r)
  /\ (IR.obtener_libro_por_id k r <> None ->
      IR.obtener_libro_por_id k (IR.actualizar_libro libro r d).1 = Some libro
      /\ length (RM.libros (memoria (IR.actualizar_libro libro r d).1))
         = length (RM.libros (memoria r))
      /\ RM.prestamos (memoria (IR.actualizar_libro libro r d).1)
         = RM.prestamos (memoria r)
      /\ forall k', k' <> k ->
           IR.obtener_libro_por_id k' (IR.actualizar_libro libro r d).1
           = IR.obtener_libro_por_id k' r).
Proof.
  intros Hid. rewrite !fiel_obtener_libro_por_id, fiel_actualizar_libro.
  unfold RM.obtener_libro_por_id.
  destruct (list_find _ (RM.libros (memoria r))) as [[j b]|] eqn:Hf; split;
    try done.
  - intros _.
    rewrite (actualizar_libro_encontrado _ _ _ _ _ Hf Hid).
    destruct (buscar_Some Libro.id _ _ _ _ Hf) as [Hj Hb].
    split_and!.
    + rewrite ?fiel_obtener_libro_por_id, ?fiel_actualizar_libro.
      rewrite ?(actualizar_libro_encontrado _ _ _ _ _ Hf Hid).
      unfold RM.obtener_libro_por_id. cbn [RM.libros].
      now rewrite (buscar_tras_insert Libro.id _ (Some k) j b libro Hf Hid).
    + cbn [RM.libros]. apply length_insert.
    + reflexivity.
    + intros k' Hk'.
      rewrite ?fiel_obtener_libro_por_id, ?fiel_actualizar_libro.
      rewrite ?(actualizar_libro_encontrado _ _ _ _ _ Hf Hid).
      unfold RM.obtener_libro_por_id. cbn [RM.libros].
      rewrite (buscar_insert_otra Libro.id _ (Some k') j b libro Hj);
        [done|congruence..].
  - intros _. unfold RM.actualizar_libro.
    rewrite (list_find_ext _ (fun l => Libro.id l = Some k))
      by (intros x; now rewrite Hid).
    now rewrite Hf.
Qed.

End Repositorios.

Lemma X10_ids_consecutivos_witness :
  map Libro.id (RM.libros (datos s_prestado)) = [Some 1%Z]
  /\ RM.contador_libro (datos s_prestado) = 2%Z.
Proof.
  destruct (X10_ids_consecutivos s_prestado) as (H1 & H2 & _).
  - apply alcanzable_todas. apply alcanzable_vacio. reflexivity.
  - split.
    + rewrite H1. vm_compute. reflexivity.
    + rewrite H2. vm_compute. reflexivity.
Defined.

Lemma X12_actualizar_y_obtener_witness :
  IR.obtener_libro_por_id 1
    (IR.actualizar_libro rayuela (S.repositorio s_un_libro) ∅).1
  = Some rayuela.
Proof.
  destruct (X12_actualizar_y_obtener (S.repositorio s_un_libro) ∅ rayuela 1%Z)
    as [_ H].
  - reflexivity.
  - destruct H as (H & _); [vm_compute; discriminate|exact H].
Defined.

(** *** ejercicio03.py: the lists by reference *)

Lemma list_find_ext_en {B : Type} (P Q : B -> Prop)
    `{forall x, Decision (P x)} `{forall x, Decision (Q x)} (l : list B) :
  (forall x, In x l -> P x <-> Q x) -> list_find P l = list_find Q l.
Proof.
  induction l as [|a l IH]; intros Hl; [done|]. simpl.
  rewrite IH by (intros x Hx; apply Hl; now right).
  destruct (Hl a (or_introl eq_refl)) as [H1 H2].
  destruct (decide (P a)), (decide (Q a)); tauto || done.
Qed.

Lemma list_find_sin_ultimo {B : Type} (P : B -> Prop)
    `{forall x, Decision (P x)} (l : list B) (x : B) :
  ~ P x -> list_find P (l ++ [x]) = list_find P l.
Proof.
  intros Hx. destruct (list_find P l) as [[i y]|] eqn:Hf.
  - now erewrite list_find_app_l.
  - rewrite list_find_app_r by done. simpl. now rewrite decide_False.
Qed.

Lemma omap_ext_en {B C : Type} (f g : B -> option C) (l : list B) :
  (forall x, In x l -> f x = g x) -> omap f l = omap g l.
Proof.
  induction l as [|a l IH]; intros Hl; [done|]. csimpl.
  rewrite (Hl a (or_introl eq_refl)), IH; [done|].
  intros x Hx. apply Hl. now right.
Qed.

Section Referencias.

Context {A : Type} (id : A -> option Z) (poner : option Z -> A -> A).
Hypothesis id_poner : forall v x, id (poner v x) = v.

Variables (objetos : gmap nat A) (l : list nat) (o : nat) (x : A) (c : Z).
Hypothesis vivo : objetos !! o = Some x.
Hypothesis libre : forall a y, In a l -> objetos !! a = Some y -> id y <> Some c.

Let objetos' := alter (poner (Some c)) o objetos.

Lemma ref_escrito : objetos' !! o = Some (poner (Some c) x).
Proof. unfold objetos'. now rewrite lookup_alter_eq, vivo. Qed.

Lemma ref_otros a : a <> o -> objetos' !! a = objetos !! a.
Proof. intros Ha. unfold objetos'. now rewrite lookup_alter_ne. Qed.

Lemma ref_nuevo_id :
  snd <$> list_find (fun a => objetos' !! a ≫= id = Some c) (l ++ [o]) = Some o.
Proof.
  destruct (list_find_elem_of (fun a => objetos' !! a ≫= id = Some c) (l ++ [o]) o)
    as [[i a] Hf].
  - apply elem_of_app. right. now apply list_elem_of_singleton.
  - rewrite ref_escrito. simpl. now rewrite id_poner.
  - rewrite Hf. simpl. f_equal.
    apply list_find_Some in Hf as (Hi & Ha & _).
    destruct (decide (a = o)) as [|Hne]; [done|]. exfalso.
    rewrite ref_otros in Ha by done.
    apply list_elem_of_lookup_2, elem_of_app in Hi as [Hi|Hi].
    + destruct (objetos !! a) as [y|] eqn:Hy; [|done]. simpl in Ha.
      apply (libre a y); [now apply list_elem_of_In|done..].
    + apply list_elem_of_singleton in Hi. done.
Qed.

Lemma ref_otro_id k :
  ~ In o l -> k <> c ->
  list_find (fun a => objetos' !! a ≫= id = Some k) (l ++ [o])
  = list_find (fun a => objetos !! a ≫= id = Some k) l.
Proof.
  intros Ho Hk. rewrite list_find_sin_ultimo.
  - apply list_find_ext_en. intros a Ha.
    rewrite ref_otros; [done|]. intros ->. done.
  - rewrite ref_escrito. simpl. rewrite id_poner. congruence.
Qed.

Lemma ref_valores :
  ~ In o l ->
  omap (fun a => objetos' !! a) (l ++ [o])
  = omap (fun a => objetos !! a) l ++ [poner (Some c) x].
Proof.
  intros Ho. rewrite omap_app. simpl. rewrite ref_escrito. f_equal.
  apply omap_ext_en. intros a Ha. apply ref_otros. intros ->. done.
Qed.

Lemma ref_guardado k :
  In o l -> id x = Some k ->
  (forall a y, In a l -> a <> o -> objetos !! a = Some y -> id y <> Some k) ->
  snd <$> list_find (fun a => objetos !! a ≫= id = Some k) l = Some o
  /\ snd <$> list_find (fun a => objetos' !! a ≫= id = Some k) (l ++ [o]) = None.
Proof.
  intros Ho Hk Hunico. split.
  - destruct (list_find_elem_of (fun a => objetos !! a ≫= id = Some k) l o)
      as [[i a] Hf].
    + now apply list_elem_of_In.
    + now rewrite vivo.
    + rewrite Hf. simpl. f_equal.
      apply list_find_Some in Hf as (Hi & Ha & _).
      destruct (decide (a = o)) as [|Hne]; [done|]. exfalso.
      destruct (objetos !! a) as [y|] eqn:Hy; [|done]. simpl in Ha.
      apply (Hunico a y); [|done..].
      apply list_elem_of_In. eapply list_elem_of_lookup_2, Hi.
  - assert (list_find (fun a => objetos' !! a ≫= id = Some k) (l ++ [o]) = None)
      as ->; [|done].
    apply list_find_None, Forall_forall. intros a Ha.
    destruct (decide (a = o)) as [->|Hne].
    + rewrite ref_escrito. simpl. rewrite id_poner. intros [= <-].
      now apply (libre o x).
    + rewrite ref_otros by done.
      apply elem_of_app in Ha as [Ha|Ha].
      * destruct (objetos !! a) as [y|] eqn:Hy; [|done]. simpl.
        apply (Hunico a y); [now apply list_elem_of_In|done..].
      * apply list_elem_of_singleton in Ha. done.
Qed.

End Referencias.

(** X11.  Insert and look up, on the lists as Python holds them.  When no
    object of the list carries the id the counter is about to give,
    [agregar_libro] writes that id on the object it is handed and the id
    then finds that object.  If the object was in no list before, no stored
    record changes, every other id finds what it found before, and the
    records are those of [Ej03.RepositorioMemoria.agregar_libro].  If the
    object was already stored, alone under its id, the call renumbers the
    stored record and its old id finds nothing any more.  The same holds
    for loans. *)
Theorem X11_agregar_y_obtener :
  (forall prestamo_objetos : gmap nat Prestamo.t,
     alta_conforme Libro.id PR.libros PR.contador_libro PR.agregar_libro
       PR.obtener_libro_por_id
       (fun r libro_objetos => PR.valores r libro_objetos prestamo_objetos)
       RM.agregar_libro)
  /\ (forall libro_objetos : gmap nat Libro.t,
       alta_conforme Prestamo.id PR.prestamos PR.contador_prestamo
         PR.agregar_prestamo PR.obtener_prestamo_por_id
         (fun r prestamo_objetos => PR.valores r libro_objetos prestamo_objetos)
         RM.agregar_prestamo).
Proof.
  split.
  - intros po r objetos o x Hv Hl. cbv zeta.
    unfold PR.agregar_libro, PR.obtener_libro_por_id, PR.valores,
      RM.agregar_libro.
    cbn [fst snd PR.libros PR.prestamos PR.contador_libro PR.contador_prestamo
         RM.contador_libro RM.libros RM.prestamos RM.contador_prestamo].
    split_and!.
    + done.
    + now eapply ref_escrito.
    + eapply (ref_nuevo_id Libro.id Libro.set_id); [done|exact Hv|exact Hl].
    + intros Ho. split_and!.
      * intros a Ha. apply lookup_alter_ne. intros ->. done.
      * intros k Hk.
        now erewrite (ref_otro_id Libro.id Libro.set_id); [|done|exact Hv|..].
      * now erewrite (ref_valores Libro.set_id); [|exact Hv|].
    + intros Ho k Hk Hu.
      eapply (ref_guardado Libro.id Libro.set_id); [done|exact Hv|exact Hl|done..].
  - intros lo r objetos o x Hv Hl. cbv zeta.
    unfold PR.agregar_prestamo, PR.obtener_prestamo_por_id, PR.valores,
      RM.agregar_prestamo.
    cbn [fst snd PR.libros PR.prestamos PR.contador_libro PR.contador_prestamo
         RM.contador_libro RM.libros RM.prestamos RM.contador_prestamo].
    split_and!.
    + done.
    + now eapply ref_escrito.
    + eapply (ref_nuevo_id Prestamo.id Prestamo.set_id); [done|exact Hv|exact Hl].
    + intros Ho. split_and!.
      * intros a Ha. apply lookup_alter_ne. intros ->. done.
      * intros k Hk.
        now erewrite (ref_otro_id Prestamo.id Prestamo.set_id); [|done|exact Hv|..].
      * now erewrite (ref_valores Prestamo.set_id); [|exact Hv|].
    + intros Ho k Hk Hu.
      eapply (ref_guardado Prestamo.id Prestamo.set_id); [done|exact Hv|exact Hl|done..].
Qed.

Lemma X11_agregar_y_obtener_witness :
  PR.obtener_libro_por_id 2
    (PR.agregar_libro 1 pr_un_libro objetos_libro).1.2
    (PR.agregar_libro 1 pr_un_libro objetos_libro).2
  = Some 1%nat
  /\ PR.obtener_libro_por_id 1 pr_un_libro objetos_libro = Some 0%nat
  /\ PR.obtener_libro_por_id 1
       (PR.agregar_libro 0 pr_un_libro objetos_libro).1.2
       (PR.agregar_libro 0 pr_un_libro objetos_libro).2
     = None.
Proof.
  destruct X11_agregar_y_obtener as [Hl _].
  assert (forall a y, In a (PR.libros pr_un_libro) ->
            objetos_libro !! a = Some y ->
            Libro.id y <> Some (PR.contador_libro pr_un_libro)) as Hlibre.
  { intros a y [<-|[]] Hy. vm_compute in Hy. injection Hy as <-.
    vm_compute. discriminate. }
  split.
  - destruct (Hl ∅ pr_un_libro objetos_libro 1%nat
                (Libro.Libro None (py "Rayuela") (py "Julio Cortázar")
                   (py "9788437604572") true))
      as (_ & _ & H & _); [vm_compute; reflexivity|exact Hlibre|exact H].
  - destruct (Hl ∅ pr_un_libro objetos_libro 0%nat cien)
      as (_ & _ & _ & _ & H); [vm_compute; reflexivity|exact Hlibre|].
    apply (H (or_introl eq_refl) 1%Z); [reflexivity|].
    intros a y [<-|[]] Hne. done.
Defined.

(** *** ejercicio03.py: the file *)

Lemma max_id_app a b : max_id (a ++ b) = Z.max (max_id a) (max_id b).
Proof.
  induction a as [|[k|] a IH]; simpl.
  - pose proof (max_id_nonneg b). lia.
  - rewrite IH. lia.
  - exact IH.
Qed.

Lemma max_id_consecutivos n : max_id (ids_consecutivos n) = Z.of_nat n.
Proof.
  induction n as [|n IH]; [reflexivity|].
  rewrite ids_consecutivos_S, max_id_app, IH. simpl. lia.
Qed.

Lemma ids_consecutivos_Some n i :
  In i (ids_consecutivos n) -> exists k, i = Some k.
Proof.
  unfold ids_consecutivos. intros (x & <- & _)%in_map_iff. eauto.
Qed.

Lemma libros_guardables (ls : list Libro.t) n :
  map Libro.id ls = ids_consecutivos n ->
  forallb libro_campos ls = true -> forallb libro_guardable ls = true.
Proof.
  intros Hids Hc. rewrite forallb_forall in *. intros l Hl.
  specialize (Hc l Hl). unfold libro_guardable, libro_campos in *.
  destruct (ids_consecutivos_Some n (Libro.id l)) as [k ->].
  { rewrite <- Hids. now apply in_map. }
  now rewrite <- !andb_assoc in *.
Qed.

Lemma prestamos_guardables (ps : list Prestamo.t) n :
  map Prestamo.id ps = ids_consecutivos n ->
  forallb prestamo_campos ps = true -> forallb prestamo_guardable ps = true.
Proof.
  intros Hids Hc. rewrite forallb_forall in *. intros p Hp.
  specialize (Hc p Hp). unfold prestamo_guardable, prestamo_campos in *.
  destruct (ids_consecutivos_Some n (Prestamo.id p)) as [k ->].
  { rewrite <- Hids. now apply in_map. }
  now rewrite <- !andb_assoc in *.
Qed.

Lemma nuevo_sin_archivo archivo d :
  d !! archivo = None -> RA.nuevo archivo d = (RA.Repo archivo [] [] 1 1, []).
Proof.
  intros Hd. unfold RA.nuevo, RA._cargar_desde_archivo. cbn [RA.archivo].
  now rewrite Hd.
Qed.

Lemma al_dia_guardar archivo (r : RA.t) d sal :
  RA.archivo r = archivo ->
  ArchivoS2.al_dia archivo (S.Sistema r (RA._guardar_en_archivo r d) sal).
Proof.
  intros Ha. split; [exact Ha|]. left. simpl.
  unfold RA._guardar_en_archivo. rewrite Ha. apply lookup_insert_eq.
Qed.

Lemma al_dia_ejecutar archivo c (s : S.t RA.t) :
  ArchivoS2.al_dia archivo s -> ArchivoS2.al_dia archivo (Ej03S.ejecutar c s).2.
Proof.
  intros A. pose proof A as [Ha _].
  destruct c as [t a n|k u hoy|k]; simpl.
  - unfold S.agregar_libro.
    repeat (match goal with |- context [if ?c then _ else _] => destruct c end;
            [exact A|]).
    apply al_dia_guardar. exact Ha.
  - unfold S.realizar_prestamo.
    destruct (vacio u || _); [exact A|].
    destruct (IR.obtener_libro_por_id _ _) as [b|]; [|exact A].
    destruct (negb _); [exact A|].
    cbn [IR.agregar_prestamo IR.actualizar_libro
         RepositorioArchivo_IRepositorioBiblioteca].
    unfold RA.agregar_prestamo, RA.actualizar_libro. cbv zeta.
    cbn [RA.libros RA.archivo].
    destruct (list_find _ _) as [[j x]|]; apply al_dia_guardar; exact Ha.
  - unfold S.devolver_libro.
    destruct (IR.obtener_prestamo_por_id _ _) as [p|]; [|exact A].
    destruct (Prestamo.devuelto p); [exact A|].
    cbn [IR.obtener_libro_por_id IR.actualizar_prestamo IR.actualizar_libro
         RepositorioArchivo_IRepositorioBiblioteca].
    destruct (RA.obtener_libro_por_id _ _) as [b|].
    + unfold RA.actualizar_libro, RA.actualizar_prestamo. cbv zeta.
      destruct (list_find _ (RA.libros _)) as [[j x]|];
        cbn [RA.prestamos RA.archivo];
        destruct (list_find _ (RA.prestamos _)) as [[i y]|];
        apply al_dia_guardar; exact Ha.
    + unfold RA.actualizar_prestamo. cbv zeta.
      destruct (list_find _ (RA.prestamos _)) as [[i y]|];
        apply al_dia_guardar; exact Ha.
Qed.

Lemma alcanzable_archivo archivo (s : S.t RA.t) :
  ArchivoS2.alcanzable archivo s -> alcanzable s /\ ArchivoS2.al_dia archivo s.
Proof.
  induction 1 as [d Hd|c s _ [IH1 IH2]].
  - rewrite (nuevo_sin_archivo _ _ Hd). split.
    + apply alcanzable_vacio. reflexivity.
    + split; [reflexivity|]. right. split; [exact Hd|reflexivity].
  - split; [now constructor|now apply al_dia_ejecutar].
Qed.

Lemma alcanzable_archivo_todas archivo cs (s : S.t RA.t) :
  ArchivoS2.alcanzable archivo s ->
  ArchivoS2.alcanzable archivo (Ej03S.ejecutar_todas cs s).
Proof.
  revert s. induction cs as [|c cs IH]; intros s Hs; [done|].
  simpl. apply IH. now constructor.
Qed.

(** X13.  Nothing is lost on restart.  Start a service over a file
    repository whose file does not exist, make any calls: as long as the
    stored texts hold no bar and no line break, a new [RepositorioArchivo]
    over the same file is equal to the repository the service holds, lists
    and counters, and it loads without a warning. *)
Theorem X13_reinicio (archivo : str) (s : S.t RA.t) :
  ArchivoS2.alcanzable archivo s ->
  forallb libro_campos (RA.libros (S.repositorio s)) = true ->
  forallb prestamo_campos (RA.prestamos (S.repositorio s)) = true ->
  RA.nuevo archivo (S.disco s) = (S.repositorio s, []).
Proof.
  intros Hs Hl Hp. destruct (alcanzable_archivo archivo s Hs) as [Halc A].
  destruct (alcanzable_numerado s Halc) as [N1 N2 N3 N4].
  destruct A as [Ha [Hd|[Hd Hr]]].
  - unfold datos, memoria, Vista_RepositorioArchivo in *.
    cbn [RM.libros RM.prestamos RM.contador_libro RM.contador_prestamo] in *.
    rewrite <- Ha in Hd |- *.
    rewrite (cargar_contenido _ _ Hd)
      by eauto using libros_guardables, prestamos_guardables.
    rewrite N1, N3, !max_id_consecutivos, <- N2, <- N4.
    now destruct (S.repositorio s).
  - rewrite Hr. now apply nuevo_sin_archivo.
Qed.

Lemma split_no_vacio sep s : split sep s <> [].
Proof.
  destruct s as [|c s]; simpl; [done|].
  destruct (c =? sep)%N; [done|]. now destruct (split sep s).
Qed.

Lemma cargar_linea_ajena linea c :
  ajena linea = true -> RA.cargar_linea linea c = Ok c.
Proof.
  unfold ajena, RA.cargar_linea. cbv zeta.
  pose proof (split_no_vacio PIPE (strip linea)) as Hne.
  destruct (split PIPE (strip linea)) as [|tag resto]; [done|].
  cbn [hd]. intros [Hn|[H1 H2]%andb_true_iff]%orb_true_iff.
  - apply negb_true_iff in Hn. now rewrite Hn, !andb_false_r.
  - apply negb_true_iff in H1, H2. now rewrite H1, H2.
Qed.

Lemma cargar_lineas_ajenas lineas c :
  forallb ajena lineas = true -> RA.cargar_lineas lineas c = (c, None).
Proof.
  induction lineas as [|l ls IH]; [done|]. simpl.
  intros [Hl Hls]%andb_true_iff. now rewrite (cargar_linea_ajena _ _ Hl), IH.
Qed.

(** X14.  The loader starts empty, without a warning, when the file does
    not exist and also when every line of the file is foreign: a line that
    has not exactly six fields between bars, or whose first field is
    neither LIBRO nor PRESTAMO. *)
Theorem X14_carga_vacia (archivo : str) (d : Disco) :
  (d !! archivo = None
   \/ exists texto, d !! archivo = Some texto
                    /\ forallb ajena (readlines texto) = true) ->
  RA.nuevo archivo d = (RA.Repo archivo [] [] 1 1, []).
Proof.
  intros [Hd|(texto & Hd & Hl)].
  - now apply nuevo_sin_archivo.
  - unfold RA.nuevo, RA._cargar_desde_archivo. cbn [RA.archivo]. rewrite Hd.
    now rewrite (cargar_lineas_ajenas _ _ Hl).
Qed.

Lemma X13_reinicio_witness :
  RA.nuevo (py "biblioteca_dip.txt")
    (S.disco
       (Ej03S.ejecutar_todas llamadas_prestamo
          (S.Sistema (RA.nuevo (py "biblioteca_dip.txt") ∅).1 ∅
             (RA.nuevo (py "biblioteca_dip.txt") ∅).2)))
  = (r_archivo, []).
Proof.
  etransitivity.
  - apply (X13_reinicio (py "biblioteca_dip.txt")
             (Ej03S.ejecutar_todas llamadas_prestamo
                (S.Sistema (RA.nuevo (py "biblioteca_dip.txt") ∅).1 ∅
                   (RA.nuevo (py "biblioteca_dip.txt") ∅).2))).
    + apply alcanzable_archivo_todas.
      apply ArchivoS2.alcanzable_nuevo. reflexivity.
    + vm_compute. reflexivity.
    + vm_compute. reflexivity.
  - vm_compute. reflexivity.
Defined.

Lemma X14_carga_vacia_witness :
  RA.nuevo (py "notas.txt")
    (<[py "notas.txt" := py "LIBRO|1|Rayuela" ++ [NL] ++ py "hola"]> ∅)
  = (RA.Repo (py "notas.txt") [] [] 1 1, []).
Proof.
  apply (X14_carga_vacia (py "notas.txt")
           (<[py "notas.txt" := py "LIBRO|1|Rayuela" ++ [NL] ++ py "hola"]> ∅)).
  right. eexists. split; [apply lookup_insert_eq|]. vm_compute. reflexivity.
Defined.

(** *** The books out and the loans out *)

Lemma referidos_ejecutar c (s : S.t RM.t) :
  referidos (S.repositorio s) -> referidos (S.repositorio (Ej03S.ejecutar c s).2).
Proof.
  intros Rf. destruct c as [t a n|k u hoy|k]; simpl.
  - rewrite agregar_libro_M.
    repeat (match goal with |- context [if ?c then _ else _] => destruct c end;
            [exact Rf|]).
    cbv zeta. intros p Hp. cbn [snd S.repositorio RM.libros RM.prestamos] in *.
    rewrite map_app. apply in_or_app. left. now apply Rf.
  - rewrite realizar_prestamo_M.
    destruct (vacio u || _); [exact Rf|]. cbv zeta.
    destruct (list_find _ _) as [[j b]|] eqn:Hf; [|exact Rf].
    destruct (negb _); [exact Rf|].
    destruct (buscar_Some Libro.id _ _ _ _ Hf) as [Hj Hid].
    intros p Hp. cbn [snd S.repositorio RM.libros RM.prestamos] in *.
    rewrite (map_clave_insert Libro.id _ _ _ _ Hj) by done.
    apply in_app_or in Hp as [Hp|[<-|[]]]; [now apply Rf|].
    simpl. rewrite <- Hid. apply in_map.
    apply list_elem_of_In. eapply list_elem_of_lookup_2, Hj.
  - rewrite devolver_libro_M. cbv zeta.
    destruct (list_find _ (RM.prestamos _)) as [[i p]|] eqn:Hp; [|exact Rf].
    destruct (Prestamo.devuelto p); [exact Rf|].
    destruct (buscar_Some Prestamo.id _ _ _ _ Hp) as [Hi Hid].
    assert (forall q,
      In q (<[i := Prestamo.set_devuelto true p]> (RM.prestamos (S.repositorio s))) ->
      In (Some (Prestamo.libro_id q)) (map Libro.id (RM.libros (S.repositorio s))))
      as Hq.
    { intros q Hq. apply list_elem_of_In, list_elem_of_lookup in Hq as [i' Hq].
      apply list_lookup_insert_Some in Hq as [(_ & <- & _)|[_ Hq]].
      - apply (Rf p), list_elem_of_In. eapply list_elem_of_lookup_2, Hi.
      - apply Rf, list_elem_of_In. eapply list_elem_of_lookup_2, Hq. }
    destruct (list_find _ (RM.libros _)) as [[j b]|] eqn:Hl;
      intros q Hin; cbn [snd S.repositorio RM.libros RM.prestamos] in *.
    + destruct (buscar_Some Libro.id _ _ _ _ Hl) as [Hj Hidb].
      rewrite (map_clave_insert Libro.id _ _ _ _ Hj) by done. now apply Hq.
    + now apply Hq.
Qed.

Lemma libros_con_id_uno k (bs : list Libro.t) :
  NoDup (map Libro.id bs) -> In (Some k) (map Libro.id bs) ->
  libros_con_id k bs = 1.
Proof.
  unfold libros_con_id. induction bs as [|b bs IH]; [done|].
  simpl. intros Hnd Hin. apply NoDup_cons in Hnd as [Hb Hnd].
  case_bool_decide as Hk; simpl.
  - f_equal. apply contar_cero. intros i x Hx.
    apply bool_decide_eq_false_2. intros Hxk. apply Hb.
    rewrite Hk, <- Hxk. apply list_elem_of_fmap_2.
    eapply list_elem_of_lookup_2, Hx.
  - destruct Hin as [Hin|Hin]; [congruence|]. now apply IH.
Qed.

Lemma referencias_cons b p ps :
  length (referencias_activas b (p :: ps))
  = (if bool_decide (Libro.id b = Some (Prestamo.libro_id p))
        && negb (Prestamo.devuelto p) then 1 else 0)
    + length (referencias_activas b ps).
Proof.
  unfold referencias_activas. simpl.
  now destruct (bool_decide _ && negb _).
Qed.

Lemma suma_referencias (bs : list Libro.t) (ps : list Prestamo.t) :
  NoDup (map Libro.id bs) ->
  (forall p, In p ps -> In (Some (Prestamo.libro_id p)) (map Libro.id bs)) ->
  suma (map (fun b => length (referencias_activas b ps)) bs)
  = length (List.filter (fun p => negb (Prestamo.devuelto p)) ps).
Proof.
  intros Hnd. induction ps as [|p ps IH]; intros Href.
  - simpl. induction bs as [|b bs IHb]; [done|]. simpl.
    apply NoDup_cons in Hnd as [_ Hnd]. now apply IHb.
  - assert (suma (map (fun b => length (referencias_activas b (p :: ps))) bs)
            = (if Prestamo.devuelto p then 0
               else libros_con_id (Prestamo.libro_id p) bs)
              + suma (map (fun b => length (referencias_activas b ps)) bs)) as ->.
    { clear. induction bs as [|b bs IHb].
      - simpl. now destruct (Prestamo.devuelto p).
      - cbn [map suma fold_right]. fold (suma (map (fun b => length (referencias_activas b (p :: ps))) bs)).
        fold (suma (map (fun b => length (referencias_activas b ps)) bs)).
        rewrite IHb, referencias_cons. unfold libros_con_id. simpl.
        destruct (Prestamo.devuelto p); simpl;
          rewrite ?andb_false_r, ?andb_true_r; [lia|].
        case_bool_decide; simpl; lia. }
    rewrite IH by (intros q Hq; apply Href; now right).
    simpl. destruct (Prestamo.devuelto p); simpl; [done|].
    rewrite libros_con_id_uno; [done|done|]. apply Href. now left.
Qed.

Lemma suma_no_disponibles (bs : list Libro.t) (f : Libro.t -> nat) :
  (forall b, In b bs -> f b = if Libro.disponible b then 0 else 1) ->
  length bs = length (List.filter Libro.disponible bs) + suma (map f bs).
Proof.
  induction bs as [|b bs IH]; intros Hf; [done|]. simpl.
  rewrite (Hf b) by now left.
  specialize (IH (fun x Hx => Hf x (or_intror Hx))).
  destruct (Libro.disponible b); simpl; lia.
Qed.

Section Cuentas.

Context {R : Type} `{Fiel R}.

Lemma alcanzable_referidos (s : S.t R) : alcanzable s -> referidos (datos s).
Proof.
  induction 1 as [s Hs|c s _ IH].
  - rewrite Hs. intros p [].
  - rewrite datos_ejecutar. now apply referidos_ejecutar.
Qed.

(** X15.  In every state reached from an empty repository the three
    listings of the service add up: the books are as many as the available
    books and the loans that are out taken together. *)
Theorem X15_libros_disponibles_y_prestados (s : S.t R) :
  alcanzable s ->
  length (S.obtener_todos_libros s)
  = length (S.obtener_libros_disponibles s)
    + length (S.obtener_prestamos_activos s).
Proof.
  intros Hs. unfold S.obtener_todos_libros, S.obtener_libros_disponibles,
    S.obtener_prestamos_activos.
  rewrite fiel_obtener_todos_libros, fiel_obtener_libros_disponibles,
    fiel_obtener_prestamos_activos.
  fold (datos s).
  unfold RM.obtener_todos_libros, RM.obtener_libros_disponibles,
    RM.obtener_prestamos_activos.
  pose proof (alcanzable_invariante s Hs) as [Iids Ind _ Iact].
  pose proof (alcanzable_referidos s Hs) as Rf.
  rewrite <- (suma_referencias (RM.libros (datos s)) _ Ind Rf).
  apply suma_no_disponibles. intros b Hb.
  apply list_elem_of_In, list_elem_of_lookup in Hb as [j Hj].
  destruct (Iids j b Hj) as (k & Hk & _).
  rewrite (referencias_activas_activos_de b k _ Hk). eauto.
Qed.

(** X16.  A loan that goes through adds exactly the new loan at the end of
    the loans that are out, and the book is found unavailable afterwards;
    a return that goes through takes one loan out of them. *)
Theorem X16_prestamos_activos (s : S.t R) :
  (forall libro_id usuario hoy,
     es_error (S.realizar_prestamo libro_id usuario hoy s).1 = false ->
     S.obtener_prestamos_activos (S.realizar_prestamo libro_id usuario hoy s).2
     = S.obtener_prestamos_activos s
       ++ [Prestamo.Prestamo_ (Some (RM.contador_prestamo (datos s))) libro_id
             usuario hoy false]
     /\ exists b,
          IR.obtener_libro_por_id libro_id (S.repositorio s) = Some b
          /\ Libro.disponible b = true
          /\ IR.obtener_libro_por_id libro_id
               (S.repositorio (S.realizar_prestamo libro_id usuario hoy s).2)
             = Some (Libro.set_disponible false b))
  /\ (forall prestamo_id,
        es_error (S.devolver_libro prestamo_id s).1 = false ->
        length (S.obtener_prestamos_activos (S.devolver_libro prestamo_id s).2) + 1
        = length (S.obtener_prestamos_activos s)).
Proof.
  split.
  - intros k u hoy Hok.
    pose proof (sim_ejecutar (RealizarPrestamo k u hoy) s) as [E1 _].
    pose proof (datos_ejecutar (RealizarPrestamo k u hoy) s) as E2.
    simpl in E1, E2. rewrite E1 in Hok. clear E1.
    unfold S.obtener_prestamos_activos.
    rewrite !fiel_obtener_prestamos_activos, !fiel_obtener_libro_por_id.
    fold (datos s) (datos (S.realizar_prestamo k u hoy s).2). rewrite E2. clear E2.
    rewrite realizar_prestamo_M in Hok |- *. cbv zeta in *.
    cbn [proyectar S.repositorio] in *.
    destruct (vacio u || _); [done|].
    unfold RM.obtener_libro_por_id, RM.obtener_prestamos_activos.
    destruct (list_find _ _) as [[j b]|] eqn:Hf; [|done].
    destruct (Libro.disponible b) eqn:Hd; [|done].
    destruct (buscar_Some Libro.id _ _ _ _ Hf) as [Hj Hid].
    cbn [negb snd S.repositorio RM.libros RM.prestamos]. split.
    + now rewrite List.filter_app.
    + exists b. split_and!; [done..|].
      now rewrite (buscar_tras_insert Libro.id _ (Some k) j b
                     (Libro.set_disponible false b) Hf Hid).
  - intros k Hok.
    pose proof (sim_ejecutar (DevolverLibro k) s) as [E1 _].
    pose proof (datos_ejecutar (DevolverLibro k) s) as E2.
    simpl in E1, E2. rewrite E1 in Hok. clear E1.
    unfold S.obtener_prestamos_activos.
    rewrite !fiel_obtener_prestamos_activos.
    fold (datos s) (datos (S.devolver_libro k s).2). rewrite E2. clear E2.
    rewrite devolver_libro_M in Hok |- *. cbv zeta in *.
    cbn [proyectar S.repositorio] in *.
    unfold RM.obtener_prestamos_activos.
    destruct (list_find _ (RM.prestamos _)) as [[i p]|] eqn:Hp; [|done].
    destruct (Prestamo.devuelto p) eqn:Hd; [done|].
    destruct (buscar_Some Prestamo.id _ _ _ _ Hp) as [Hi Hid].
    pose proof (contar_insert (fun q => negb (Prestamo.devuelto q))
                  (RM.prestamos (datos s)) i p (Prestamo.set_devuelto true p) Hi)
      as E.
    simpl in E. rewrite Hd in E. simpl in E.
    destruct (list_find _ (RM.libros _)) as [[j b]|];
      cbn [snd S.repositorio RM.prestamos]; lia.
Qed.

End Cuentas.

Lemma X15_libros_disponibles_y_prestados_witness :
  length (S.obtener_todos_libros s_prestado)
  = length (S.obtener_libros_disponibles s_prestado)
    + length (S.obtener_prestamos_activos s_prestado).
Proof.
  apply (X15_libros_disponibles_y_prestados s_prestado).
  apply alcanzable_todas. apply alcanzable_vacio. reflexivity.
Defined.

Lemma X16_prestamos_activos_witness :
  S.obtener_prestamos_activos
    (S.realizar_prestamo 1 (py "Juan Pérez") (py "2024-01-01") s_un_libro).2
  = S.obtener_prestamos_activos s_un_libro ++ [prestamo_juan].
Proof.
  destruct (X16_prestamos_activos s_un_libro) as [H _].
  destruct (H 1%Z (py "Juan Pérez") (py "2024-01-01")) as [H1 _].
  - vm_compute. reflexivity.
  - exact H1.
Defined.

(** *** ejercicio02.py follows the same steps *)

Lemma length_lstrip s : length (lstrip s) <= length s.
Proof.
  induction s as [|c s IH]; [done|]. simpl.
  destruct (isspace c); simpl; lia.
Qed.

Lemma len_strip_le s : (len (strip s) <= len s)%Z.
Proof.
  unfold len, strip, rstrip. rewrite length_rev.
  pose proof (length_lstrip (rev (lstrip s))) as H1.
  rewrite length_rev in H1. pose proof (length_lstrip s). lia.
Qed.

Lemma validar_usuario_vacio usuario :
  V.validar_usuario usuario = [] <-> (3 <= len (strip usuario))%Z.
Proof.
  unfold V.validar_usuario. cbv zeta. rewrite prueba_longitud by lia.
  destruct (Z.leb_spec 3 (len (strip usuario))); simpl; split;
    try done; lia.
Qed.

(** Each call of the service of ejercicio02.py either leaves the four
    attributes alone or changes them as the same call of the service of
    ejercicio03.py does. *)
Lemma paso_02 c (s : S2.t) :
  Ej02S2.datos (Ej02S.ejecutar c s).2 = Ej02S2.datos s
  \/ Ej02S2.datos (Ej02S.ejecutar c s).2
     = S.repositorio
         (Ej03S.ejecutar c (S.Sistema (Ej02S2.datos s) ∅ [])).2.
Proof.
  destruct c as [t a n|k u hoy|k]; simpl.
  - destruct (validar_libro_tabla t a n) as (Hv & _ & _).
    unfold S2.agregar_libro.
    destruct (V.validar_libro t a n) as [|e es] eqn:E; [|now left].
    right. cbn [bool_decide decide_rel negb]. rewrite agregar_libro_M.
    destruct Hv as [Hv _]. destruct (Hv eq_refl) as (H1 & H2 & H3).
    pose proof (len_strip_le t). pose proof (len_strip_le a).
    pose proof (len_strip_le n).
    rewrite !prueba_longitud_03 by lia.
    rewrite (proj2 (Z.leb_le 2 (len t))), (proj2 (Z.leb_le 3 (len a))),
      (proj2 (Z.leb_le 10 (len n))) by lia.
    reflexivity.
  - unfold S2.realizar_prestamo.
    destruct (V.validar_usuario u) as [|e es] eqn:E; [|now left].
    cbn [bool_decide decide_rel negb].
    apply validar_usuario_vacio in E. pose proof (len_strip_le u).
    unfold RB.obtener_libro_por_id.
    destruct (list_find _ (RB.libros _)) as [[j b]|] eqn:Hf;
      cbn [fmap option_fmap option_map snd]; [|now left].
    unfold V.validar_libro_disponible.
    destruct (Libro.disponible b) eqn:Hd; cbn [negb bool_decide decide_rel];
      [|now left].
    right. rewrite realizar_prestamo_M. rewrite prueba_longitud_03 by lia.
    rewrite (proj2 (Z.leb_le 3 (len u))) by lia. cbv zeta.
    cbn [negb S.repositorio Ej02S2.datos RM.libros]. rewrite Hf, Hd.
    cbn [negb snd S.repositorio].
    destruct (buscar_Some Libro.id _ _ _ _ Hf) as [Hj Hid].
    unfold RB.agregar_prestamo. cbv zeta.
    pose proof (actualizar_libro_encontrado_02
      (RB.Repo (RB.archivo (S2.repositorio s)) (RB.libros (S2.repositorio s))
         (RB.prestamos (S2.repositorio s)
          ++ [Prestamo.set_id (Some (RB.contador_prestamo (S2.repositorio s)))
                (Prestamo.Prestamo None k u hoy)])
         (RB.contador_libro (S2.repositorio s))
         (RB.contador_prestamo (S2.repositorio s) + 1))
      (RB._guardar_en_archivo
         (RB.Repo (RB.archivo (S2.repositorio s)) (RB.libros (S2.repositorio s))
            (RB.prestamos (S2.repositorio s)
             ++ [Prestamo.set_id (Some (RB.contador_prestamo (S2.repositorio s)))
                   (Prestamo.Prestamo None k u hoy)])
            (RB.contador_libro (S2.repositorio s))
            (RB.contador_prestamo (S2.repositorio s) + 1))
         (S2.disco s))
      k j b (Libro.set_disponible false b) Hf Hid) as E1.
    destruct (RB.actualizar_libro _ _ _) as [r1 d1]. simpl in E1. subst r1.
    reflexivity.
  - pose proof (devolver_libro_E k s) as E. cbv zeta in E.
    rewrite devolver_libro_M. cbv zeta.
    cbn [S.repositorio Ej02S2.datos RM.libros RM.prestamos].
    destruct (list_find _ (RB.prestamos _)) as [[i p]|] eqn:Hp;
      [|left; now rewrite E].
    destruct (Prestamo.devuelto p); [left; now rewrite E|].
    right. destruct E as (_ & E2 & E3 & E4 & E5).
    unfold Ej02S2.datos at 1. cbv zeta. rewrite E2, E3, E4.
    destruct (list_find _ (RB.libros _)) as [[j b]|];
      destruct E5 as [-> _]; reflexivity.
Qed.

Lemma alcanzable_02_invariantes (s : S2.t) :
  Ej02S2.alcanzable s ->
  invariante (Ej02S2.datos s) /\ numerado (Ej02S2.datos s)
  /\ referidos (Ej02S2.datos s).
Proof.
  induction 1 as [d|c s _ (I & N & Rf)].
  - split_and!; [apply invariante_nuevo|apply numerado_nuevo|intros p []].
  - destruct (paso_02 c s) as [->| ->]; [done|]. split_and!.
    + now apply (invariante_ejecutar c (S.Sistema (Ej02S2.datos s) ∅ [])).
    + now apply (numerado_ejecutar c (S.Sistema (Ej02S2.datos s) ∅ [])).
    + now apply (referidos_ejecutar c (S.Sistema (Ej02S2.datos s) ∅ [])).
Qed.

(** X17.  The service of ejercicio02.py keeps what the service of
    ejercicio03.py keeps.  In every state it reaches from a new one: a
    stored book is unavailable exactly when one loan that is out points at
    it; the ids of books and of loans are 1, 2, ... in the order of the
    lists; and the books are as many as the available books and the loans
    that are out together. *)
Theorem X17_invariantes_02 (s : S2.t) :
  Ej02S2.alcanzable s ->
  (forall b, In b (S2.obtener_todos_libros s) ->
     Libro.disponible b = false
     <-> length (referencias_activas b (RB.prestamos (S2.repositorio s))) = 1)
  /\ map Libro.id (S2.obtener_todos_libros s)
     = ids_consecutivos (length (S2.obtener_todos_libros s))
  /\ map Prestamo.id (RB.prestamos (S2.repositorio s))
     = ids_consecutivos (length (RB.prestamos (S2.repositorio s)))
  /\ length (S2.obtener_todos_libros s)
     = length (S2.obtener_libros_disponibles s)
       + length (S2.obtener_prestamos_activos s).
Proof.
  intros Hs.
  destruct (alcanzable_02_invariantes s Hs) as ([Iids Ind _ Iact] & [N1 _ N3 _] & Rf).
  unfold S2.obtener_todos_libros, S2.obtener_libros_disponibles,
    S2.obtener_prestamos_activos, RB.obtener_todos_libros,
    RB.obtener_libros_disponibles, RB.obtener_prestamos_activos.
  unfold Ej02S2.datos, referidos in *.
  cbn [RM.libros RM.prestamos RM.contador_libro RM.contador_prestamo] in *.
  split_and!; [|done|done|].
  - intros b Hb. apply list_elem_of_In, list_elem_of_lookup in Hb as [j Hj].
    destruct (Iids j b Hj) as (k & Hk & _).
    rewrite (referencias_activas_activos_de b k _ Hk), (Iact j b k Hj Hk).
    destruct (Libro.disponible b); split; congruence.
  - rewrite <- (suma_referencias (RB.libros (S2.repositorio s)) _ Ind Rf).
    apply suma_no_disponibles. intros b Hb.
    apply list_elem_of_In, list_elem_of_lookup in Hb as [j Hj].
    destruct (Iids j b Hj) as (k & Hk & _).
    rewrite (referencias_activas_activos_de b k _ Hk). eauto.
Qed.

Lemma X17_invariantes_02_witness :
  length
    (S2.obtener_todos_libros
       (Ej02S.ejecutar_todas llamadas_prestamo s2_vacio))
  = length
      (S2.obtener_libros_disponibles
         (Ej02S.ejecutar_todas llamadas_prestamo s2_vacio))
    + length
        (S2.obtener_prestamos_activos
           (Ej02S.ejecutar_todas llamadas_prestamo s2_vacio)).
Proof.
  apply (X17_invariantes_02 (Ej02S.ejecutar_todas llamadas_prestamo s2_vacio)).
  unfold Ej02S.ejecutar_todas, llamadas_prestamo.
  cbn [fold_left]. do 2 apply Ej02S2.alcanzable_paso.
  apply Ej02S2.alcanzable_nuevo.
Defined.

(** *** Searching through the services *)

Lemma eqb_criterios :
  Py.eqb (py "autor") (py "titulo") = false
  /\ Py.eqb (py "isbn") (py "titulo") = false
  /\ Py.eqb (py "isbn") (py "autor") = false
  /\ Py.eqb (py "disponible") (py "titulo") = false
  /\ Py.eqb (py "disponible") (py "autor") = false
  /\ Py.eqb (py "disponible") (py "isbn") = false.
Proof. vm_compute. done. Qed.

Lemma eqb_refl s : Py.eqb s s = true.
Proof. unfold Py.eqb. now apply bool_decide_eq_true_2. Qed.

(** X18.  The [buscar_libro] of the two services answers as the strategy
    registered under the same name in ejercicio01.py does on the same
    books: always for titulo, autor and isbn, and for disponible whenever
    the lowered query is none of "1", "si", "sí", "yes". *)
Theorem X18_buscar_como_estrategia (R : Type) (HR : IR.t R) (s : S.t R)
    (s2 : S2.t) (criterio valor : str) (e : Ej01.EstrategiaBusqueda) :
  Ej01._estrategias_busqueda Ej01.nuevo !! criterio = Some e ->
  (criterio = py "disponible" ->
   ~ In (lower valor) [py "1"; py "si"; py "sí"; py "yes"]) ->
  S.buscar_libro criterio valor s
  = Ej01.buscar e (S.obtener_todos_libros s) valor
  /\ S2.buscar_libro criterio valor s2
     = Ej01.buscar e (S2.obtener_todos_libros s2) valor.
Proof.
  intros He Hd. rewrite estrategias_nuevo_lookup in He.
  destruct eqb_criterios as (E1 & E2 & E3 & E4 & E5 & E6).
  unfold S.buscar_libro, S2.buscar_libro, S.obtener_todos_libros,
    S2.obtener_todos_libros, RB.obtener_todos_libros.
  repeat case_decide; try discriminate; subst criterio; injection He as <-;
    rewrite ?eqb_refl, ?E1, ?E2, ?E3, ?E4, ?E5, ?E6; try done.
  assert (Py.eqb (lower valor) (py "true")
          = existsb (Py.eqb (lower valor)) Ej01.tokens_verdaderos) as ->; [|done].
  specialize (Hd eq_refl). unfold Ej01.tokens_verdaderos.
  cbn [existsb]. unfold Py.eqb at 3 4 5 6.
  rewrite !bool_decide_eq_false_2, !orb_false_r; [done|..];
    intros Heq; apply Hd; rewrite Heq; simpl; auto.
Qed.

Lemma X18_buscar_como_estrategia_witness :
  S.buscar_libro (py "autor") (py "garcía") s_un_libro
  = Ej01.buscar Ej01.BusquedaPorAutor (S.obtener_todos_libros s_un_libro)
      (py "garcía").
Proof.
  destruct (X18_buscar_como_estrategia RM.t _ s_un_libro s2_vacio (py "autor")
              (py "garcía") Ej01.BusquedaPorAutor) as [H _].
  - vm_compute. reflexivity.
  - intros Hc. vm_compute in Hc. discriminate Hc.
  - exact H.
Defined.

Lemma filter_sublist {A} (f : A -> bool) l : sublist (List.filter f l) l.
Proof.
  induction l as [|a l IH]; simpl; [constructor|].
  destruct (f a); now constructor.
Qed.

(** X19.  Every strategy of ejercicio01.py, the four registered at the
    start and the keyword strategy of the demonstration, returns books it
    was given, in the order it was given them; and the keyword strategy
    returns a book exactly when the title strategy or the author strategy
    returns it. *)
Theorem X19_estrategias_filtran (libros : list Libro.t) (valor : str) :
  Forall (fun e => sublist (Ej01.buscar e libros valor) libros)
    [Ej01.BusquedaPorTitulo; Ej01.BusquedaPorAutor; Ej01.BusquedaPorISBN;
     Ej01.BusquedaPorDisponibilidad; Ej01Demo.BusquedaPorPalabraClave]
  /\ forall b,
       In b (Ej01.buscar Ej01Demo.BusquedaPorPalabraClave libros valor)
       <-> In b (Ej01.buscar Ej01.BusquedaPorTitulo libros valor)
           \/ In b (Ej01.buscar Ej01.BusquedaPorAutor libros valor).
Proof.
  split.
  - repeat constructor; apply filter_sublist.
  - intros b. simpl. rewrite !filter_In, orb_true_iff. tauto.
Qed.

(** *** ejercicio02.py: lending *)

(** X20.  [realizar_prestamo] of ejercicio02.py checks the user first,
    trimmed, then the book: a short user name is refused whatever the book,
    then a missing book, then a book that is out, each with its own text and
    no change; otherwise the loan is stored at the end under the next id,
    the book found is marked unavailable, and one notice is printed. *)
Theorem X20_realizar_prestamo_02 (libro_id : Z) (usuario hoy : str) (s : S2.t) :
  let r := S2.repositorio s in
  let res := S2.realizar_prestamo libro_id usuario hoy s in
  ((len (strip usuario) < 3)%Z ->
   res = (py "Error: Nombre de usuario inválido - debe tener al menos 3 caracteres", s))
  /\ ((3 <= len (strip usuario))%Z ->
      match list_find (fun l => Libro.id l = Some libro_id) (RB.libros r) with
      | None => res = (py "Error: Libro no encontrado", s)
      | Some (j, libro) =>
          if Libro.disponible libro then
            res.1 = py "Préstamo realizado a " ++ usuario
                    ++ py " (ID Préstamo: "
                    ++ str_of_int (RB.contador_prestamo r) ++ py ")"
            /\ RB.libros (S2.repositorio res.2)
               = <[j := Libro.set_disponible false libro]> (RB.libros r)
            /\ RB.prestamos (S2.repositorio res.2)
               = RB.prestamos r
                 ++ [Prestamo.Prestamo_ (Some (RB.contador_prestamo r))
                       libro_id usuario hoy false]
            /\ RB.contador_prestamo (S2.repositorio res.2)
               = (RB.contador_prestamo r + 1)%Z
            /\ RB.contador_libro (S2.repositorio res.2) = RB.contador_libro r
            /\ S2.salida res.2
               = S2.salida s
                 ++ [ServicioNotificaciones.enviar_notificacion_prestamo
                       usuario (Libro.titulo libro)]
          else res = (py "Error: Libro no disponible", s)
      end).
Proof.
  cbv zeta. unfold S2.realizar_prestamo. split.
  - intros Hu. unfold V.validar_usuario. cbv zeta.
    rewrite prueba_longitud by lia.
    rewrite (proj2 (Z.leb_gt 3 (len (strip usuario)))) by done.
    reflexivity.
  - intros Hu. apply validar_usuario_vacio in Hu. rewrite Hu.
    cbn [bool_decide decide_rel negb]. unfold RB.obtener_libro_por_id.
    destruct (list_find _ (RB.libros _)) as [[j b]|] eqn:Hf;
      cbn [fmap option_fmap option_map snd]; [|done].
    unfold V.validar_libro_disponible.
    destruct (Libro.disponible b) eqn:Hd; cbn [negb bool_decide decide_rel];
      [|done].
    destruct (buscar_Some Libro.id _ _ _ _ Hf) as [Hj Hid].
    unfold RB.agregar_prestamo. cbv zeta.
    pose proof (actualizar_libro_encontrado_02
      (RB.Repo (RB.archivo (S2.repositorio s)) (RB.libros (S2.repositorio s))
         (RB.prestamos (S2.repositorio s)
          ++ [Prestamo.set_id (Some (RB.contador_prestamo (S2.repositorio s)))
                (Prestamo.Prestamo None libro_id usuario hoy)])
         (RB.contador_libro (S2.repositorio s))
         (RB.contador_prestamo (S2.repositorio s) + 1))
      (RB._guardar_en_archivo
         (RB.Repo (RB.archivo (S2.repositorio s)) (RB.libros (S2.repositorio s))
            (RB.prestamos (S2.repositorio s)
             ++ [Prestamo.set_id (Some (RB.contador_prestamo (S2.repositorio s)))
                   (Prestamo.Prestamo None libro_id usuario hoy)])
            (RB.contador_libro (S2.repositorio s))
            (RB.contador_prestamo (S2.repositorio s) + 1))
         (S2.disco s))
      libro_id j b (Libro.set_disponible false b) Hf Hid) as E1.
    destruct (RB.actualizar_libro _ _ _) as [r1 d1]. simpl in E1. subst r1.
    done.
Qed.

Lemma X20_realizar_prestamo_02_witness :
  S2.realizar_prestamo 2 (py " Jo ") (py "2024-01-01") s2_vacio
  = (py "Error: Nombre de usuario inválido - debe tener al menos 3 caracteres",
     s2_vacio).
Proof.
  destruct (X20_realizar_prestamo_02 2%Z (py " Jo ") (py "2024-01-01") s2_vacio)
    as [H _].
  apply H. vm_compute. reflexivity.
Defined.

(** *** ejercicio02.py: the file *)

Lemma guardado_02 (r : RB.t) d sal :
  let s := S2.Sistema r (RB._guardar_en_archivo r d) sal in
  S2.disco s !! RB.archivo (S2.repositorio s) = Some (cuentas_02 (S2.repositorio s)).
Proof. cbv zeta. simpl. unfold RB._guardar_en_archivo. apply lookup_insert_eq. Qed.

(** X21.  The repository of ejercicio02.py keeps only two counts on disk.
    No call of the service changes the name of the file or touches another
    file; and after every call that is not refused, the file holds the
    number of books and the number of loans of the new state, each on its
    line, and nothing else, so that no record can be read back from it. *)
Theorem X21_archivo_02 (c : Llamada) (s : S2.t) :
  RB.archivo (S2.repositorio (Ej02S.ejecutar c s).2)
  = RB.archivo (S2.repositorio s)
  /\ (forall ruta, ruta <> RB.archivo (S2.repositorio s) ->
      S2.disco (Ej02S.ejecutar c s).2 !! ruta = S2.disco s !! ruta)
  /\ (es_error (Ej02S.ejecutar c s).1 = false ->
      S2.disco (Ej02S.ejecutar c s).2
        !! RB.archivo (S2.repositorio (Ej02S.ejecutar c s).2)
      = Some (cuentas_02 (S2.repositorio (Ej02S.ejecutar c s).2))).
Proof.
  split_and!.
  - destruct c as [t a n|k u hoy|k]; simpl.
    + unfold S2.agregar_libro. now destruct (negb _).
    + unfold S2.realizar_prestamo. destruct (negb _); [done|].
      destruct (RB.obtener_libro_por_id _ _) as [b|]; [|done].
      destruct (negb _); [done|].
      unfold RB.agregar_prestamo, RB.actualizar_libro. cbv zeta.
      cbn [RB.libros]. now destruct (list_find _ _) as [[j x]|].
    + unfold S2.devolver_libro.
      destruct (RB.obtener_prestamo_por_id _ _) as [p|]; [|done].
      destruct (negb _); [done|].
      destruct (RB.obtener_libro_por_id _ _) as [b|].
      * unfold RB.actualizar_libro, RB.actualizar_prestamo. cbv zeta.
        destruct (list_find _ (RB.libros _)) as [[j x]|];
          cbn [RB.prestamos];
          now destruct (list_find _ (RB.prestamos _)) as [[i y]|].
      * unfold RB.actualizar_prestamo. cbv zeta.
        now destruct (list_find _ (RB.prestamos _)) as [[i y]|].
  - intros ruta Hr. destruct c as [t a n|k u hoy|k]; simpl.
    + unfold S2.agregar_libro. destruct (negb _); [done|].
      simpl. unfold RB._guardar_en_archivo. now rewrite lookup_insert_ne.
    + unfold S2.realizar_prestamo. destruct (negb _); [done|].
      destruct (RB.obtener_libro_por_id _ _) as [b|]; [|done].
      destruct (negb _); [done|].
      unfold RB.agregar_prestamo, RB.actualizar_libro. cbv zeta.
      cbn [RB.libros].
      destruct (list_find _ _) as [[j x]|]; simpl;
        unfold RB._guardar_en_archivo; simpl;
        now rewrite !lookup_insert_ne.
    + unfold S2.devolver_libro.
      destruct (RB.obtener_prestamo_por_id _ _) as [p|]; [|done].
      destruct (negb _); [done|].
      destruct (RB.obtener_libro_por_id _ _) as [b|].
      * unfold RB.actualizar_libro, RB.actualizar_prestamo. cbv zeta.
        destruct (list_find _ (RB.libros _)) as [[j x]|];
          cbn [RB.prestamos];
          destruct (list_find _ (RB.prestamos _)) as [[i y]|]; simpl;
          unfold RB._guardar_en_archivo; simpl;
          now rewrite !lookup_insert_ne.
      * unfold RB.actualizar_prestamo. cbv zeta.
        destruct (list_find _ (RB.prestamos _)) as [[i y]|]; simpl;
          unfold RB._guardar_en_archivo; simpl;
          now rewrite !lookup_insert_ne.
  - intros Hok.
    destruct c as [t a n|k u hoy|k]; simpl in *.
    + unfold S2.agregar_libro in *.
      destruct (validar_libro_tabla t a n) as (_ & _ & Herr).
      destruct (V.validar_libro t a n) as [|e es] eqn:E.
      * apply guardado_02.
      * exfalso. rewrite bool_decide_eq_false_2 in Hok by discriminate.
        cbn [negb fst] in Hok. now rewrite es_error_join in Hok.
    + unfold S2.realizar_prestamo in *.
      pose proof (validar_usuario_errores u) as Herr.
      destruct (V.validar_usuario u) as [|e es] eqn:E.
      2: { exfalso. rewrite bool_decide_eq_false_2 in Hok by discriminate.
           cbn [negb fst] in Hok. now rewrite es_error_join in Hok. }
      cbn [bool_decide decide_rel negb] in *.
      destruct (RB.obtener_libro_por_id _ _) as [b|]; [|done].
      cbn [V.validar_libro_disponible] in *.
      destruct (negb (Libro.disponible b)); [done|].
      cbn [bool_decide decide_rel negb] in *.
      unfold RB.agregar_prestamo, RB.actualizar_libro. cbv zeta.
      cbn [RB.libros]. destruct (list_find _ _) as [[j x]|]; apply guardado_02.
    + unfold S2.devolver_libro in *.
      destruct (RB.obtener_prestamo_por_id _ _) as [p|]; [|done].
      cbn [V.validar_prestamo_existente] in *.
      destruct (Prestamo.devuelto p); [done|].
      cbn [bool_decide decide_rel negb] in *.
      destruct (RB.obtener_libro_por_id _ _) as [b|].
      * unfold RB.actualizar_libro, RB.actualizar_prestamo. cbv zeta.
        destruct (list_find _ (RB.libros _)) as [[j x]|];
          cbn [RB.prestamos];
          destruct (list_find _ (RB.prestamos _)) as [[i y]|];
          apply guardado_02.
      * unfold RB.actualizar_prestamo. cbv zeta.
        destruct (list_find _ (RB.prestamos _)) as [[i y]|];
          apply guardado_02.
Qed.

Lemma X21_archivo_02_witness :
  S2.disco
    (Ej02S.ejecutar (AgregarLibro (py "1984") (py "George Orwell")
                       (py "9780451524935")) s2_vacio).2
    !! py "biblioteca.txt"
  = Some (py "Libros: 1" ++ [NL] ++ py "Préstamos: 0" ++ [NL]).
Proof.
  destruct (X21_archivo_02
              (AgregarLibro (py "1984") (py "George Orwell") (py "9780451524935"))
              s2_vacio) as (_ & _ & H).
  etransitivity; [apply H|]; vm_compute; reflexivity.
Defined.

End Extras.
